(** * Job Application Tracker: the front-end helpers of [script.js]

    A shallow embedding of the browser script: the pure parts (status
    counters, statistics card, HTML escaping, JSON reading, notification
    badge and dropdown, login reminders, interview counters and labels,
    month names, API addresses) and the steps that act on the page and
    the session (navigation between sections, theme, toasts, notification
    polling, logout, the password form), with the properties the
    specification states about them and those the code shows by itself.

    Conventions of the embedding:
    - a JavaScript string is a [string]; every pattern the script matches
      on is an ASCII character, so working on bytes instead of UTF-16 code
      units changes nothing;
    - a JavaScript number that holds a count, an identifier or a time value
      in milliseconds is an integer [Z]; [NaN] is kept apart;
    - the quotient of two numbers is a rational that goes through the
      rounding [rnd] of the number format (see [Section Percentages]);
      [double] is that rounding for IEEE 754 doubles;
    - an object used as a map is a [gmap] of its own properties, looked up
      through [Object.prototype] as the language does;
    - a function that can throw returns a [completion];
    - DOM elements are records of the attributes the script writes. *)

From Stdlib Require Import ZArith QArith Qround Qabs Qpower Lqa.
From Stdlib Require Import String Ascii List Lia DecimalString.
From stdpp Require Import base gmap strings list sorting.

Set Warnings "-register-all".

Open Scope string_scope.
Open Scope Z_scope.

(** ** JavaScript values *)

Module JS.

(** The outcome of evaluating an expression or awaiting a promise. *)
Inductive completion (A : Type) : Type :=
| Normal (a : A)
| Throw (err : string).
Arguments Normal {A} a.
Arguments Throw {A} err.

#[global] Instance completion_ret : MRet completion := fun A a => Normal a.

#[global] Instance completion_bind : MBind completion :=
  fun A B k c =>
    match c with
    | Normal a => k a
    | Throw e => Throw e
    end.

(** [try { body } catch { handler }]. *)
Definition try_catch {A : Type} (body : completion A) (handler : string -> completion A)
  : completion A :=
  match body with
  | Normal a => Normal a
  | Throw e => handler e
  end.

Inductive number : Type :=
| Int (n : Z)
| NaN.

(** The values [JSON.parse] builds, [undefined], and the built-in objects
    and functions reachable from an object literal through its prototype. *)
Inductive value : Type :=
| Undefined
| Null
| Bool (b : bool)
| Num (x : number)
| Str (s : string)
| Arr (elems : list value)
| Obj (props : list (string * value))
| Builtin (name : string).

#[global] Instance number_eq_dec : EqDecision number.
Proof. solve_decision. Defined.

(** The double quote character. *)
Definition dquote : ascii := "034"%char.

(** [String(n)] for an integer below 10^21 in magnitude: its decimal numeral. *)
Definition Z_to_string (n : Z) : string := NilZero.string_of_int (Z.to_int n).

(** [String(v)] on the values the script meets: what [JSON.parse]
    returns, [undefined], and a function of [Object.prototype] taken alone.
    A parsed object has [Object.prototype] for prototype and data for own
    properties: with an own [toString], which is no function, the
    conversion falls back on [valueOf], gets the object itself and throws
    a TypeError; without one it gives [[object Object]]. An array joins
    its elements with commas, [null] and [undefined] elements giving the
    empty string. Outside this definition: an object that holds a function
    as its own [toString] or [valueOf] (String would call it), and an
    integer of 10^21 or more in magnitude (printed with an exponent). *)
Fixpoint ToString (v : value) : completion string :=
  match v with
  | Undefined => Normal "undefined"
  | Null => Normal "null"
  | Bool true => Normal "true"
  | Bool false => Normal "false"
  | Num (Int n) => Normal (Z_to_string n)
  | Num NaN => Normal "NaN"
  | Str s => Normal s
  | Arr elems =>
      (fix join (l : list value) : completion string :=
         match l with
         | [] => Normal ""
         | x :: r =>
             sx ← match x with
                  | Undefined | Null => Normal ""
                  | _ => ToString x
                  end;
             match r with
             | [] => Normal sx
             | _ :: _ => sr ← join r; Normal (sx +:+ "," +:+ sr)
             end
         end) elems
  | Obj props =>
      if bool_decide ("toString" ∈ props.*1) then Throw "TypeError"
      else Normal "[object Object]"
  | Builtin name => Normal ("function " +:+ name +:+ "() { [native code] }")
  end.

(** [ToBoolean(v)]. *)
Definition ToBoolean (v : value) : bool :=
  match v with
  | Undefined | Null => false
  | Bool b => b
  | Num (Int n) => negb (n =? 0)
  | Num NaN => false
  | Str s => negb (String.eqb s "")
  | Arr _ | Obj _ | Builtin _ => true
  end.

(** [a || b]. *)
Definition or_else (a b : value) : value := if ToBoolean a then a else b.

(** [a ?? b]. *)
Definition nullish (a b : value) : value :=
  match a with
  | Undefined | Null => b
  | _ => a
  end.

(** The property names every object literal inherits from
    [Object.prototype]. *)
Definition Object_prototype_keys : list string :=
  [ "constructor"; "toString"; "toLocaleString"; "valueOf"; "hasOwnProperty";
    "isPrototypeOf"; "propertyIsEnumerable"; "__proto__"; "__defineGetter__";
    "__defineSetter__"; "__lookupGetter__"; "__lookupSetter__" ].

Definition Object_prototype (key : string) : value :=
  if bool_decide (key ∈ Object_prototype_keys) then
    if String.eqb key "constructor" then Builtin "Object"
    else if String.eqb key "__proto__" then Obj []
    else Builtin key
  else Undefined.

(** [o[key]] for an object literal [o] with own properties [own]. *)
Definition get (own : gmap string value) (key : string) : value :=
  match own !! key with
  | Some v => v
  | None => Object_prototype key
  end.

(** [s.replaceAll(pat, rep)] for a one-character pattern and a replacement
    without [$]: every occurrence, left to right. *)
Fixpoint replaceAll (pat : ascii) (rep : string) (s : string) : string :=
  match s with
  | EmptyString => EmptyString
  | String c s' =>
      if Ascii.eqb c pat then rep +:+ replaceAll pat rep s'
      else String c (replaceAll pat rep s')
  end.

End JS.

Import JS.

(** ** HTML escaping *)

Module Html.

Section Conversion.

(** [String], the conversion of the platform. *)
Variable String_of : value -> completion string.

(** [escapeHtml(v)]:
    String(v ?? "") with &, <, >, double quote and ' replaced in this order. *)
Definition escapeHtml_with (v : value) : completion string :=
  s ← String_of (nullish v (Str ""));
  Normal
    (replaceAll "'" "&#039;"
       (replaceAll dquote "&quot;"
          (replaceAll ">" "&gt;"
             (replaceAll "<" "&lt;"
                (replaceAll "&" "&amp;" s))))).

End Conversion.

(** [escapeHtml(v)] with the conversion [ToString] of this file. *)
Definition escapeHtml (v : value) : completion string :=
  escapeHtml_with ToString v.

(** The entities [escapeHtml] writes. *)
Definition entities : list string :=
  [ "&amp;"; "&lt;"; "&gt;"; "&quot;"; "&#039;" ].

(** The characters that must not reach the markup unescaped. *)
Definition raw_chars : list ascii := [ "<"; ">"; dquote; "'" ]%char.

(** No character of [s] is a raw one. *)
Definition chars_ok (s : string) : Prop :=
  forall i c, String.get i s = Some c -> ~ In c raw_chars.

(** What the five passes do to one character. *)
Definition escapeChar (c : ascii) : string :=
  if Ascii.eqb c "&" then "&amp;"
  else if Ascii.eqb c "<" then "&lt;"
  else if Ascii.eqb c ">" then "&gt;"
  else if Ascii.eqb c dquote then "&quot;"
  else if Ascii.eqb c "'" then "&#039;"
  else String c "".

Fixpoint escapeChars (s : string) : string :=
  match s with
  | EmptyString => EmptyString
  | String c s' => escapeChar c +:+ escapeChars s'
  end.

End Html.

(** ** Reading a response body *)

Module Http.

(** A fetch response: the [ok] flag and what [response.text()] resolves
    to (it rejects when the body cannot be read). *)
Record Response : Type := {
  ok : bool;
  text : completion string
}.

Section SafeJson.

(** [JSON.parse], the platform's parser: it throws on malformed text. *)
Variable JSON_parse : string -> completion value.

(** [safeJson(response)]. *)
Definition safeJson (response : Response) : completion value :=
  try_catch
    (txt ← text response;
     if String.eqb txt "" then Normal Null
     else JSON_parse txt)
    (fun _ => Normal Null).

End SafeJson.

(** A parser for the JSON literals, enough to run [safeJson]. *)
Definition parse_literal (s : string) : completion value :=
  if String.eqb s "null" then Normal Null
  else if String.eqb s "true" then Normal (Bool true)
  else if String.eqb s "false" then Normal (Bool false)
  else if String.eqb s "[]" then Normal (Arr [])
  else if String.eqb s "{}" then Normal (Obj [])
  else Throw "SyntaxError".

End Http.

(** ** Status counters and labels of the dashboard *)

Module Dashboard.

(** An application as the API returns it. *)
Record application : Type := {
  app_id : Z;
  nome : string;
  empresa : string;
  data : string;
  role : string;
  status : string;
  chance : Z
}.

(** The elements [setText] writes to: [textContent] by element id. An id
    without a binding has no element in the page. *)
Definition set_textContent (id s : string) (doc : gmap string string)
  : gmap string string :=
  match doc !! id with
  | Some _ => <[id := s]> doc
  | None => doc
  end.

(** [setText(id, value)]: the text is String(value), converted only when
    the element exists. *)
Definition setText (id : string) (v : value) (doc : gmap string string)
  : completion (gmap string string) :=
  match doc !! id with
  | Some _ => s ← ToString v; Normal (<[id := s]> doc)
  | None => Normal doc
  end.

(** The object literal [stats] of [updateStats]; its own properties hold
    numbers throughout. *)
Definition initial_stats (applications : list application) : gmap string number :=
  <["esperando" := Int 0]>
    (<["entrevista" := Int 0]>
       (<["rejeitado" := Int 0]>
          (<["total" := Int (Z.of_nat (length applications))]> ∅))).

(** [stats[key]]: an own property, else what [Object.prototype] has. *)
Definition lookup_stat (stats : gmap string number) (key : string) : value :=
  match stats !! key with
  | Some x => Num x
  | None => Object_prototype key
  end.

Definition is_undefined (v : value) : bool :=
  match v with
  | Undefined => true
  | _ => false
  end.

Definition number_succ (x : number) : number :=
  match x with
  | Int n => Int (n + 1)
  | NaN => NaN
  end.

(** [stats[key]++]. An own number is incremented. An inherited function or
    object converts to NaN, and NaN + 1 is stored as an own property,
    except under [__proto__], whose setter ignores a number. *)
Definition increment (stats : gmap string number) (key : string) : gmap string number :=
  match stats !! key with
  | Some x => <[key := number_succ x]> stats
  | None =>
      if String.eqb key "__proto__" then stats
      else <[key := NaN]> stats
  end.

(** The body of the [forEach] callback. *)
Definition count_application (stats : gmap string number) (app : application)
  : gmap string number :=
  if negb (is_undefined (lookup_stat stats (status app)))
  then increment stats (status app)
  else stats.

(** [stats] after the [forEach]. *)
Definition count_statuses (applications : list application) : gmap string number :=
  fold_left count_application applications (initial_stats applications).

(** [updateStats(applications)]. *)
Definition updateStats (applications : list application) (doc : gmap string string)
  : completion (gmap string string) :=
  let stats := count_statuses applications in
  doc ← setText "statEsperando" (lookup_stat stats "esperando") doc;
  doc ← setText "statEntrevista" (lookup_stat stats "entrevista") doc;
  doc ← setText "statRejeitado" (lookup_stat stats "rejeitado") doc;
  setText "statTotal" (lookup_stat stats "total") doc.

(** The icons of [getStatusIcon]. *)
Definition icon_hourglass : string := "⏳".
Definition icon_target : string := "🎯".
Definition icon_cross : string := "❌".
Definition icon_memo : string := "📝".

Definition icons : gmap string value :=
  <["esperando" := Str icon_hourglass]>
    (<["entrevista" := Str icon_target]>
       (<["rejeitado" := Str icon_cross]> ∅)).

Definition texts : gmap string value :=
  <["esperando" := Str "Esperando"]>
    (<["entrevista" := Str "Entrevista"]>
       (<["rejeitado" := Str "Rejeitado"]> ∅)).

(** [getStatusIcon(status)]: icons[status] || memo. *)
Definition getStatusIcon (status : string) : value :=
  or_else (get icons status) (Str icon_memo).

(** [getStatusText(status)]: texts[status] || status. *)
Definition getStatusText (status : string) : value :=
  or_else (get texts status) (Str status).

(** The statuses the dashboard knows. *)
Definition known_statuses : list string := [ "esperando"; "entrevista"; "rejeitado" ].

(** The number of applications carrying a status. *)
Definition count_status (s : string) (applications : list application) : Z :=
  Z.of_nat (length (filter (fun app => status app = s) applications)).

(** The ids of the four counters. *)
Definition stat_ids : list string :=
  [ "statEsperando"; "statEntrevista"; "statRejeitado"; "statTotal" ].

(** A page with the four counters, and an application of a given status. *)
Definition counters : gmap string string :=
  <["statEsperando" := "0"]>
    (<["statEntrevista" := "0"]>
       (<["statRejeitado" := "0"]>
          (<["statTotal" := "0"]> ∅))).

Definition app_with (s : string) : application :=
  {| app_id := 1; nome := "Dev Python"; empresa := "Petrobras"; data := "2024-01-29";
     role := "Backend"; status := s; chance := 80 |}.

End Dashboard.

(** ** The statistics card of the profile page *)

Module Profile.

(** The object of the statistics endpoint, as [renderStats] reads it. A
    field that is [null] or missing is [None]. *)
Record Stats : Type := {
  total : Z;
  esperando : Z;
  entrevista : Z;
  rejeitado : Z;
  taxa_conversao : Z;
  empresa_top : option string;
  empresa_top_count : Z;
  mes_mais_ativo : option string;
  mes_mais_ativo_count : Z;
  primeira_candidatura : option string;
  ultima_entrevista : option string
}.

(** [Math.round(x)]: the nearest integer, a tie going up. *)
Definition Math_round (x : Q) : Z := Qfloor (x + (1 # 2)).

Section Percentages.

(** The rounding of the number format: the operators [/] and [*] return
    the exact result rounded to a representable number. *)
Variable rnd : Q -> Q.

(** [a / b]. A zero divisor gives Infinity or NaN, which no rational
    stands for: [None]. *)
Definition divide (a b : Z) : option Q :=
  if b =? 0 then None
  else Some (rnd (inject_Z a / inject_Z b)).

(** [x * k]. *)
Definition times (x : Q) (k : Z) : Q := rnd (x * inject_Z k).

(** total > 0 ? Math.round((count / total) * 100) : 0 *)
Definition percentage (count total : Z) : option Z :=
  if 0 <? total then
    q ← divide count total;
    Some (Math_round (times q 100))
  else Some 0.

Definition percEsperando (stats : Stats) : option Z :=
  percentage (esperando stats) (total stats).

Definition percEntrevista (stats : Stats) : option Z :=
  percentage (entrevista stats) (total stats).

Definition percRejeitado (stats : Stats) : option Z :=
  percentage (rejeitado stats) (total stats).

End Percentages.

(** The exact arithmetic: nothing is rounded. *)
Definition exact (x : Q) : Q := x.

(** *** The number format

    A number of the language is an IEEE 754 double, and an operator
    returns the double nearest to its exact result, a tie going to the
    even significand. [double x] is that double for the exact result [x]:
    a significand of 53 bits, [round_half_even] of [x] scaled by the power
    of two [binade x] that brings it between 2^52 and 2^53. The exponent
    is left unbounded, which is exact from 2^-1022 to 2^1024 in
    magnitude: the quotients and products of counts are in that range. *)

(** The nearest integer, a tie going to the even one. *)
Definition round_half_even (x : Q) : Z :=
  let f := Qfloor x in
  match (x - inject_Z f ?= 1 # 2)%Q with
  | Lt => f
  | Gt => f + 1
  | Eq => if Z.even f then f else f + 1
  end.

(** For a positive [x], the exponent [e] with 2^52 <= x / 2^e < 2^53. *)
Definition binade (x : Q) : Z :=
  let e := Z.log2 (Qnum x) - Z.log2 (Zpos (Qden x)) - 52 in
  if Qlt_le_dec (x / 2 ^ e) (2 ^ 52) then e - 1 else e.

Definition double (x : Q) : Q :=
  match (x ?= 0)%Q with
  | Eq => 0
  | Gt => inject_Z (round_half_even (x / 2 ^ binade x)) * 2 ^ binade x
  | Lt => - (inject_Z (round_half_even (- x / 2 ^ binade (- x))) * 2 ^ binade (- x))
  end%Q.

(** What the proofs use of the number format: the result of an operator
    is within 2^-53 of its exact result, relative to it. *)
Definition accurate (rnd : Q -> Q) : Prop :=
  forall x : Q, (Qabs (rnd x - x) <= Qabs x * (1 # 2 ^ 53))%Q.

(** [p] is the share of [count] in [total] as the card shows it. With a
    total above 0 it is an integer nearest to count / total * 100 (at most
    one half away from it), not below 0, and not above 100 when the count
    is not above the total. With no total above 0 it is 0. *)
Definition share_shown (count total : Z) (p : option Z) : Prop :=
  (0 < total ->
   exists n, p = Some n /\
             2 * Z.abs (n * total - 100 * count) <= total /\
             0 <= n /\ (count <= total -> n <= 100)) /\
  (total <= 0 -> p = Some 0).

(** What [renderStats] puts in the container: the empty notice, or the
    three cards, whose markup interpolates [stats], the three percentages
    and [diasUso]. *)
Inductive statsView : Type :=
| EmptyStats
| StatsCards (stats : Stats) (percEsperando percEntrevista percRejeitado : option Z)
             (diasUso : number).

(** The page as [renderStats] meets it: the wall clock, in milliseconds
    since the epoch, and the content of the element [statsContainer] when
    the page has one. *)
Record Page : Type := {
  clock : Z;
  statsContainer : option statsView
}.

Section RenderStats.

Variable rnd : Q -> Q.

(** The time value of [new Date(s)], [None] for an invalid date. *)
Variable Date_parse : string -> option Z.

(** Math.floor((hoje - primeira) / (1000 * 60 * 60 * 24)), on time values,
    where the difference and the floor of its quotient are exact. A
    missing or empty [primeira_candidatura] leaves 0, an invalid date
    gives NaN. *)
Definition diasUso (stats : Stats) (hoje : Z) : number :=
  match primeira_candidatura stats with
  | Some s =>
      if String.eqb s "" then Int 0
      else
        match Date_parse s with
        | Some primeira => Int ((hoje - primeira) / (1000 * 60 * 60 * 24))
        | None => NaN
        end
  | None => Int 0
  end.

(** [renderStats(stats)]. [hoje] is read from the clock of the page. *)
Definition renderStats (stats : Stats) (page : Page) : Page :=
  match statsContainer page with
  | None => page
  | Some _ =>
      let pE := percEsperando rnd stats in
      let pN := percEntrevista rnd stats in
      let pR := percRejeitado rnd stats in
      let hoje := clock page in
      let dias := diasUso stats hoje in
      if total stats =? 0 then
        {| clock := clock page; statsContainer := Some EmptyStats |}
      else
        {| clock := clock page;
           statsContainer := Some (StatsCards stats pE pN pR dias) |}
  end.

End RenderStats.

(** A date parser for the two dates of the examples below (UTC midnight
    of 2024-01-05 and of 2024-02-11). *)
Definition sample_Date_parse (s : string) : option Z :=
  if String.eqb s "2024-01-05" then Some 1704412800000
  else if String.eqb s "2024-02-11" then Some 1707609600000
  else None.

(** The statistics of three applications, the first one sent on the
    given date, and two readings of the clock. *)
Definition sample_stats (first : string) : Stats :=
  {| total := 3; esperando := 1; entrevista := 2; rejeitado := 0;
     taxa_conversao := 67;
     empresa_top := Some "Acme"; empresa_top_count := 2;
     mes_mais_ativo := Some "2024-01"; mes_mais_ativo_count := 2;
     primeira_candidatura := Some first; ultima_entrevista := None |}.

Definition feb_10_2024 : Z := 1707523200000.

(** Statistics with the given total and counts of the three statuses. *)
Definition stats_with (total esperando entrevista rejeitado : Z) : Stats :=
  {| total := total; esperando := esperando; entrevista := entrevista;
     rejeitado := rejeitado; taxa_conversao := 0;
     empresa_top := None; empresa_top_count := 0;
     mes_mais_ativo := None; mes_mais_ativo_count := 0;
     primeira_candidatura := None; ultima_entrevista := None |}.

Definition page_at (t : Z) : Page :=
  {| clock := t; statsContainer := Some EmptyStats |}.

End Profile.

(** ** Notifications: badge, dropdown and login reminders *)

Module Notifications.

(** One reminder of the payload. [interview_datetime] is the scheduled
    instant in milliseconds (the JSON carries its ISO text). *)
Record item : Type := {
  item_id : Z;
  application_nome : string;
  application_empresa : string;
  interview_datetime : Z;
  interview_type : string
}.

(** The payload of the notifications endpoint. *)
Record Payload : Type := {
  today : list item;
  tomorrow : list item;
  this_week : list item;
  total_count : Z
}.

(** *** The classifier that builds the payload *)

(** Modelled from the spec: the status of an interview and the interview
    record of the data model, which the server keeps. *)
Inductive interview_status : Type :=
| Scheduled
| Completed
| Cancelled
| Rescheduled.

#[global] Instance interview_status_eq_dec : EqDecision interview_status.
Proof. solve_decision. Defined.

Record InterviewRecord : Type := {
  iv_id : Z;
  iv_application : Z;
  iv_scheduled : Z;
  iv_type : string;
  iv_status : interview_status
}.

(** Modelled from the spec: the order of each bucket, ascending by
    scheduled instant. *)
Definition not_later (a b : item) : Prop :=
  interview_datetime a <= interview_datetime b.

#[global] Instance not_later_dec : RelDecision not_later.
Proof. intros a b. unfold not_later. apply _. Defined.

Section Classifier.

(** The viewer's calendar: the number of the local day an instant falls on. *)
Variable calendarDay : Z -> Z.

(** Modelled from the spec: the denormalized view of an interview, absent
    when its application reference does not resolve. The classifier runs
    on the server, whose code is not in the front-end source. *)
Definition view_of (applications : list Dashboard.application) (iv : InterviewRecord)
  : option item :=
  app ← List.find (fun a => Dashboard.app_id a =? iv_application iv) applications;
  Some {| item_id := iv_id iv;
          application_nome := Dashboard.nome app;
          application_empresa := Dashboard.empresa app;
          interview_datetime := iv_scheduled iv;
          interview_type := iv_type iv |}.

(** Modelled from the spec: the reminder targets. Only interviews still
    scheduled and not in the past, earliest first. *)
Definition reminder_targets (applications : list Dashboard.application)
    (interviews : list InterviewRecord) (now : Z) : list item :=
  merge_sort not_later
    (omap (fun iv =>
             if bool_decide (iv_status iv = Scheduled) && (now <=? iv_scheduled iv)
             then view_of applications iv
             else None)
          interviews).

(** Modelled from the spec: the ReminderClassifier. [today] holds the
    interviews on the calendar day of [now], [tomorrow] those on the day
    after, [this_week] those after tomorrow and within 7 calendar days of
    [now]; [total_count] is the sum of the three lengths. *)
Definition classify (applications : list Dashboard.application)
    (interviews : list InterviewRecord) (now : Z) : Payload :=
  let targets := reminder_targets applications interviews now in
  let d0 := calendarDay now in
  let day (it : item) := calendarDay (interview_datetime it) in
  let l1 := filter (fun it => day it = d0) targets in
  let l2 := filter (fun it => day it = d0 + 1) targets in
  let l3 := filter (fun it => d0 + 1 < day it <= d0 + 7) targets in
  {| today := l1;
     tomorrow := l2;
     this_week := l3;
     total_count := Z.of_nat (length l1 + length l2 + length l3) |}.

End Classifier.

(** Calendar days of 24 hours counted from the epoch. *)
Definition utcDay (t : Z) : Z := t / 86400000.

(** *** The elements of the notification bell *)

Record Badge : Type := {
  display : string;
  textContent : string
}.

(** The children [renderNotificationDropdown] writes into the dropdown
    body: the notice of the empty state, a category heading, or the markup
    of [renderNotificationItem(item, category)]. *)
Inductive node : Type :=
| EmptyNotice
| CategoryHeading (category : string)
| NotificationItem (it : item) (category : string).

(** The three elements, each absent when the page lacks it: the badge,
    the class list of the bell, the children of the dropdown body. *)
Record Bar : Type := {
  notificationBadge : option Badge;
  notificationBell : option (gset string);
  notificationDropdownBody : option (list node)
}.

(** [updateNotificationBadge(count)]. *)
Definition updateNotificationBadge (count : Z) (bar : Bar) : Bar :=
  match notificationBadge bar, notificationBell bar with
  | Some _, Some classList =>
      if 0 <? count then
        {| notificationBadge :=
             Some {| display := "flex";
                     textContent := if 9 <? count then "9+" else Z_to_string count |};
           notificationBell := Some (classList ∪ {[ "has-notifications" ]});
           notificationDropdownBody := notificationDropdownBody bar |}
      else
        {| notificationBadge := Some {| display := "none"; textContent := "0" |};
           notificationBell := Some (classList ∖ {[ "has-notifications" ]});
           notificationDropdownBody := notificationDropdownBody bar |}
  | _, _ => bar
  end.

(** One category of the dropdown: nothing for an empty list. *)
Definition category_html (heading category : string) (items : list item) : list node :=
  if (0 <? length items)%nat then
    CategoryHeading heading :: map (fun it => NotificationItem it category) items
  else [].

(** [renderNotificationDropdown(data)]. *)
Definition renderNotificationDropdown (data : Payload) (bar : Bar) : Bar :=
  match notificationDropdownBody bar with
  | None => bar
  | Some _ =>
      let html :=
        if total_count data =? 0 then [EmptyNotice]
        else
          (category_html "Hoje" "today" (today data)
             ++ category_html "Amanha" "tomorrow" (tomorrow data)
             ++ category_html "Esta Semana" "this-week" (this_week data))%list in
      {| notificationBadge := notificationBadge bar;
         notificationBell := notificationBell bar;
         notificationDropdownBody := Some html |}
  end.

(** The badge is hidden. *)
Definition badge_hidden (bar : Bar) : Prop :=
  exists b, notificationBadge bar = Some b /\ display b = "none".

(** The dropdown shows the notice that no interview is coming. *)
Definition empty_state (bar : Bar) : Prop :=
  notificationDropdownBody bar = Some [EmptyNotice].

(** *** Login reminders *)

(** A toast set to show after [delay] milliseconds. *)
Record Toast : Type := {
  message : string;
  kind : string;
  delay : Z
}.

(** What the notifications request gave: the [ok] flag and the payload
    [safeJson] read, [None] when it read [null]. *)
Record Fetched : Type := {
  fetched_ok : bool;
  fetched_data : option Payload
}.

(** The session token is set and not empty. *)
Definition has_token (token : option string) : bool :=
  match token with
  | Some t => negb (String.eqb t "")
  | None => false
  end.

(** The branch of [showLoginReminders] on the payload. *)
Definition reminder_of (data : Payload) : option Toast :=
  if (0 <? length (today data))%nat then
    let count := length (today data) in
    let msg :=
      if (count =? 1)%nat then "Voce tem 1 entrevista hoje!"
      else "Voce tem " +:+ Z_to_string (Z.of_nat count) +:+ " entrevistas hoje!" in
    Some {| message := msg; kind := "error"; delay := 3500 |}
  else if (0 <? length (tomorrow data))%nat then
    let count := length (tomorrow data) in
    let msg :=
      if (count =? 1)%nat then "Voce tem 1 entrevista amanha"
      else "Voce tem " +:+ Z_to_string (Z.of_nat count) +:+ " entrevistas amanha" in
    Some {| message := msg; kind := "success"; delay := 3500 |}
  else None.

(** [showLoginReminders()]: the toast it schedules, if any. A failed
    request is [Throw] and is swallowed by the catch. *)
Definition showLoginReminders (token : option string) (request : completion Fetched)
  : option Toast :=
  if has_token token then
    match request with
    | Normal response =>
        if fetched_ok response then
          match fetched_data response with
          | Some data => reminder_of data
          | None => None
          end
        else None
    | Throw _ => None
    end
  else None.

(** [loadNotifications()]. *)
Definition loadNotifications (token : option string) (request : completion Fetched)
    (bar : Bar) : Bar :=
  if has_token token then
    match request with
    | Normal response =>
        if fetched_ok response then
          match fetched_data response with
          | Some data =>
              renderNotificationDropdown data
                (updateNotificationBadge (total_count data) bar)
          | None => bar
          end
        else bar
    | Throw _ => bar
    end
  else bar.

(** A page with the three elements, and a session token. *)
Definition sample_bar : Bar :=
  {| notificationBadge := Some {| display := ""; textContent := "" |};
     notificationBell := Some ∅;
     notificationDropdownBody := Some [] |}.

Definition sample_token : option string := Some "jwt".

(** One application and six interviews around 2024-01-29 10:00: two
    later that day (one of them cancelled), one the next morning, one six
    days later, one eight days later, and one an hour ago. *)
Definition sample_applications : list Dashboard.application :=
  [ Dashboard.app_with "entrevista" ].

Definition jan_29_2024_10h : Z := 1706522400000.

Definition interview_at (n : Z) (t : Z) (st : interview_status) : InterviewRecord :=
  {| iv_id := n; iv_application := 1; iv_scheduled := t; iv_type := "video";
     iv_status := st |}.

Definition sample_interviews : list InterviewRecord :=
  [ interview_at 1 1707037200000 Scheduled;
    interview_at 2 1706605200000 Scheduled;
    interview_at 3 1706540400000 Scheduled;
    interview_at 4 1706544000000 Cancelled;
    interview_at 5 1707177600000 Scheduled;
    interview_at 6 1706518800000 Scheduled ].

Definition sample_payload : Payload :=
  classify utcDay sample_applications sample_interviews jan_29_2024_10h.

End Notifications.

(** ** Addresses of the API *)

Module Api.

(** [isLocal]: the page is served from the developer's machine. *)
Definition isLocal (hostname : string) : bool :=
  String.eqb hostname "localhost" || String.eqb hostname "127.0.0.1".

Definition API_ORIGIN (hostname : string) : string :=
  if isLocal hostname then "http://localhost:8000"
  else "https://job-finder-tracker-production.up.railway.app".

(** [path.startsWith(c)] for a one-character [c]. *)
Definition startsWith (path : string) (c : ascii) : bool :=
  match path with
  | String c' _ => Ascii.eqb c' c
  | EmptyString => false
  end.

(** [apiUrl(path)]. *)
Definition apiUrl (hostname path : string) : string :=
  let p := if startsWith path "/" then path else "/" +:+ path in
  API_ORIGIN hostname +:+ p.

End Api.

(** ** Interviews: labels, stars and counters *)

Module Interviews.

Definition star_filled : string := "&#9733;".
Definition star_empty : string := "&#9734;".

(** [renderStars(rating)]: the loop runs i from 1 to 5. *)
Definition renderStars (rating : Z) : string :=
  fold_left
    (fun stars i => stars +:+ (if i <=? rating then star_filled else star_empty))
    [1; 2; 3; 4; 5] "".

Definition types : gmap string value :=
  <["phone" := Str "Telefone"]>
    (<["video" := Str "Video"]>
       (<["in_person" := Str "Presencial"]>
          (<["technical" := Str "Tecnica"]>
             (<["behavioral" := Str "Comportamental"]>
                (<["hr" := Str "RH"]> ∅))))).

Definition status_texts : gmap string value :=
  <["scheduled" := Str "Agendada"]>
    (<["completed" := Str "Realizada"]>
       (<["cancelled" := Str "Cancelada"]>
          (<["rescheduled" := Str "Reagendada"]> ∅))).

Definition status_icons : gmap string value :=
  <["scheduled" := Str "&#128197;"]>
    (<["completed" := Str "&#10003;"]>
       (<["cancelled" := Str "&#10007;"]>
          (<["rescheduled" := Str "&#128260;"]> ∅))).

(** [getInterviewTypeText(type)]: types[type] || type. *)
Definition getInterviewTypeText (type : string) : value :=
  or_else (get types type) (Str type).

(** [getInterviewStatusText(status)]: texts[status] || status. *)
Definition getInterviewStatusText (status : string) : value :=
  or_else (get status_texts status) (Str status).

(** [getInterviewStatusIcon(status)]: icons[status] || the memo entity. *)
Definition getInterviewStatusIcon (status : string) : value :=
  or_else (get status_icons status) (Str "&#128221;").

Definition type_names : list string :=
  [ "phone"; "video"; "in_person"; "technical"; "behavioral"; "hr" ].

Definition status_names : list string :=
  [ "scheduled"; "completed"; "cancelled"; "rescheduled" ].

(** An interview as the API returns it, with the fields the counters
    read. [self_rating] is [None] when the field is null or missing. *)
Record interview : Type := {
  interview_id : Z;
  status : string;
  self_rating : option Z
}.

(** The object literal [stats] of [updateInterviewStats]. *)
Definition initial_stats : gmap string number :=
  <["scheduled" := Int 0]>
    (<["completed" := Int 0]>
       (<["cancelled" := Int 0]>
          (<["rescheduled" := Int 0]>
             (<["totalRating" := Int 0]>
                (<["ratingCount" := Int 0]> ∅))))).

(** [if (interview.self_rating)]: a number other than 0. *)
Definition rated (iv : interview) : option Z :=
  match self_rating iv with
  | Some r => if r =? 0 then None else Some r
  | None => None
  end.

(** [a + b] on numbers. *)
Definition number_add (a b : number) : number :=
  match a, b with
  | Int x, Int y => Int (x + y)
  | _, _ => NaN
  end.

(** [stats.key] as an operand, for the four keys of the literal that are
    read this way: an own number. None of them is inherited, so a missing
    one would be [undefined] and count as NaN. *)
Definition stat_number (stats : gmap string number) (key : string) : number :=
  match stats !! key with
  | Some x => x
  | None => NaN
  end.

(** The body of the [forEach] callback. *)
Definition count_interview (stats : gmap string number) (iv : interview)
  : gmap string number :=
  let stats :=
    if negb (Dashboard.is_undefined (Dashboard.lookup_stat stats (status iv)))
    then Dashboard.increment stats (status iv)
    else stats in
  match rated iv with
  | Some r =>
      let stats :=
        <["totalRating" := number_add (stat_number stats "totalRating") (Int r)]> stats in
      Dashboard.increment stats "ratingCount"
  | None => stats
  end.

Definition count_interviews (interviews : list interview) : gmap string number :=
  fold_left count_interview interviews initial_stats.

Section AverageRating.

(** The rounding of the number format, and [x.toFixed(1)]. *)
Variable rnd : Q -> Q.
Variable toFixed1 : Q -> string.

(** ratingCount > 0 ? (totalRating / ratingCount).toFixed(1) : the dash.
    A NaN operand compares false and leaves the dash. *)
Definition avgRating (stats : gmap string number) : string :=
  match stat_number stats "ratingCount", stat_number stats "totalRating" with
  | Int count, Int total =>
      if 0 <? count then toFixed1 (rnd (inject_Z total / inject_Z count)) else "-"
  | Int count, NaN => if 0 <? count then "NaN" else "-"
  | NaN, _ => "-"
  end.

(** [updateInterviewStats(interviews)]. *)
Definition updateInterviewStats (interviews : list interview)
    (doc : gmap string string) : completion (gmap string string) :=
  let stats := count_interviews interviews in
  doc ← Dashboard.setText "statScheduled" (Dashboard.lookup_stat stats "scheduled") doc;
  doc ← Dashboard.setText "statCompleted" (Dashboard.lookup_stat stats "completed") doc;
  doc ← Dashboard.setText "statCancelled"
          (Num (number_add (stat_number stats "cancelled")
                           (stat_number stats "rescheduled"))) doc;
  Dashboard.setText "statAvgRating" (Str (avgRating stats)) doc.

End AverageRating.

(** The number of interviews carrying a status. *)
Definition count_status (s : string) (interviews : list interview) : Z :=
  Z.of_nat (length (filter (fun iv => status iv = s) interviews)).

(** The ratings that count: those other than 0. *)
Definition ratings (interviews : list interview) : list Z :=
  omap rated interviews.

Definition sum_Z (l : list Z) : Z := fold_right Z.add 0 l.

(** A row of [k] filled stars followed by empty ones, five in all. *)
Definition star_row (k : nat) : string :=
  String.concat "" (replicate k star_filled ++ replicate (5 - k) star_empty)%list.

(** The two keys of [stats] that are not statuses. *)
Definition rating_keys : list string := [ "totalRating"; "ratingCount" ].

(** What one interview adds to the counter of the status [k]. *)
Definition status_step (k : string) (iv : interview) : Z :=
  if decide (status iv = k) then 1 else 0.

(** [x.toFixed(1)] for a rational that is not negative, taken exactly:
    the nearest number with one decimal, a half rounding up. *)
Definition toFixed1_exact (x : Q) : string :=
  let tenths := Qfloor (x * 10 + (1 # 2))%Q in
  Z_to_string (tenths / 10) +:+ "." +:+ Z_to_string (tenths mod 10).

(** Three interviews, two of them rated. *)
Definition rated_interviews : list interview :=
  [ {| interview_id := 1; status := "completed"; self_rating := Some 4 |};
    {| interview_id := 2; status := "completed"; self_rating := Some 5 |};
    {| interview_id := 3; status := "scheduled"; self_rating := None |} ].

End Interviews.

(** ** Month names of the statistics card *)

Module Months.

(** [s.split(sep)] for a one-character separator. *)
Fixpoint split (sep : ascii) (s : string) : list string :=
  match s with
  | EmptyString => [EmptyString]
  | String c s' =>
      if Ascii.eqb c sep then EmptyString :: split sep s'
      else
        match split sep s' with
        | piece :: rest => String c piece :: rest
        | [] => [String c EmptyString]
        end
  end.

(** What follows one leading white space or line terminator, if [s]
    starts with one: TAB, LF, VT, FF, CR, SP, and in UTF-8 the characters
    U+00A0, U+1680, U+2000 to U+200A, U+2028, U+2029, U+202F, U+205F,
    U+3000 and U+FEFF. *)
Definition white_space (s : string) : option string :=
  match s with
  | String c1 r1 =>
      let b1 := N_of_ascii c1 in
      if ((9 <=? b1) && (b1 <=? 13) || (b1 =? 32))%N then Some r1
      else
        match r1 with
        | String c2 r2 =>
            let b2 := N_of_ascii c2 in
            if ((b1 =? 194) && (b2 =? 160))%N then Some r2
            else
              match r2 with
              | String c3 r3 =>
                  let b3 := N_of_ascii c3 in
                  if ((b1 =? 225) && (b2 =? 154) && (b3 =? 128)
                      || (b1 =? 226) && (b2 =? 128) && (128 <=? b3) && (b3 <=? 138)
                      || (b1 =? 226) && (b2 =? 128)
                         && ((b3 =? 168) || (b3 =? 169) || (b3 =? 175))
                      || (b1 =? 226) && (b2 =? 129) && (b3 =? 159)
                      || (b1 =? 227) && (b2 =? 128) && (b3 =? 128)
                      || (b1 =? 239) && (b2 =? 187) && (b3 =? 191))%N
                  then Some r3
                  else None
              | EmptyString => None
              end
        | EmptyString => None
        end
  | EmptyString => None
  end.

Fixpoint skip_white_space (fuel : nat) (s : string) : string :=
  match fuel with
  | O => s
  | S n =>
      match white_space s with
      | Some r => skip_white_space n r
      | None => s
      end
  end.

(** The value of a digit in a radix of at most 36. *)
Definition digit_value (radix : Z) (c : ascii) : option Z :=
  let b := Z.of_N (N_of_ascii c) in
  let v := if (48 <=? b) && (b <=? 57) then b - 48
           else if (97 <=? b) && (b <=? 122) then b - 87
           else if (65 <=? b) && (b <=? 90) then b - 55
           else 36 in
  if v <? radix then Some v else None.

(** The value of the longest prefix of digits, [None] when it is empty. *)
Fixpoint leading_digits (radix : Z) (s : string) (acc : option Z) : option Z :=
  match s with
  | String c r =>
      match digit_value radix c with
      | Some d => leading_digits radix r (Some (radix * default 0 acc + d))
      | None => acc
      end
  | EmptyString => acc
  end.

(** [parseInt(s)] without a radix: leading white space is skipped, a sign
    is read, 0x or 0X selects radix 16, and the longest prefix of digits
    gives the value, NaN when there is none. The value is the exact
    integer; the language rounds it to a number above 2^53. *)
Definition parseInt (s : string) : number :=
  let s := skip_white_space (String.length s) s in
  let '(sign, s) :=
    match s with
    | String "-" r => (-1, r)
    | String "+" r => (1, r)
    | _ => (1, s)
    end in
  let '(radix, s) :=
    match s with
    | String "0" (String "x" r) => (16, r)
    | String "0" (String "X" r) => (16, r)
    | _ => (10, s)
    end in
  match leading_digits radix s None with
  | Some n => Int (sign * n)
  | None => NaN
  end.

Definition meses : list string :=
  [ "Janeiro"; "Fevereiro"; "Março"; "Abril"; "Maio"; "Junho";
    "Julho"; "Agosto"; "Setembro"; "Outubro"; "Novembro"; "Dezembro" ].

(** [meses[n - 1]] in a template: the name, or the text of [undefined]
    when the index is NaN or outside the array. *)
Definition month_name (n : number) : string :=
  match n with
  | Int n =>
      if 0 <=? n - 1 then default "undefined" (meses !! Z.to_nat (n - 1))
      else "undefined"
  | NaN => "undefined"
  end.

(** [formatMonth(mesStr)] of [renderStats], for a string or a null
    [mesStr]. The month is the second piece, [undefined] when there is
    no second piece. *)
Definition formatMonth (mesStr : option string) : string :=
  match mesStr with
  | None => "—"
  | Some s =>
      if String.eqb s "" then "—"
      else
        let pieces := split "-" s in
        let year := default "" (pieces !! 0%nat) in
        let month := default "undefined" (pieces !! 1%nat) in
        month_name (parseInt month) +:+ "/" +:+ year
  end.

(** A month number as the two digits of a date. *)
Definition two_digits (m : Z) : string :=
  if m <? 10 then "0" +:+ Z_to_string m else Z_to_string m.

End Months.

(** ** Elements of the page *)

Module Dom.

(** An element, with the attributes the script reads and writes. *)
Record element : Type := {
  display : string;
  classList : gset string;
  textContent : string;
  input_value : string
}.

Definition set_display (v : string) (e : element) : element :=
  {| display := v; classList := classList e; textContent := textContent e;
     input_value := input_value e |}.

Definition classList_add (c : string) (e : element) : element :=
  {| display := display e; classList := classList e ∪ {[ c ]};
     textContent := textContent e; input_value := input_value e |}.

Definition classList_remove (c : string) (e : element) : element :=
  {| display := display e; classList := classList e ∖ {[ c ]};
     textContent := textContent e; input_value := input_value e |}.

(** [if (el) ...] on the element with this id: nothing without one. *)
Definition with_element (id : string) (f : element -> element)
    (doc : gmap string element) : gmap string element :=
  alter f id doc.

(** The tokens of a class attribute: its pieces between ASCII white space. *)
Definition class_space (c : ascii) : bool :=
  let b := N_of_ascii c in
  ((b =? 9) || (b =? 10) || (b =? 12) || (b =? 13) || (b =? 32))%N.

Fixpoint class_tokens_from (s : string) (token : string) : gset string :=
  match s with
  | EmptyString => if String.eqb token "" then ∅ else {[ token ]}
  | String c r =>
      if class_space c then
        (if String.eqb token "" then ∅ else {[ token ]}) ∪ class_tokens_from r ""
      else class_tokens_from r (token +:+ String c "")
  end.

Definition class_tokens (className : string) : gset string :=
  class_tokens_from className "".

(** The text a node gets from [el.textContent = v]: null and undefined
    give the empty string, other values are converted. *)
Definition text_of (v : value) : completion string :=
  match v with
  | Undefined | Null => Normal ""
  | _ => ToString v
  end.

(** The length of a string in UTF-16 code units, from its UTF-8 bytes: a
    continuation byte adds nothing, the first byte of a four-byte
    sequence counts for two. *)
Fixpoint js_length (s : string) : nat :=
  match s with
  | EmptyString => O
  | String c r =>
      let b := N_of_ascii c in
      ((if (b <? 128)%N then 1
        else if (b <? 192)%N then 0
        else if (b <? 240)%N then 1
        else 2) + js_length r)%nat
  end.

End Dom.

(** ** Screens, sections and the loading overlay *)

Module Nav.

Import Dom.

(** The loaders [showSection] starts. *)
Inductive loader : Type :=
| LoadProfile
| LoadInterviews
| LoadUpcomingInterviews.

Definition showLoading (doc : gmap string element) : gmap string element :=
  with_element "loading" (set_display "flex") doc.

Definition hideLoading (doc : gmap string element) : gmap string element :=
  with_element "loading" (set_display "none") doc.

Definition showAuth (doc : gmap string element) : gmap string element :=
  with_element "dashboard" (set_display "none")
    (with_element "authScreen" (set_display "flex") doc).

Definition showDashboard (doc : gmap string element) : gmap string element :=
  with_element "dashboard" (set_display "flex")
    (with_element "authScreen" (set_display "none") doc).

Definition showLogin (doc : gmap string element) : gmap string element :=
  with_element "registerForm" (set_display "none")
    (with_element "loginForm" (set_display "block") doc).

Definition showRegister (doc : gmap string element) : gmap string element :=
  with_element "registerForm" (set_display "block")
    (with_element "loginForm" (set_display "none") doc).

(** [showSection(section)]: the page when it returns, and the loaders it
    has started. A loader is an async function: its body runs up to its
    first [await] before the call returns. For [loadInterviews] that is
    its opening [showLoading()]; [loadProfile] and
    [loadUpcomingInterviews] write nothing to the page before they await
    the network. What a loader does once the network has answered comes
    after [showSection] has returned. *)
Definition showSection (section : string) (doc : gmap string element)
  : gmap string element * list loader :=
  let doc := with_element "sectionApplications" (set_display "none") doc in
  let doc := with_element "sectionProfile" (set_display "none") doc in
  let doc := with_element "sectionInterviews" (set_display "none") doc in
  let doc := with_element "tabApplications" (classList_remove "active") doc in
  let doc := with_element "tabProfile" (classList_remove "active") doc in
  let doc := with_element "tabInterviews" (classList_remove "active") doc in
  if String.eqb section "profile" then
    let doc := with_element "sectionProfile" (set_display "block") doc in
    let doc := with_element "tabProfile" (classList_add "active") doc in
    (doc, [LoadProfile])
  else if String.eqb section "interviews" then
    let doc := with_element "sectionInterviews" (set_display "block") doc in
    let doc := with_element "tabInterviews" (classList_add "active") doc in
    let doc := showLoading doc in
    (doc, [LoadInterviews; LoadUpcomingInterviews])
  else
    let doc := with_element "sectionApplications" (set_display "block") doc in
    let doc := with_element "tabApplications" (classList_add "active") doc in
    (doc, []).

(** The section and the tab a name selects. *)
Definition section_of (section : string) : string :=
  if String.eqb section "profile" then "sectionProfile"
  else if String.eqb section "interviews" then "sectionInterviews"
  else "sectionApplications".

Definition tab_of (section : string) : string :=
  if String.eqb section "profile" then "tabProfile"
  else if String.eqb section "interviews" then "tabInterviews"
  else "tabApplications".

Definition section_ids : list string :=
  [ "sectionApplications"; "sectionProfile"; "sectionInterviews" ].

Definition tab_ids : list string :=
  [ "tabApplications"; "tabProfile"; "tabInterviews" ].

(** *** Sequences of navigation calls *)

Inductive nav_call : Type :=
| ShowLoading
| HideLoading
| ShowAuth
| ShowDashboard
| ShowLogin
| ShowRegister
| ShowSection (section : string).

Definition run_nav (c : nav_call) (doc : gmap string element) : gmap string element :=
  match c with
  | ShowLoading => showLoading doc
  | HideLoading => hideLoading doc
  | ShowAuth => showAuth doc
  | ShowDashboard => showDashboard doc
  | ShowLogin => showLogin doc
  | ShowRegister => showRegister doc
  | ShowSection section => fst (showSection section doc)
  end.

(** Of the two elements [first] and [second], when the page has both, one
    is displayed as [shown] and the other is hidden. *)
Definition exclusive (first second shown : string) (doc : gmap string element) : Prop :=
  forall a b, doc !! first = Some a -> doc !! second = Some b ->
    (display a = shown /\ display b = "none") \/
    (display a = "none" /\ display b = shown).

(** A page with the two screens and the two forms of the login screen. *)
Definition sample_page : gmap string element :=
  <["authScreen" := {| display := "flex"; classList := ∅; textContent := "";
                       input_value := "" |}]>
    (<["dashboard" := {| display := "none"; classList := ∅; textContent := "";
                         input_value := "" |}]>
       (<["loginForm" := {| display := "block"; classList := ∅; textContent := "";
                            input_value := "" |}]>
          (<["registerForm" := {| display := "none"; classList := ∅; textContent := "";
                                  input_value := "" |}]> ∅))).

End Nav.

(** ** The session: token, polling, toasts, requests *)

Module Session.

Import Dom.

(** A request handed to [fetch]. *)
Record Request : Type := {
  url : string;
  method : string;
  authorization : option string;
  body : list (string * string)
}.

(** What [fetch] resolves to: the status and the text of the body. *)
Record Reply : Type := {
  reply_status : Z;
  reply_text : completion string
}.

(** The theme button: the classes of the switch, the text of the icon
    and the text of the label, each absent when the page lacks it. *)
Record Toggle : Type := {
  toggleSwitch : option (gset string);
  themeIcon : option string;
  themeText : option string
}.

(** The state the script keeps and the part of the browser it acts on:
    the variables [token], [currentUser] and [notificationInterval], the
    local storage, the interval timers that are live and the handle the
    next timer gets, the data-theme attribute of the document, the theme
    button, the elements by id, the timeouts set to hide the toast, the
    forms that were reset and the requests handed to [fetch]. *)
Record App : Type := {
  hostname : string;
  token : option string;
  localStorage : gmap string string;
  currentUser : option value;
  notificationInterval : option Z;
  intervals : gset Z;
  next_handle : Z;
  data_theme : option string;
  theme_toggle : Toggle;
  elements : gmap string element;
  hide_timers : nat;
  resets : list string;
  requests : list Request
}.

Definition set_token (x : option string) (app : App) : App :=
  {| hostname := hostname app; token := x; localStorage := localStorage app;
     currentUser := currentUser app; notificationInterval := notificationInterval app;
     intervals := intervals app; next_handle := next_handle app;
     data_theme := data_theme app; theme_toggle := theme_toggle app;
     elements := elements app; hide_timers := hide_timers app; resets := resets app;
     requests := requests app |}.

Definition set_localStorage (x : gmap string string) (app : App) : App :=
  {| hostname := hostname app; token := token app; localStorage := x;
     currentUser := currentUser app; notificationInterval := notificationInterval app;
     intervals := intervals app; next_handle := next_handle app;
     data_theme := data_theme app; theme_toggle := theme_toggle app;
     elements := elements app; hide_timers := hide_timers app; resets := resets app;
     requests := requests app |}.

Definition set_currentUser (x : option value) (app : App) : App :=
  {| hostname := hostname app; token := token app; localStorage := localStorage app;
     currentUser := x; notificationInterval := notificationInterval app;
     intervals := intervals app; next_handle := next_handle app;
     data_theme := data_theme app; theme_toggle := theme_toggle app;
     elements := elements app; hide_timers := hide_timers app; resets := resets app;
     requests := requests app |}.

Definition set_notificationInterval (x : option Z) (app : App) : App :=
  {| hostname := hostname app; token := token app; localStorage := localStorage app;
     currentUser := currentUser app; notificationInterval := x;
     intervals := intervals app; next_handle := next_handle app;
     data_theme := data_theme app; theme_toggle := theme_toggle app;
     elements := elements app; hide_timers := hide_timers app; resets := resets app;
     requests := requests app |}.

Definition set_intervals (x : gset Z) (app : App) : App :=
  {| hostname := hostname app; token := token app; localStorage := localStorage app;
     currentUser := currentUser app; notificationInterval := notificationInterval app;
     intervals := x; next_handle := next_handle app; data_theme := data_theme app;
     theme_toggle := theme_toggle app; elements := elements app;
     hide_timers := hide_timers app; resets := resets app; requests := requests app |}.

Definition set_next_handle (x : Z) (app : App) : App :=
  {| hostname := hostname app; token := token app; localStorage := localStorage app;
     currentUser := currentUser app; notificationInterval := notificationInterval app;
     intervals := intervals app; next_handle := x; data_theme := data_theme app;
     theme_toggle := theme_toggle app; elements := elements app;
     hide_timers := hide_timers app; resets := resets app; requests := requests app |}.

Definition set_data_theme (x : option string) (app : App) : App :=
  {| hostname := hostname app; token := token app; localStorage := localStorage app;
     currentUser := currentUser app; notificationInterval := notificationInterval app;
     intervals := intervals app; next_handle := next_handle app; data_theme := x;
     theme_toggle := theme_toggle app; elements := elements app;
     hide_timers := hide_timers app; resets := resets app; requests := requests app |}.

Definition set_theme_toggle (x : Toggle) (app : App) : App :=
  {| hostname := hostname app; token := token app; localStorage := localStorage app;
     currentUser := currentUser app; notificationInterval := notificationInterval app;
     intervals := intervals app; next_handle := next_handle app;
     data_theme := data_theme app; theme_toggle := x; elements := elements app;
     hide_timers := hide_timers app; resets := resets app; requests := requests app |}.

Definition set_elements (x : gmap string element) (app : App) : App :=
  {| hostname := hostname app; token := token app; localStorage := localStorage app;
     currentUser := currentUser app; notificationInterval := notificationInterval app;
     intervals := intervals app; next_handle := next_handle app;
     data_theme := data_theme app; theme_toggle := theme_toggle app; elements := x;
     hide_timers := hide_timers app; resets := resets app; requests := requests app |}.

Definition set_hide_timers (x : nat) (app : App) : App :=
  {| hostname := hostname app; token := token app; localStorage := localStorage app;
     currentUser := currentUser app; notificationInterval := notificationInterval app;
     intervals := intervals app; next_handle := next_handle app;
     data_theme := data_theme app; theme_toggle := theme_toggle app;
     elements := elements app; hide_timers := x; resets := resets app;
     requests := requests app |}.

Definition set_resets (x : list string) (app : App) : App :=
  {| hostname := hostname app; token := token app; localStorage := localStorage app;
     currentUser := currentUser app; notificationInterval := notificationInterval app;
     intervals := intervals app; next_handle := next_handle app;
     data_theme := data_theme app; theme_toggle := theme_toggle app;
     elements := elements app; hide_timers := hide_timers app; resets := x;
     requests := requests app |}.

Definition set_requests (x : list Request) (app : App) : App :=
  {| hostname := hostname app; token := token app; localStorage := localStorage app;
     currentUser := currentUser app; notificationInterval := notificationInterval app;
     intervals := intervals app; next_handle := next_handle app;
     data_theme := data_theme app; theme_toggle := theme_toggle app;
     elements := elements app; hide_timers := hide_timers app; resets := resets app;
     requests := x |}.

(** A step of the script: it ends normally or throws, and leaves a state
    either way. *)
Definition act (A : Type) : Type := App -> completion A * App.

#[global] Instance act_ret : MRet act := fun A a app => (Normal a, app).

#[global] Instance act_bind : MBind act :=
  fun A B k m app =>
    match m app with
    | (Normal a, app') => k a app'
    | (Throw e, app') => (Throw e, app')
    end.

(** A change of the elements. *)
Definition on_elements (f : gmap string element -> gmap string element) (app : App)
  : App :=
  set_elements (f (elements app)) app.

(** A step that only changes the state. *)
Definition modify (f : App -> App) : act unit := fun app => (Normal tt, f app).

(** try { body } catch { handler } finally { after } *)
Definition try_catch_finally (body : act unit) (handler : act unit) (after : act unit)
  : act unit :=
  fun app =>
    let '(r, app1) := body app in
    let '(r, app2) :=
      match r with
      | Normal _ => (r, app1)
      | Throw _ => handler app1
      end in
    match after app2 with
    | (Normal _, app3) => (r, app3)
    | (Throw e, app3) => (Throw e, app3)
    end.

(** *** Polling *)

(** [setInterval(loadNotifications, 5 * 60 * 1000)]: a new live timer
    under the next handle. *)
Definition setInterval (app : App) : Z * App :=
  (next_handle app,
   set_next_handle (next_handle app + 1)
     (set_intervals (intervals app ∪ {[ next_handle app ]}) app)).

Definition clearInterval (h : Z) (app : App) : App :=
  set_intervals (intervals app ∖ {[ h ]}) app.

(** [if (notificationInterval)]: a handle other than 0. *)
Definition interval_set (app : App) : option Z :=
  match notificationInterval app with
  | Some h => if h =? 0 then None else Some h
  | None => None
  end.

(** [startNotificationPolling()]. *)
Definition startNotificationPolling (app : App) : App :=
  let app :=
    match interval_set app with
    | Some h => clearInterval h app
    | None => app
    end in
  let '(h, app) := setInterval app in
  set_notificationInterval (Some h) app.

(** [stopNotificationPolling()]. *)
Definition stopNotificationPolling (app : App) : App :=
  match interval_set app with
  | Some h => set_notificationInterval None (clearInterval h app)
  | None => app
  end.

(** *** Toasts *)

(** What [showToast] writes once the message is a text: the text, the
    classes toast and [type], the class show, and a timeout of 3000 ms
    that removes show. *)
Definition write_toast (toast : element) (txt type : string) (app : App) : App :=
  set_hide_timers (S (hide_timers app))
    (set_elements
       (<["toast" :=
            {| display := display toast;
               classList := class_tokens ("toast " +:+ type) ∪ {[ "show" ]};
               textContent := txt;
               input_value := input_value toast |}]> (elements app))
       app).

(** [showToast(message, type)]. The conversion of the message to a text
    is the first thing that can throw, before anything is written. *)
Definition showToast (message : value) (type : string) : act unit :=
  fun app =>
    match elements app !! "toast" with
    | None => (Normal tt, app)
    | Some toast =>
        match text_of message with
        | Throw e => (Throw e, app)
        | Normal txt => (Normal tt, write_toast toast txt type app)
        end
    end.

(** *** Theme *)

(** [updateToggleButton(theme)]: without the switch nothing is written. *)
Definition updateToggleButton (theme : string) (t : Toggle) : Toggle :=
  match toggleSwitch t with
  | Some classes =>
      if String.eqb theme "light" then
        {| toggleSwitch := Some (classes ∪ {[ "active" ]});
           themeIcon := (fun _ => "☀️") <$> themeIcon t;
           themeText := (fun _ => "Light Mode") <$> themeText t |}
      else
        {| toggleSwitch := Some (classes ∖ {[ "active" ]});
           themeIcon := (fun _ => "🌙") <$> themeIcon t;
           themeText := (fun _ => "Dark Mode") <$> themeText t |}
  | None => t
  end.

(** [localStorage.getItem('theme') || 'dark']. *)
Definition savedTheme (app : App) : string :=
  match localStorage app !! "theme" with
  | Some t => if String.eqb t "" then "dark" else t
  | None => "dark"
  end.

(** [loadTheme()]. *)
Definition loadTheme (app : App) : App :=
  let theme := savedTheme app in
  let app := set_data_theme (Some theme) app in
  set_theme_toggle (updateToggleButton theme (theme_toggle app)) app.

(** The theme [toggleTheme] switches to. *)
Definition newTheme (app : App) : string :=
  match data_theme app with
  | Some t => if String.eqb t "dark" then "light" else "dark"
  | None => "dark"
  end.

(** [toggleTheme()]. *)
Definition toggleTheme : act unit :=
  theme ← (fun app => (Normal (newTheme app), app));
  _ ← modify (set_data_theme (Some theme));
  _ ← modify (fun app => set_localStorage (<["theme" := theme]> (localStorage app)) app);
  _ ← modify (fun app =>
        set_theme_toggle (updateToggleButton theme (theme_toggle app)) app);
  showToast
    (Str ("Tema " +:+ (if String.eqb theme "dark" then "escuro" else "claro")
          +:+ " ativado"))
    "success".

(** *** Logout *)

(** [logout()]. *)
Definition logout : act unit :=
  _ ← modify (fun app => set_localStorage (delete "token" (localStorage app)) app);
  _ ← modify (set_token None);
  _ ← modify (set_currentUser None);
  _ ← modify stopNotificationPolling;
  _ ← modify (on_elements Nav.showAuth);
  showToast (Str "Logout realizado com sucesso") "success".

(** *** Changing the password *)

(** [document.getElementById(id)?.value || ""]. *)
Definition field_value (id : string) (app : App) : string :=
  match elements app !! id with
  | Some e => input_value e
  | None => ""
  end.

(** [authHeader()]: the Authorization header, when there is a token. *)
Definition authHeader (app : App) : option string :=
  match token app with
  | Some t => if String.eqb t "" then None else Some ("Bearer " +:+ t)
  | None => None
  end.

(** [fetch(...)]: the request goes out, and the network gives a reply
    or fails. *)
Definition fetch (req : Request) (network : completion Reply) : act Reply :=
  fun app =>
    (network, set_requests (requests app ++ [req]) app).

(** [form?.reset()] on the form with this id. *)
Definition reset_form (id : string) : act unit :=
  modify (fun app =>
    match elements app !! id with
    | Some _ => set_resets (resets app ++ [id]) app
    | None => app
    end).

(** [data?.detail]: the own property of a parsed object; no other value
    has one. *)
Definition detail (data : value) : value :=
  match data with
  | Obj props =>
      match List.find (fun kv => String.eqb (fst kv) "detail") props with
      | Some kv => snd kv
      | None => Undefined
      end
  | _ => Undefined
  end.

Section ChangePassword.

Variable JSON_parse : string -> completion value.

(** [safeJson(response)] as a step: it never throws. *)
Definition safeJson (reply : Reply) : act value :=
  fun app =>
    (Http.safeJson JSON_parse
       {| Http.ok := (200 <=? reply_status reply) && (reply_status reply <=? 299);
          Http.text := reply_text reply |},
     app).

(** [handleChangePassword(e)], given what the network answers. *)
Definition handleChangePassword (network : completion Reply) : act unit :=
  _ ← modify (on_elements Nav.showLoading);
  current_password ← (fun app => (Normal (field_value "currentPassword" app), app));
  new_password ← (fun app => (Normal (field_value "newPassword" app), app));
  confirm_new_password ←
    (fun app => (Normal (field_value "confirmNewPassword" app), app));
  if (js_length new_password <? 6)%nat then
    _ ← modify (on_elements Nav.hideLoading);
    showToast (Str "A nova senha deve ter no mínimo 6 caracteres") "error"
  else if negb (String.eqb new_password confirm_new_password) then
    _ ← modify (on_elements Nav.hideLoading);
    showToast (Str "As senhas novas não coincidem") "error"
  else
    try_catch_finally
      (auth ← (fun app => (Normal (authHeader app), app));
       host ← (fun app => (Normal (hostname app), app));
       response ←
         fetch {| url := Api.apiUrl host "/users/me/password";
                  method := "PUT";
                  authorization := auth;
                  body := [ ("current_password", current_password);
                            ("new_password", new_password);
                            ("confirm_new_password", confirm_new_password) ] |}
               network;
       if reply_status response =? 204 then
         _ ← showToast (Str "Senha alterada com sucesso!") "success";
         reset_form "changePasswordForm"
       else
         data ← safeJson response;
         if reply_status response =? 401 then
           showToast (or_else (detail data) (Str "Senha atual incorreta")) "error"
         else
           showToast (or_else (detail data) (Str "Erro ao alterar senha")) "error")
      (showToast (Str "Erro de conexão com o servidor") "error")
      (modify (on_elements Nav.hideLoading)).

End ChangePassword.

(** *** Sequences of polling calls *)

Inductive polling_call : Type :=
| Start
| Stop
| Logout.

Definition run_call (c : polling_call) (app : App) : App :=
  match c with
  | Start => startNotificationPolling app
  | Stop => stopNotificationPolling app
  | Logout => snd (logout app)
  end.

(** The state when the script is loaded: no interval, no live timer, and
    a handle above 0 for the first one. *)
Definition loaded (app : App) : Prop :=
  notificationInterval app = None /\ intervals app = ∅ /\ 0 < next_handle app.

(** A page with the elements the session steps write to. *)
Definition blank : element :=
  {| display := ""; classList := ∅; textContent := ""; input_value := "" |}.

Definition field_with (v : string) : element :=
  {| display := ""; classList := ∅; textContent := ""; input_value := v |}.

Definition sample_app (new_password confirm : string) : App :=
  {| hostname := "localhost"; token := Some "jwt";
     localStorage := {[ "token" := "jwt" ]};
     currentUser := None; notificationInterval := None; intervals := ∅;
     next_handle := 1; data_theme := None;
     theme_toggle := {| toggleSwitch := Some ∅; themeIcon := Some "";
                        themeText := Some "" |};
     elements :=
       <["loading" := blank]>
         (<["toast" := blank]>
            (<["authScreen" := blank]>
               (<["dashboard" := blank]>
                  (<["changePasswordForm" := blank]>
                     (<["currentPassword" := field_with "old-secret"]>
                        (<["newPassword" := field_with new_password]>
                           (<["confirmNewPassword" := field_with confirm]> ∅)))))));
     hide_timers := 0; resets := []; requests := [] |}.

(** *** Reading the state *)

(** Every live timer is the one recorded in [notificationInterval], and
    handles are positive and below the next one. *)
Definition polling_inv (app : App) : Prop :=
  0 < next_handle app /\
  (forall h, h ∈ intervals app -> 0 < h < next_handle app) /\
  intervals app = match notificationInterval app with
                  | Some h => {[ h ]}
                  | None => ∅
                  end.

(** The state after a toast with a text message. *)
Definition toast_after (msg type : string) (app : App) : App :=
  match elements app !! "toast" with
  | Some t => write_toast t msg type app
  | None => app
  end.

(** The number of hide timers once one toast more was shown. *)
Definition one_more_toast (app : App) : nat :=
  match elements app !! "toast" with
  | Some _ => S (hide_timers app)
  | None => hide_timers app
  end.

(** [app'] is [app] after one toast: nothing but the toast element and its
    timer changed. *)
Definition toasted (app app' : App) : Prop :=
  requests app' = requests app /\ resets app' = resets app /\
  token app' = token app /\ localStorage app' = localStorage app /\
  elements app' !! "loading" = elements app !! "loading" /\
  (is_Some (elements app' !! "toast") <-> is_Some (elements app !! "toast")) /\
  hide_timers app' = one_more_toast app.

(** The request [handleChangePassword] sends for the fields of the form. *)
Definition submitted (app : App) : Request :=
  {| url := Api.apiUrl (hostname app) "/users/me/password";
     method := "PUT";
     authorization := authHeader app;
     body := [ ("current_password", field_value "currentPassword" app);
               ("new_password", field_value "newPassword" app);
               ("confirm_new_password", field_value "confirmNewPassword" app) ] |}.

(** *** Registering *)

(** [response.ok]: a status from 200 to 299. *)
Definition reply_ok (reply : Reply) : bool :=
  (200 <=? reply_status reply) && (reply_status reply <=? 299).

(** [s.trim()]: the white space and line terminators at both ends are
    removed. [trim_end] stops at the point from which only white space
    follows. *)
Fixpoint trim_end (s : string) : string :=
  match s with
  | EmptyString => EmptyString
  | String c r =>
      if String.eqb (Months.skip_white_space (String.length s) s) "" then EmptyString
      else String c (trim_end r)
  end.

Definition trim (s : string) : string :=
  trim_end (Months.skip_white_space (String.length s) s).

(** [document.getElementById(id)?.value]: [undefined] without the
    element. *)
Definition field_of (id : string) (app : App) : option string :=
  input_value <$> elements app !! id.

(** The properties [JSON.stringify] writes for an object of strings: an
    undefined one is left out. *)
Definition json_fields (fields : list (string * option string)) : list (string * string) :=
  omap (fun kv => pair (fst kv) <$> snd kv) fields.

Definition set_input_value (v : string) (e : element) : element :=
  {| display := display e; classList := classList e; textContent := textContent e;
     input_value := v |}.

(** [email || ""]. *)
Definition or_empty (v : option string) : string := default "" v.

Section Register.

Variable JSON_parse : string -> completion value.

(** [handleRegister(e)], given what the network answers. *)
Definition handleRegister (network : completion Reply) : act unit :=
  _ ← modify (on_elements Nav.showLoading);
  email ← (fun app => (Normal (trim <$> field_of "registerEmail" app), app));
  password ← (fun app => (Normal (field_of "registerPassword" app), app));
  try_catch_finally
    (host ← (fun app => (Normal (hostname app), app));
     response ←
       fetch {| url := Api.apiUrl host "/auth/register";
                method := "POST";
                authorization := None;
                body := json_fields [ ("email", email); ("password", password) ] |}
             network;
     data ← safeJson JSON_parse response;
     if reply_ok response then
       _ ← showToast (Str "Conta criada com sucesso! Faça login.") "success";
       _ ← modify (on_elements Nav.showLogin);
       modify (on_elements (with_element "loginEmail" (set_input_value (or_empty email))))
     else
       showToast (or_else (detail data) (Str "Erro ao criar conta")) "error")
    (showToast (Str "Erro de conexão com o servidor") "error")
    (modify (on_elements Nav.hideLoading)).

End Register.

(** The request [handleRegister] sends for the fields of the form. *)
Definition registration (app : App) : Request :=
  {| url := Api.apiUrl (hostname app) "/auth/register";
     method := "POST";
     authorization := None;
     body := json_fields [ ("email", trim <$> field_of "registerEmail" app);
                           ("password", field_of "registerPassword" app) ] |}.

(** The network answered with an ok status. *)
Definition answered_ok (network : completion Reply) : bool :=
  match network with
  | Normal reply => reply_ok reply
  | Throw _ => false
  end.

(** A page with the registration form filled in. *)
Definition register_page : App :=
  {| hostname := "localhost"; token := None; localStorage := ∅;
     currentUser := None; notificationInterval := None; intervals := ∅;
     next_handle := 1; data_theme := None;
     theme_toggle := {| toggleSwitch := None; themeIcon := None; themeText := None |};
     elements :=
       <["loading" := blank]>
         (<["toast" := blank]>
            (<["loginForm" := blank]>
               (<["registerForm" := blank]>
                  (<["loginEmail" := blank]>
                     (<["registerEmail" := field_with "  ana@example.com "]>
                        (<["registerPassword" := field_with "s3cret!"]> ∅))))));
     hide_timers := 0; resets := []; requests := [] |}.

End Session.

(** ** Label tables *)

Module Labels.

(** The label of [key] in a table of pairs, [fallback] when it has none. *)
Definition label_in (table : list (string * string)) (fallback key : string) : string :=
  match List.find (fun kv => String.eqb (fst kv) key) table with
  | Some kv => snd kv
  | None => fallback
  end.

(** The own properties of the five object literals of the label helpers. *)
Definition type_table : list (string * string) :=
  [ ("phone", "Telefone"); ("video", "Video"); ("in_person", "Presencial");
    ("technical", "Tecnica"); ("behavioral", "Comportamental"); ("hr", "RH") ].

Definition status_table : list (string * string) :=
  [ ("scheduled", "Agendada"); ("completed", "Realizada"); ("cancelled", "Cancelada");
    ("rescheduled", "Reagendada") ].

Definition icon_table : list (string * string) :=
  [ ("scheduled", "&#128197;"); ("completed", "&#10003;"); ("cancelled", "&#10007;");
    ("rescheduled", "&#128260;") ].

Definition application_table : list (string * string) :=
  [ ("esperando", "Esperando"); ("entrevista", "Entrevista"); ("rejeitado", "Rejeitado") ].

Definition application_icons : list (string * string) :=
  [ ("esperando", Dashboard.icon_hourglass); ("entrevista", Dashboard.icon_target);
    ("rejeitado", Dashboard.icon_cross) ].

(** An object literal whose properties are the strings of a table. *)
Definition object_of (table : list (string * string)) : gmap string value :=
  list_to_map ((fun kv => (fst kv, Str (snd kv))) <$> table).

End Labels.

(** ** Reading the markup *)

Module Markup.

Import Notifications.

(** The characters [escapeHtml] replaces. *)
Definition special_chars : list ascii := [ "&"; "<"; ">"; dquote; "'" ]%char.

(** A dropdown body as it reads from top to bottom: the items that come
    before any heading, and then each heading with the items that follow
    it up to the next heading, each item with the class of its category.
    The notice of the empty state is neither. *)
Fixpoint groups_of (html : list node)
  : list (item * string) * list (string * list (item * string)) :=
  match html with
  | [] => ([], [])
  | CategoryHeading h :: rest =>
      let '(lead, groups) := groups_of rest in ([], (h, lead) :: groups)
  | NotificationItem it c :: rest =>
      let '(lead, groups) := groups_of rest in ((it, c) :: lead, groups)
  | EmptyNotice :: rest => groups_of rest
  end.

(** The group of a category: none when it has no item, else its heading
    with its items in the order received. *)
Definition group_if (h c : string) (items : list item)
  : list (string * list (item * string)) :=
  match items with
  | [] => []
  | _ :: _ => [(h, map (fun it => (it, c)) items)]
  end.

End Markup.

(** * Properties *)

(** ** Strings *)

Section StringFacts.

Lemma append_cons (x : ascii) (a b : string) :
  String x a +:+ b = String x (a +:+ b).
Proof. reflexivity. Qed.

Lemma string_app_assoc (a b c : string) : (a +:+ b) +:+ c = a +:+ (b +:+ c).
Proof.
  induction a as [|x a IH]; [reflexivity|].
  rewrite !append_cons. f_equal. exact IH.
Qed.

Lemma replaceAll_app (pat : ascii) (rep a b : string) :
  replaceAll pat rep (a +:+ b) = replaceAll pat rep a +:+ replaceAll pat rep b.
Proof.
  induction a as [|c a IH]; [reflexivity|].
  rewrite append_cons. simpl.
  destruct (Ascii.eqb c pat); rewrite IH; [|reflexivity].
  symmetry. apply string_app_assoc.
Qed.

Lemma get_app_l (p r : string) (i : nat) :
  (i < String.length p)%nat -> String.get i (p +:+ r) = String.get i p.
Proof. intros H. symmetry. by apply append_correct1. Qed.

Lemma get_app_r (p r : string) (j : nat) :
  String.get (String.length p + j) (p +:+ r) = String.get j r.
Proof. rewrite Nat.add_comm. symmetry. apply append_correct2. Qed.

Lemma substring_app_r (p r : string) (j n : nat) :
  substring (String.length p + j) n (p +:+ r) = substring j n r.
Proof.
  induction p as [|c p IH]; [reflexivity|].
  rewrite append_cons. simpl. exact IH.
Qed.

Lemma substring_app_prefix (p r : string) :
  substring 0 (String.length p) (p +:+ r) = p.
Proof.
  induction p as [|c p IH]; [by destruct r|].
  rewrite append_cons. simpl. by rewrite IH.
Qed.

End StringFacts.

(** ** escapeHtml *)

Section EscapeHtmlFacts.

Import Html.

(** The five passes on one character. *)
Lemma escape_one (c : ascii) :
  replaceAll "'" "&#039;"
    (replaceAll dquote "&quot;"
       (replaceAll ">" "&gt;"
          (replaceAll "<" "&lt;"
             (replaceAll "&" "&amp;" (String c ""))))) = escapeChar c.
Proof. destruct c as [[] [] [] [] [] [] [] []]; reflexivity. Qed.

(** No pass touches what an earlier pass wrote, so the five passes amount
    to one pass that escapes each character on its own. *)
Lemma escape_passes (s : string) :
  replaceAll "'" "&#039;"
    (replaceAll dquote "&quot;"
       (replaceAll ">" "&gt;"
          (replaceAll "<" "&lt;"
             (replaceAll "&" "&amp;" s)))) = escapeChars s.
Proof.
  induction s as [|c s IH]; [reflexivity|].
  change (String c s) with (String c "" +:+ s).
  rewrite !replaceAll_app, IH, escape_one. reflexivity.
Qed.

Lemma chars_ok_app (p r : string) : chars_ok p -> chars_ok r -> chars_ok (p +:+ r).
Proof.
  intros Hp Hr i c Hget.
  destruct (Nat.lt_ge_cases i (String.length p)) as [Hlt|Hge].
  - rewrite get_app_l in Hget by exact Hlt. by apply (Hp i).
  - replace i with (String.length p + (i - String.length p))%nat in Hget by lia.
    rewrite get_app_r in Hget. by apply (Hr (i - String.length p)%nat).
Qed.

Ltac escapeChar_cases a :=
  unfold escapeChar;
  destruct (Ascii.eqb a "&") eqn:E1; [|
  destruct (Ascii.eqb a "<") eqn:E2; [|
  destruct (Ascii.eqb a ">") eqn:E3; [|
  destruct (Ascii.eqb a dquote) eqn:E4; [|
  destruct (Ascii.eqb a "'") eqn:E5]]]].

Lemma chars_ok_escapeChar (a : ascii) : chars_ok (escapeChar a).
Proof.
  intros i c. escapeChar_cases a.
  1-5: do 7 (destruct i as [|i]; simpl;
             [intros [= <-]; unfold raw_chars, dquote; simpl; intuition discriminate|]);
       try discriminate.
  destruct i as [|i]; simpl; [|by destruct i].
  intros [= <-]. apply Ascii.eqb_neq in E2, E3, E4, E5.
  unfold raw_chars. simpl. intuition congruence.
Qed.

Lemma chars_ok_escapeChars (s : string) : chars_ok (escapeChars s).
Proof.
  induction s as [|a s IH]; simpl.
  - intros i c. by destruct i.
  - apply chars_ok_app; [apply chars_ok_escapeChar | exact IH].
Qed.

(** An ampersand in what one character becomes is the first character of
    an entity. *)
Lemma escapeChar_amp (a : ascii) (i : nat) :
  String.get i (escapeChar a) = Some "&"%char ->
  i = 0%nat /\ In (escapeChar a) entities.
Proof.
  escapeChar_cases a.
  1-5: destruct i as [|i]; simpl;
       [intros _; split; [reflexivity | unfold entities; simpl; tauto]|];
       do 6 (destruct i as [|i]; simpl; [discriminate|]); discriminate.
  destruct i as [|i]; simpl; [|by destruct i].
  intros [= ->]. discriminate E1.
Qed.

Lemma amp_starts_entity (s : string) (i : nat) :
  String.get i (escapeChars s) = Some "&"%char ->
  exists e, In e entities /\ substring i (String.length e) (escapeChars s) = e.
Proof.
  revert i. induction s as [|a s IH]; intros i; simpl.
  - by destruct i.
  - intros Hget.
    destruct (Nat.lt_ge_cases i (String.length (escapeChar a))) as [Hlt|Hge].
    + rewrite get_app_l in Hget by exact Hlt.
      apply escapeChar_amp in Hget as [-> Hin].
      exists (escapeChar a). split; [exact Hin | apply substring_app_prefix].
    + replace i with (String.length (escapeChar a)
                      + (i - String.length (escapeChar a)))%nat in * by lia.
      rewrite get_app_r in Hget.
      destruct (IH _ Hget) as [e [Hin He]].
      exists e. split; [exact Hin|]. by rewrite substring_app_r.
Qed.

Example escapeHtml_markup :
  escapeHtml (Str "<a href='x'>T&J</a>")
  = Normal "&lt;a href=&#039;x&#039;&gt;T&amp;J&lt;/a&gt;".
Proof. reflexivity. Qed.

Example escapeHtml_nullish :
  escapeHtml Null = Normal "" /\ escapeHtml Undefined = Normal "".
Proof. split; reflexivity. Qed.

Example escapeHtml_number : escapeHtml (Num (Int 42)) = Normal "42".
Proof. reflexivity. Qed.

Example escapeHtml_array :
  escapeHtml (Arr [Num (Int 3); Null; Str "<"; Bool true; Obj [("a", Null)]])
  = Normal "3,,&lt;,true,[object Object]".
Proof. reflexivity. Qed.

(** C8, as stated, fails: on the object that JSON.parse builds from
    [{"toString": 1}] the conversion to a string throws, and so does
    escapeHtml. *)
Lemma escapeHtml_throws :
  escapeHtml (Obj [("toString", Num (Int 1))]) = Throw "TypeError".
Proof. reflexivity. Qed.

(** C8, amended. escapeHtml has no guard of its own against a value that
    String cannot convert: it returns a string exactly when String(v ?? "")
    does, and throws what String throws otherwise. For [null] and
    [undefined] it returns the empty string. The string it returns is
    that of String(v ?? "") with each of &, <, >, double quote and
    apostrophe replaced by its entity: no character of it is a raw <, >,
    double quote or apostrophe, and every ampersand is the first character
    of one of the five entities the function writes. *)
Theorem escapeHtml_escapes (String_of : value -> completion string) (v : value) :
  (forall s, String_of (Str s) = Normal s) ->
  (v = Null \/ v = Undefined -> escapeHtml_with String_of v = Normal "") /\
  (forall e, String_of (nullish v (Str "")) = Throw e ->
     escapeHtml_with String_of v = Throw e) /\
  (forall s, String_of (nullish v (Str "")) = Normal s ->
     exists out,
       escapeHtml_with String_of v = Normal out /\
       out = escapeChars s /\
       (forall i c, String.get i out = Some c -> ~ In c raw_chars) /\
       (forall i, String.get i out = Some "&"%char ->
          exists e, In e entities /\ substring i (String.length e) out = e)).
Proof.
  intros Hstr. unfold escapeHtml_with. split; [|split].
  - intros [-> | ->]; simpl; by rewrite Hstr.
  - intros e ->. reflexivity.
  - intros s ->. simpl. rewrite escape_passes.
    eexists. split; [reflexivity|]. split; [reflexivity|]. split.
    + apply chars_ok_escapeChars.
    + apply amp_starts_entity.
Qed.

Lemma escapeHtml_escapes_witness :
  exists out,
    escapeHtml_with ToString (Arr [Str "<b>"; Null; Str "T&J"]) = Normal out /\
    out = escapeChars "<b>,,T&J" /\
    (forall i c, String.get i out = Some c -> ~ In c raw_chars) /\
    (forall i, String.get i out = Some "&"%char ->
       exists e, In e entities /\ substring i (String.length e) out = e).
Proof.
  destruct (escapeHtml_escapes ToString (Arr [Str "<b>"; Null; Str "T&J"]))
    as (_ & _ & H).
  - intros s. reflexivity.
  - exact (H "<b>,,T&J" eq_refl).
Defined.

End EscapeHtmlFacts.

(** ** safeJson *)

Section SafeJsonFacts.

Import Http.

Example safeJson_literal :
  safeJson parse_literal {| ok := true; text := Normal "true" |} = Normal (Bool true).
Proof. reflexivity. Qed.

Example safeJson_malformed :
  safeJson parse_literal {| ok := true; text := Normal "{oops" |} = Normal Null.
Proof. reflexivity. Qed.

(** C9. For every response, safeJson completes normally. It returns what
    JSON.parse returns when the body text is not empty and parses, and
    null when the text is empty, when it does not parse, and when the
    body cannot be read. *)
Theorem safeJson_total (JSON_parse : string -> completion value) (response : Response) :
  (exists v, safeJson JSON_parse response = Normal v) /\
  (forall txt v, text response = Normal txt -> txt <> "" ->
     JSON_parse txt = Normal v -> safeJson JSON_parse response = Normal v) /\
  (text response = Normal "" -> safeJson JSON_parse response = Normal Null) /\
  (forall txt e, text response = Normal txt -> JSON_parse txt = Throw e ->
     safeJson JSON_parse response = Normal Null) /\
  (forall e, text response = Throw e -> safeJson JSON_parse response = Normal Null).
Proof.
  unfold safeJson. split; [|split; [|split; [|split]]].
  - destruct (text response) as [txt|e]; simpl; [|by eexists].
    destruct (String.eqb txt ""); [by eexists|].
    destruct (JSON_parse txt); by eexists.
  - intros txt v -> Hne Hp. simpl.
    destruct (String.eqb_spec txt ""); [done|]. by rewrite Hp.
  - intros ->. reflexivity.
  - intros txt e -> Hp. simpl. destruct (String.eqb txt ""); [done|]. by rewrite Hp.
  - intros e ->. reflexivity.
Qed.

End SafeJsonFacts.

(** ** Status counters and labels *)

Section DashboardFacts.

Import Dashboard.

Lemma count_application_other (stats : gmap string number) (app : application)
    (k : string) :
  status app <> k -> count_application stats app !! k = stats !! k.
Proof.
  intros Hne. unfold count_application, increment.
  destruct (negb (is_undefined (lookup_stat stats (status app)))); [|reflexivity].
  destruct (stats !! status app) as [x|].
  - by rewrite lookup_insert_ne.
  - destruct (String.eqb (status app) "__proto__"); [reflexivity|].
    by rewrite lookup_insert_ne.
Qed.

Lemma count_application_same (stats : gmap string number) (app : application) (n : Z) :
  stats !! status app = Some (Int n) ->
  count_application stats app !! status app = Some (Int (n + 1)).
Proof.
  intros H. unfold count_application, lookup_stat, increment. rewrite H. simpl.
  by rewrite lookup_insert_eq.
Qed.

Lemma count_status_cons (k : string) (app : application) (apps : list application) :
  count_status k (app :: apps)
  = (if decide (status app = k) then 1 else 0) + count_status k apps.
Proof.
  unfold count_status. rewrite filter_cons.
  destruct (decide (status app = k)); simpl length; lia.
Qed.

Lemma count_status_bounds (k : string) (apps : list application) :
  0 <= count_status k apps <= Z.of_nat (length apps).
Proof.
  unfold count_status. pose proof (length_filter (fun app => status app = k) apps).
  lia.
Qed.

(** An own property that holds an integer goes up by one for each
    application whose status is its name. *)
Lemma fold_count (apps : list application) (stats : gmap string number)
    (k : string) (n : Z) :
  stats !! k = Some (Int n) ->
  fold_left count_application apps stats !! k = Some (Int (n + count_status k apps)).
Proof.
  revert stats n. induction apps as [|app apps IH]; intros stats n H; simpl.
  - rewrite H. unfold count_status. simpl. do 2 f_equal. lia.
  - rewrite count_status_cons. destruct (decide (status app = k)) as [<-|Hne].
    + rewrite (IH _ (n + 1)); [do 2 f_equal; lia|].
      by apply count_application_same.
    + rewrite (IH _ n); [do 2 f_equal; lia|].
      by rewrite count_application_other.
Qed.

(** The three status counters are right on every list. *)
Lemma count_statuses_known (apps : list application) (s : string) :
  In s known_statuses ->
  lookup_stat (count_statuses apps) s = Num (Int (count_status s apps)).
Proof.
  intros Hs. unfold lookup_stat, count_statuses.
  rewrite (fold_count apps _ s 0); [reflexivity|].
  unfold known_statuses in Hs. simpl in Hs.
  destruct Hs as [<-|[<-|[<-|[]]]]; reflexivity.
Qed.

(** The total is the length of the list plus one for each application
    whose status is the word total, which names the total's own counter. *)
Lemma count_statuses_total (apps : list application) :
  lookup_stat (count_statuses apps) "total"
  = Num (Int (Z.of_nat (length apps) + count_status "total" apps)).
Proof.
  unfold lookup_stat, count_statuses.
  rewrite (fold_count apps _ "total" (Z.of_nat (length apps))); reflexivity.
Qed.

(** A status that is no known one and no property of [Object.prototype]
    passes through [getStatusText] and gets the default icon. *)
Lemma getStatusText_plain (s : string) :
  ~ In s known_statuses -> ~ In s Object_prototype_keys -> getStatusText s = Str s.
Proof.
  intros Hk Hp. unfold getStatusText, get, texts.
  unfold known_statuses in Hk. simpl in Hk.
  rewrite !lookup_insert_ne by tauto. rewrite lookup_empty.
  unfold Object_prototype. rewrite bool_decide_eq_false_2.
  - reflexivity.
  - by rewrite list_elem_of_In.
Qed.

Lemma getStatusIcon_plain (s : string) :
  ~ In s known_statuses -> ~ In s Object_prototype_keys ->
  getStatusIcon s = Str icon_memo.
Proof.
  intros Hk Hp. unfold getStatusIcon, get, icons.
  unfold known_statuses in Hk. simpl in Hk.
  rewrite !lookup_insert_ne by tauto. rewrite lookup_empty.
  unfold Object_prototype. rewrite bool_decide_eq_false_2.
  - reflexivity.
  - by rewrite list_elem_of_In.
Qed.

Lemma bind_normal {A B : Type} (a : A) (k : A -> completion B) :
  (x ← Normal a; k x) = k a.
Proof. reflexivity. Qed.

Lemma setText_returns (id s : string) (v : value) (doc : gmap string string) :
  ToString v = Normal s -> setText id v doc = Normal (set_textContent id s doc).
Proof.
  intros Hv. unfold setText, set_textContent. rewrite Hv. by destruct (doc !! id).
Qed.

Lemma set_textContent_lookup (id k s : string) (doc : gmap string string) :
  set_textContent id s doc !! k
  = match doc !! k with
    | Some old => Some (if decide (id = k) then s else old)
    | None => None
    end.
Proof.
  unfold set_textContent. destruct (doc !! id) as [old|] eqn:Hid.
  - destruct (decide (id = k)) as [<-|Hne].
    + by rewrite lookup_insert_eq, Hid.
    + rewrite lookup_insert_ne by done. by destruct (doc !! k).
  - destruct (decide (id = k)) as [<-|Hne]; [by rewrite Hid|].
    by destruct (doc !! k).
Qed.

(** [updateStats] never throws: it writes the decimal numerals of the
    four counters. *)
Lemma updateStats_returns (apps : list application) (doc : gmap string string) :
  updateStats apps doc
  = Normal
      (set_textContent "statTotal"
         (Z_to_string (Z.of_nat (length apps) + count_status "total" apps))
         (set_textContent "statRejeitado" (Z_to_string (count_status "rejeitado" apps))
            (set_textContent "statEntrevista"
               (Z_to_string (count_status "entrevista" apps))
               (set_textContent "statEsperando"
                  (Z_to_string (count_status "esperando" apps)) doc)))).
Proof.
  unfold updateStats.
  rewrite (count_statuses_known apps "esperando") by (simpl; auto).
  rewrite (count_statuses_known apps "entrevista") by (simpl; auto).
  rewrite (count_statuses_known apps "rejeitado") by (simpl; auto).
  rewrite count_statuses_total.
  erewrite (setText_returns "statEsperando") by reflexivity. rewrite bind_normal.
  erewrite (setText_returns "statEntrevista") by reflexivity. rewrite bind_normal.
  erewrite (setText_returns "statRejeitado") by reflexivity. rewrite bind_normal.
  apply setText_returns. reflexivity.
Qed.

(** What a counter shows after [updateStats] does not depend on what it
    showed before. *)
Lemma updateStats_overwrites (apps : list application)
    (doc1 doc2 : gmap string string) (id : string) :
  In id stat_ids -> is_Some (doc1 !! id) -> is_Some (doc2 !! id) ->
  exists r1 r2,
    updateStats apps doc1 = Normal r1 /\ updateStats apps doc2 = Normal r2 /\
    r1 !! id = r2 !! id.
Proof.
  intros Hid [x1 H1] [x2 H2]. rewrite !updateStats_returns.
  eexists. eexists. split; [reflexivity|]. split; [reflexivity|].
  rewrite !set_textContent_lookup, H1, H2.
  unfold stat_ids in Hid. simpl in Hid.
  destruct Hid as [<-|[<-|[<-|[<-|[]]]]]; reflexivity.
Qed.

Example updateStats_counts :
  let apps := [app_with "entrevista"; app_with "entrevista"; app_with "esperando";
               app_with "arquivado"] in
  updateStats apps counters
  = Normal (<["statEsperando" := "1"]>
              (<["statEntrevista" := "2"]>
                 (<["statRejeitado" := "0"]>
                    (<["statTotal" := "4"]> ∅)))).
Proof. vm_compute. reflexivity. Qed.

(** C6. The failing inputs. The status constructor names a property every
    object literal inherits: getStatusText returns the function Object
    instead of the status, and getStatusIcon returns it instead of the
    default icon. The status total names the counter of the total:
    updateStats counts one such application twice and shows 2. *)
Theorem unknown_status_inherited_property :
  getStatusText "constructor" = Builtin "Object" /\
  getStatusIcon "constructor" = Builtin "Object" /\
  updateStats [app_with "total"] counters
  = Normal (<["statEsperando" := "0"]>
              (<["statEntrevista" := "0"]>
                 (<["statRejeitado" := "0"]>
                    (<["statTotal" := "2"]> ∅)))).
Proof. vm_compute. repeat split; reflexivity. Qed.

(** C7. The failing input: a list of one application whose status is the
    word total. The three status counters stay 0, and the total is 2 where
    the list has length 1. *)
Theorem status_total_counted_twice :
  let apps := [app_with "total"] in
  length apps = 1%nat /\
  lookup_stat (count_statuses apps) "esperando" = Num (Int 0) /\
  lookup_stat (count_statuses apps) "entrevista" = Num (Int 0) /\
  lookup_stat (count_statuses apps) "rejeitado" = Num (Int 0) /\
  lookup_stat (count_statuses apps) "total" = Num (Int 2).
Proof. vm_compute. repeat split; reflexivity. Qed.

End DashboardFacts.

(** ** Percentages of the statistics card *)

Section NumberFormat.

Import Profile.

Lemma round_half_even_close (x : Q) :
  (- (1 # 2) <= inject_Z (round_half_even x) - x <= 1 # 2)%Q.
Proof.
  unfold round_half_even.
  pose proof (Qfloor_le x) as Hlo. pose proof (Qlt_floor x) as Hhi.
  rewrite inject_Z_plus in Hhi. change (inject_Z 1) with 1%Q in Hhi.
  destruct (Qcompare_spec (x - inject_Z (Qfloor x)) (1 # 2)) as [He|Hl|Hg].
  - destruct (Z.even (Qfloor x)).
    + lra.
    + rewrite inject_Z_plus. change (inject_Z 1) with 1%Q. lra.
  - lra.
  - rewrite inject_Z_plus. change (inject_Z 1) with 1%Q. lra.
Qed.

Lemma two_power_pos (e : Z) : (0 < 2 ^ e)%Q.
Proof. apply Qpower_0_lt. reflexivity. Qed.

Lemma Q_num_den (x : Q) : (x * inject_Z (Zpos (Qden x)) == inject_Z (Qnum x))%Q.
Proof.
  destruct x as [n d]. simpl. rewrite (Qmake_Qdiv n d). field.
  intros H. discriminate H.
Qed.

(** The exponent read off the sizes of the numerator and the denominator
    brings [x] above 2^51. *)
Lemma binade_first (x : Q) :
  (0 < x)%Q ->
  (2 ^ 51 * 2 ^ (Z.log2 (Qnum x) - Z.log2 (Zpos (Qden x)) - 52) < x)%Q.
Proof.
  intros Hx.
  assert (Hn : 0 < Qnum x) by (destruct x as [n d]; unfold Qlt in Hx; simpl in *; lia).
  set (n := Qnum x) in *. set (d := Zpos (Qden x)) in *.
  assert (Hd : 0 < d) by (unfold d; lia).
  pose proof (Z.log2_spec n Hn) as [Hn1 Hn2].
  pose proof (Z.log2_spec d Hd) as [Hd1 Hd2].
  pose proof (Z.log2_nonneg n) as Hln. pose proof (Z.log2_nonneg d) as Hld.
  set (ln := Z.log2 n) in *. set (ld := Z.log2 d) in *.
  set (P := (2 ^ (ln - ld - 52))%Q).
  assert (HP : (0 < P)%Q) by apply two_power_pos.
  assert (Hsplit : (2 ^ 51 * P * inject_Z (2 ^ Z.succ ld) == inject_Z (2 ^ ln))%Q).
  { rewrite !Zpower_Qpower by lia. change (inject_Z 2) with 2%Q. unfold P.
    rewrite <- !Qpower_plus by discriminate.
    replace (51 + (ln - ld - 52) + Z.succ ld) with ln by lia. reflexivity. }
  pose proof (Q_num_den x) as Hx'. fold n d in Hx'.
  assert (H1 : (inject_Z (2 ^ ln) <= inject_Z n)%Q) by (rewrite <- Zle_Qle; exact Hn1).
  assert (H2 : (inject_Z d < inject_Z (2 ^ Z.succ ld))%Q) by (rewrite <- Zlt_Qlt; exact Hd2).
  assert (H3 : (0 < inject_Z d)%Q) by (rewrite <- (Zlt_Qlt 0); exact Hd).
  assert (H4 : (0 < inject_Z (2 ^ ln))%Q)
    by (rewrite <- (Zlt_Qlt 0); apply Z.pow_pos_nonneg; lia).
  set (A := inject_Z (2 ^ ln)) in *. set (B := inject_Z (2 ^ Z.succ ld)) in *.
  set (D := inject_Z d) in *. set (N := inject_Z n) in *.
  set (K := (2 ^ 51)%Q) in *.
  assert (HK : (0 < K)%Q) by reflexivity.
  apply Qnot_le_lt. intros Hle.
  assert (H5 : (x * D <= K * P * D)%Q) by nra.
  assert (H6 : (K * P * D < K * P * B)%Q) by nra.
  lra.
Qed.

Lemma binade_scaled (x : Q) : (0 < x)%Q -> (2 ^ 52 <= x / 2 ^ binade x)%Q.
Proof.
  intros Hx. unfold binade.
  set (e := Z.log2 (Qnum x) - Z.log2 (Zpos (Qden x)) - 52).
  pose proof (binade_first x Hx) as H. fold e in H.
  destruct (Qlt_le_dec (x / 2 ^ e) (2 ^ 52)) as [Hlt|Hge]; [|exact Hge].
  assert (He : (2 ^ (e - 1) == 2 ^ e / 2)%Q).
  { rewrite Qpower_minus by discriminate. reflexivity. }
  pose proof (two_power_pos e) as HP.
  rewrite He. set (P := (2 ^ e)%Q) in *.
  assert (Hq : (2 ^ 51 < x / P)%Q) by (apply Qlt_shift_div_l; [exact HP | exact H]).
  assert (Hd : (x / (P / 2) == 2 * (x / P))%Q) by (field; lra).
  rewrite Hd. change (2 ^ 52)%Q with (2 * 2 ^ 51)%Q. lra.
Qed.

Lemma double_pos_accurate (x : Q) :
  (0 < x)%Q ->
  (- (x * (1 # 2 ^ 53))
   <= inject_Z (round_half_even (x / 2 ^ binade x)) * 2 ^ binade x - x
   <= x * (1 # 2 ^ 53))%Q.
Proof.
  intros Hx.
  pose proof (binade_scaled x Hx) as Hs.
  pose proof (round_half_even_close (x / 2 ^ binade x)) as Hm.
  pose proof (two_power_pos (binade x)) as HP.
  set (P := (2 ^ binade x)%Q) in *.
  set (m := inject_Z (round_half_even (x / P))) in *.
  assert (Hxs : (x == (x / P) * P)%Q) by (field; lra).
  set (s := (x / P)%Q) in *.
  assert (H52 : (2 ^ 52 == 4503599627370496)%Q) by reflexivity.
  rewrite H52 in Hs. change (1 # 2 ^ 53)%Q with (1 # 9007199254740992)%Q.
  assert (G1 : (0 <= ((1 # 2) - (m - s)) * P)%Q) by (apply Qmult_le_0_compat; lra).
  assert (G2 : (0 <= ((m - s) + (1 # 2)) * P)%Q) by (apply Qmult_le_0_compat; lra).
  assert (G3 : (0 <= (s - 4503599627370496) * P)%Q) by (apply Qmult_le_0_compat; lra).
  split; lra.
Qed.

(** Rounding to the nearest double is accurate. *)
Lemma double_accurate : accurate double.
Proof.
  intros x. unfold double.
  destruct (Qcompare_spec x 0) as [He|Hl|Hg].
  - rewrite He. vm_compute. discriminate.
  - assert (Hn : (0 < - x)%Q) by lra.
    pose proof (double_pos_accurate (- x) Hn) as [H1 H2].
    rewrite (Qabs_neg x) by lra.
    apply Qabs_Qle_condition. split; lra.
  - pose proof (double_pos_accurate x Hg) as [H1 H2].
    rewrite (Qabs_pos x) by lra.
    apply Qabs_Qle_condition. split; lra.
Qed.

End NumberFormat.

Section PercentageFacts.

Import Profile.

Variable rnd : Q -> Q.

Hypothesis rnd_accurate : accurate rnd.

(** The quotient times 100, after its two roundings, is within
    13 * 2^-49 of the exact value, relative to the quotient. *)
Lemma product_error (r : Q) :
  (0 <= r)%Q ->
  (- (r * (13 # 2 ^ 49)) <= rnd (rnd r * 100) - r * 100 <= r * (13 # 2 ^ 49))%Q.
Proof.
  intros Hr.
  pose proof (rnd_accurate r) as H1. rewrite (Qabs_pos r) in H1 by exact Hr.
  apply Qabs_Qle_condition in H1. destruct H1 as [H1a H1b].
  change (1 # 2 ^ 53)%Q with (1 # 9007199254740992)%Q in *.
  assert (Hq : (0 <= rnd r)%Q) by lra.
  pose proof (rnd_accurate (rnd r * 100)%Q) as H2.
  rewrite (Qabs_pos (rnd r * 100)%Q) in H2 by lra.
  apply Qabs_Qle_condition in H2. destruct H2 as [H2a H2b].
  change (1 # 2 ^ 53)%Q with (1 # 9007199254740992)%Q in *.
  change (13 # 2 ^ 49)%Q with (13 # 562949953421312)%Q.
  set (q := rnd r) in *. set (y := rnd (q * 100)%Q) in *.
  split; lra.
Qed.

(** Below 2^44 the error is too small to carry the product across the
    half-way point between two integers, unless it lies on it. *)
Lemma percentage_nearest (c t : Z) :
  0 <= c <= 2 ^ 44 -> 0 < t ->
  let p := Math_round (rnd (rnd (inject_Z c / inject_Z t) * 100)%Q) in
  (2 * p - 1) * t <= 200 * c <= (2 * p + 1) * t.
Proof.
  intros [Hc0 Hc1] Ht p.
  assert (HT : (0 < inject_Z t)%Q) by (rewrite <- (Zlt_Qlt 0); exact Ht).
  assert (HC0 : (0 <= inject_Z c)%Q) by (rewrite <- (Zle_Qle 0); exact Hc0).
  assert (HC1 : (inject_Z c <= 17592186044416)%Q)
    by (change 17592186044416%Q with (inject_Z (2 ^ 44)); rewrite <- Zle_Qle; exact Hc1).
  set (T := inject_Z t) in *. set (C := inject_Z c) in *.
  assert (Hr0 : (0 <= C / T)%Q).
  { apply Qle_shift_div_l; [exact HT | lra]. }
  assert (HrT : (C / T * T == C)%Q) by (field; lra).
  pose proof (product_error (C / T) Hr0) as [He1 He2].
  change (13 # 2 ^ 49)%Q with (13 # 562949953421312)%Q in *.
  set (r := (C / T)%Q) in *. set (y := rnd (rnd r * 100)%Q) in *.
  assert (Hp1 : (inject_Z p <= y + (1 # 2))%Q) by apply Qfloor_le.
  assert (Hp2 : (y + (1 # 2) < inject_Z p + 1)%Q).
  { pose proof (Qlt_floor (y + (1 # 2))) as H. rewrite inject_Z_plus in H. exact H. }
  set (P := inject_Z p) in *.
  assert (G1 : (0 <= (y + (1 # 2) - P) * T)%Q) by (apply Qmult_le_0_compat; lra).
  assert (G2 : (0 < (P + 1 - (y + (1 # 2))) * T)%Q) by (apply Qmult_lt_0_compat; lra).
  assert (G3 : (0 <= (r * (13 # 562949953421312) - (y - r * 100)) * T)%Q)
    by (apply Qmult_le_0_compat; lra).
  assert (G4 : (0 <= ((y - r * 100) + r * (13 # 562949953421312)) * T)%Q)
    by (apply Qmult_le_0_compat; lra).
  assert (Z1 : 2 * p * t < 200 * c + 1 + t).
  { rewrite Zlt_Qlt.
    repeat first [ rewrite inject_Z_plus | rewrite inject_Z_mult ].
    fold P T C. change (inject_Z 2) with 2%Q. change (inject_Z 200) with 200%Q.
    change (inject_Z 1) with 1%Q. lra. }
  assert (Z2 : 200 * c < 2 * p * t + t + 1).
  { rewrite Zlt_Qlt.
    repeat first [ rewrite inject_Z_plus | rewrite inject_Z_mult ].
    fold P T C. change (inject_Z 2) with 2%Q. change (inject_Z 200) with 200%Q.
    change (inject_Z 1) with 1%Q. lra. }
  lia.
Qed.

Lemma percentage_zero_total (c t : Z) : t <= 0 -> percentage rnd c t = Some 0.
Proof.
  intros Ht. unfold percentage. destruct (Z.ltb_spec 0 t); [lia | reflexivity].
Qed.

(** The guard keeps the division away from a zero total. *)
Lemma percentage_defined (c t : Z) : is_Some (percentage rnd c t).
Proof.
  unfold percentage, divide.
  destruct (Z.ltb_spec 0 t) as [Ht|_]; [|by eexists].
  destruct (Z.eqb_spec t 0) as [?|_]; [lia|]. by eexists.
Qed.

Lemma percentage_share (c t : Z) :
  0 <= c <= 2 ^ 44 -> share_shown c t (percentage rnd c t).
Proof.
  intros Hc. split; [|apply percentage_zero_total].
  intros Ht. unfold percentage, divide, times.
  destruct (Z.ltb_spec 0 t) as [_|?]; [|lia].
  destruct (Z.eqb_spec t 0) as [?|_]; [lia|]. simpl.
  eexists. split; [reflexivity|].
  pose proof (percentage_nearest c t Hc Ht) as H. cbv zeta in H.
  change (inject_Z 100) with 100%Q.
  set (p := Math_round _) in *.
  split; [lia|]. split; [nia|]. intros Hct. nia.
Qed.

(** C3, amended. With counts that are not negative and below 2^44, each
    of the three shares renderStats computes is, when the total is above
    0, an integer nearest to count / total * 100: at most one half away
    from it, so that it is the rounded value unless count / total * 100
    lies exactly half-way between two integers, where it is one of the
    two. It is not below 0, and not above 100 when the count is not above
    the total, which the function does not check. When the total is not
    above 0 the share is 0, and no division has a zero divisor. When the
    total is not 0 the card shows these shares, and the statistics as
    received, the conversion rate among them. *)
Theorem displayed_percentages (stats : Stats) :
  0 <= esperando stats <= 2 ^ 44 ->
  0 <= entrevista stats <= 2 ^ 44 ->
  0 <= rejeitado stats <= 2 ^ 44 ->
  share_shown (esperando stats) (total stats) (percEsperando rnd stats) /\
  share_shown (entrevista stats) (total stats) (percEntrevista rnd stats) /\
  share_shown (rejeitado stats) (total stats) (percRejeitado rnd stats) /\
  (forall (Date_parse : string -> option Z) (page : Page),
     is_Some (statsContainer page) -> total stats <> 0 ->
     statsContainer (renderStats rnd Date_parse stats page)
     = Some (StatsCards stats (percEsperando rnd stats) (percEntrevista rnd stats)
               (percRejeitado rnd stats) (diasUso Date_parse stats (clock page)))).
Proof.
  intros He Hn Hr.
  split; [by apply percentage_share|].
  split; [by apply percentage_share|].
  split; [by apply percentage_share|].
  intros Date_parse page [v Hv] Hne. unfold renderStats. rewrite Hv.
  destruct (Z.eqb_spec (total stats) 0); [done | reflexivity].
Qed.

End PercentageFacts.

Section DoubleArithmetic.

Import Profile.

Example two_thirds : percentage double 2 3 = Some 67.
Proof. vm_compute. reflexivity. Qed.

Example one_third : percentage double 1 3 = Some 33.
Proof. vm_compute. reflexivity. Qed.

Example none_of_none : percentage double 0 0 = Some 0.
Proof. reflexivity. Qed.

Example one_eighth : percentage double 1 8 = Some 13.
Proof. vm_compute. reflexivity. Qed.

Lemma displayed_percentages_witness :
  share_shown 1 3 (percEsperando double (sample_stats "2024-01-05")) /\
  share_shown 2 3 (percEntrevista double (sample_stats "2024-01-05")) /\
  share_shown 0 3 (percRejeitado double (sample_stats "2024-01-05")) /\
  percEsperando double (sample_stats "2024-01-05") = Some 33 /\
  percEntrevista double (sample_stats "2024-01-05") = Some 67 /\
  percRejeitado double (sample_stats "2024-01-05") = Some 0.
Proof.
  destruct (displayed_percentages double double_accurate (sample_stats "2024-01-05"))
    as (H1 & H2 & H3 & _).
  - simpl. lia.
  - simpl. lia.
  - simpl. lia.
  - split; [exact H1|]. split; [exact H2|]. split; [exact H3|].
    vm_compute. repeat split.
Defined.

(** C3, as stated, fails. Of 200 applications, 29 with an interview are
    14.5 per cent, which rounds to 15, as the exact arithmetic shows; the
    quotient 29 / 200 is the double just below 0.145, its product by 100 a
    double below 14.5, and renderStats shows 14. Half-way values do not
    all go down: 1 of 8 is 12.5 per cent and shows 13. Nor is a share
    kept below 100: for a count of 2 and a total of 1 it shows 200. *)
Theorem percentage_tie_rounds_down :
  percEntrevista double (stats_with 200 170 29 1) = Some 14 /\
  percEntrevista exact (stats_with 200 170 29 1) = Some 15 /\
  (times double (double (29 # 200)) 100 < 29 # 2)%Q /\
  percEntrevista double (stats_with 8 7 1 0) = Some 13 /\
  percEsperando double (stats_with 1 2 0 0) = Some 200.
Proof. vm_compute. repeat split. Qed.

End DoubleArithmetic.

(** ** Days in use and the clock *)

Section ClockFacts.

Import Profile.

Example diasUso_36 :
  diasUso sample_Date_parse (sample_stats "2024-01-05") feb_10_2024 = Int 36.
Proof. reflexivity. Qed.

Example diasUso_absent :
  diasUso sample_Date_parse (sample_stats "") feb_10_2024 = Int 0.
Proof. reflexivity. Qed.

Example diasUso_invalid :
  diasUso sample_Date_parse (sample_stats "soon") feb_10_2024 = NaN.
Proof. reflexivity. Qed.

(** C4, as stated, fails: with the first application dated one day after
    the clock reading, the days in use are -1, neither 0 nor positive. *)
Lemma diasUso_future_negative :
  sample_Date_parse "2024-02-11" = Some 1707609600000 /\
  feb_10_2024 < 1707609600000 /\
  diasUso sample_Date_parse (sample_stats "2024-02-11") feb_10_2024 = Int (-1).
Proof. vm_compute. repeat split; reflexivity. Qed.

(** C4, amended. For every valid date of the first application and every
    clock reading, the days in use are the floor of the elapsed time over
    the length of a day. They are not negative exactly when the date is
    not after the reading, and negative when it is. *)
Theorem diasUso_floor (Date_parse : string -> option Z) (stats : Stats)
    (s : string) (primeira hoje : Z) :
  primeira_candidatura stats = Some s ->
  s <> "" ->
  Date_parse s = Some primeira ->
  exists d,
    diasUso Date_parse stats hoje = Int d /\
    86400000 * d <= hoje - primeira < 86400000 * (d + 1) /\
    (0 <= d <-> primeira <= hoje) /\
    (hoje < primeira -> d <= -1).
Proof.
  intros Hs Hne Hp. unfold diasUso. rewrite Hs.
  destruct (String.eqb_spec s ""); [done|]. rewrite Hp.
  change (1000 * 60 * 60 * 24) with 86400000.
  exists ((hoje - primeira) `div` 86400000). split; [reflexivity|].
  pose proof (Z.div_mod (hoje - primeira) 86400000 ltac:(lia)) as Hdm.
  pose proof (Z.mod_pos_bound (hoje - primeira) 86400000 ltac:(lia)) as Hb.
  lia.
Qed.

Lemma diasUso_floor_witness :
  exists d,
    diasUso sample_Date_parse (sample_stats "2024-01-05") feb_10_2024 = Int d /\
    86400000 * d <= feb_10_2024 - 1704412800000 < 86400000 * (d + 1) /\
    (0 <= d <-> 1704412800000 <= feb_10_2024) /\
    (feb_10_2024 < 1704412800000 -> d <= -1).
Proof.
  apply (diasUso_floor sample_Date_parse (sample_stats "2024-01-05") "2024-01-05").
  - reflexivity.
  - discriminate.
  - reflexivity.
Defined.

(** C5, as stated, fails: renderStats has no parameter for the time and
    reads the clock. The same statistics rendered at two readings one day
    apart give two different cards. *)
Lemma renderStats_reads_clock :
  statsContainer (renderStats exact sample_Date_parse (sample_stats "2024-01-05")
                    (page_at feb_10_2024))
  <> statsContainer (renderStats exact sample_Date_parse (sample_stats "2024-01-05")
                       (page_at (feb_10_2024 + 86400000))).
Proof. vm_compute. intros [= H]. Qed.

(** C5, amended. For fixed statistics and a fixed reading of the clock,
    renderStats gives the same page whatever the container held, and a
    second call changes nothing; the counters updateStats writes depend
    on the list alone. renderStats takes the time from the clock of the
    page, not from a parameter. *)
Theorem stats_output_determined (rnd : Q -> Q) (Date_parse : string -> option Z)
    (stats : Stats) (p1 p2 : Page) :
  clock p1 = clock p2 ->
  is_Some (statsContainer p1) ->
  is_Some (statsContainer p2) ->
  renderStats rnd Date_parse stats p1 = renderStats rnd Date_parse stats p2 /\
  renderStats rnd Date_parse stats (renderStats rnd Date_parse stats p1)
    = renderStats rnd Date_parse stats p1 /\
  (forall (apps : list Dashboard.application) (doc1 doc2 : gmap string string)
          (id : string),
     In id Dashboard.stat_ids -> is_Some (doc1 !! id) -> is_Some (doc2 !! id) ->
     exists r1 r2,
       Dashboard.updateStats apps doc1 = Normal r1 /\
       Dashboard.updateStats apps doc2 = Normal r2 /\
       r1 !! id = r2 !! id).
Proof.
  intros Hc [v1 H1] [v2 H2]. split; [|split].
  - unfold renderStats. rewrite H1, H2, Hc. reflexivity.
  - unfold renderStats. rewrite H1.
    destruct (total stats =? 0); simpl; reflexivity.
  - apply updateStats_overwrites.
Qed.

Lemma stats_output_determined_witness :
  renderStats exact sample_Date_parse (sample_stats "2024-01-05") (page_at feb_10_2024)
  = renderStats exact sample_Date_parse (sample_stats "2024-01-05")
      {| clock := feb_10_2024;
         statsContainer := Some (StatsCards (sample_stats "") None None None NaN) |}.
Proof.
  apply (stats_output_determined exact sample_Date_parse (sample_stats "2024-01-05")
           (page_at feb_10_2024)
           {| clock := feb_10_2024;
              statsContainer := Some (StatsCards (sample_stats "") None None None NaN) |}).
  - reflexivity.
  - simpl. by eexists.
  - simpl. by eexists.
Defined.

End ClockFacts.

(** ** Notifications *)

Section NotificationFacts.

Import Notifications.

Lemma category_html_not_notice (h c : string) (items : list item) (rest : list node) :
  (category_html h c items ++ rest)%list = [EmptyNotice] -> rest = [EmptyNotice].
Proof.
  unfold category_html. destruct items as [|it items]; simpl; [tauto | discriminate].
Qed.

(** The dropdown shows the empty notice exactly for a zero total. *)
Lemma dropdown_empty_state (data : Payload) (bar : Bar) :
  is_Some (notificationDropdownBody bar) ->
  empty_state (renderNotificationDropdown data bar) <-> total_count data = 0.
Proof.
  intros [body Hbody]. unfold empty_state, renderNotificationDropdown.
  rewrite Hbody. simpl.
  destruct (Z.eqb_spec (total_count data) 0) as [Hz|Hnz]; [tauto|].
  split; [|tauto]. intros [= H]. exfalso.
  apply category_html_not_notice in H.
  apply category_html_not_notice in H.
  unfold category_html in H. destruct (this_week data); simpl in H; discriminate.
Qed.

Lemma badge_hidden_iff (count : Z) (bar : Bar) :
  is_Some (notificationBadge bar) -> is_Some (notificationBell bar) ->
  badge_hidden (updateNotificationBadge count bar) <-> count <= 0.
Proof.
  intros [b Hb] [cl Hcl]. unfold badge_hidden, updateNotificationBadge.
  rewrite Hb, Hcl.
  destruct (Z.ltb_spec 0 count) as [Hpos|Hle]; simpl.
  - split; [|lia]. intros [b' [[= <-] Hd]]. discriminate Hd.
  - split; [tauto|]. intros _. eexists. split; reflexivity.
Qed.

Lemma one_digit (count : Z) :
  0 < count <= 9 ->
  Z_to_string count = String (ascii_of_nat (48 + Z.to_nat count)) "".
Proof.
  intros H.
  assert (Hc : count = 1 \/ count = 2 \/ count = 3 \/ count = 4 \/ count = 5 \/
               count = 6 \/ count = 7 \/ count = 8 \/ count = 9) by lia.
  repeat destruct Hc as [-> | Hc]; try subst count; reflexivity.
Qed.

(** C1. For every payload of the classifier, total_count is the sum of
    the lengths of today, tomorrow and this_week, and it is 0 exactly
    when the three lists are empty; on a page with the elements, the
    dropdown shows the empty notice, and the badge is hidden, exactly
    when total_count is 0. *)
Theorem payload_total_count (calendarDay : Z -> Z)
    (applications : list Dashboard.application)
    (interviews : list InterviewRecord) (now : Z) (bar : Bar) :
  let data := classify calendarDay applications interviews now in
  total_count data
    = Z.of_nat (length (today data) + length (tomorrow data) + length (this_week data))
  /\ (total_count data = 0
      <-> today data = [] /\ tomorrow data = [] /\ this_week data = [])
  /\ (is_Some (notificationDropdownBody bar) ->
      (empty_state (renderNotificationDropdown data bar) <-> total_count data = 0))
  /\ (is_Some (notificationBadge bar) -> is_Some (notificationBell bar) ->
      (badge_hidden (updateNotificationBadge (total_count data) bar)
       <-> total_count data = 0)).
Proof.
  intros data.
  assert (Hsum : total_count data
    = Z.of_nat (length (today data) + length (tomorrow data) + length (this_week data)))
    by reflexivity.
  split; [exact Hsum|]. split; [|split].
  - rewrite Hsum. split.
    + intros H.
      destruct (today data), (tomorrow data), (this_week data); simpl in H;
        try lia; auto.
    + intros (-> & -> & ->). reflexivity.
  - apply dropdown_empty_state.
  - intros Hb Hcl. rewrite badge_hidden_iff by assumption. lia.
Qed.

(** C10. On a page with the badge and the bell, for every integer count:
    the badge is hidden exactly when the count is 0 or negative; above 9
    it is shown with the text 9+; from 1 to 9 it is shown with the
    decimal numeral of the count, a single digit. *)
Theorem badge_text (count : Z) (bar : Bar) :
  is_Some (notificationBadge bar) ->
  is_Some (notificationBell bar) ->
  let bar' := updateNotificationBadge count bar in
  (badge_hidden bar' <-> count <= 0) /\
  (9 < count ->
     notificationBadge bar' = Some {| display := "flex"; textContent := "9+" |}) /\
  (0 < count <= 9 ->
     notificationBadge bar'
       = Some {| display := "flex"; textContent := Z_to_string count |} /\
     Z_to_string count = String (ascii_of_nat (48 + Z.to_nat count)) "").
Proof.
  intros Hb Hcl bar'. split; [|split].
  - by apply badge_hidden_iff.
  - intros H. subst bar'. destruct Hb as [b Hb], Hcl as [cl Hcl].
    unfold updateNotificationBadge. rewrite Hb, Hcl.
    destruct (Z.ltb_spec 0 count); [|lia]. destruct (Z.ltb_spec 9 count); [|lia].
    reflexivity.
  - intros H. split; [|by apply one_digit].
    subst bar'. destruct Hb as [b Hb], Hcl as [cl Hcl].
    unfold updateNotificationBadge. rewrite Hb, Hcl.
    destruct (Z.ltb_spec 0 count); [|lia]. destruct (Z.ltb_spec 9 count); [lia|].
    reflexivity.
Qed.

Lemma badge_text_witness :
  let bar' := updateNotificationBadge 7 sample_bar in
  (badge_hidden bar' <-> 7 <= 0) /\
  (9 < 7 ->
     notificationBadge bar' = Some {| display := "flex"; textContent := "9+" |}) /\
  (0 < 7 <= 9 ->
     notificationBadge bar'
       = Some {| display := "flex"; textContent := Z_to_string 7 |} /\
     Z_to_string 7 = String (ascii_of_nat (48 + Z.to_nat 7)) "").
Proof.
  apply (badge_text 7 sample_bar).
  - simpl. by eexists.
  - simpl. by eexists.
Defined.

Example badge_twelve :
  notificationBadge (updateNotificationBadge 12 sample_bar)
  = Some {| display := "flex"; textContent := "9+" |}.
Proof. reflexivity. Qed.

Example badge_seven :
  notificationBadge (updateNotificationBadge 7 sample_bar)
  = Some {| display := "flex"; textContent := "7" |}.
Proof. reflexivity. Qed.

Example badge_zero :
  notificationBadge (updateNotificationBadge 0 sample_bar)
  = Some {| display := "none"; textContent := "0" |}.
Proof. reflexivity. Qed.

(** C2. With a session token and a payload read from a successful
    response: when today is not empty the reminder is the today message,
    singular for one interview and plural with the count otherwise; else
    when tomorrow is not empty it is the tomorrow message, in the same
    way; else there is no reminder. *)
Theorem login_reminder_message (token : option string) (data : Payload) :
  has_token token = true ->
  let shown := showLoginReminders token
                 (Normal {| fetched_ok := true; fetched_data := Some data |}) in
  let n := length (today data) in
  let m := length (tomorrow data) in
  (today data <> [] ->
     shown = Some {| message := if (n =? 1)%nat then "Voce tem 1 entrevista hoje!"
                                else "Voce tem " +:+ Z_to_string (Z.of_nat n)
                                       +:+ " entrevistas hoje!";
                     kind := "error"; delay := 3500 |}) /\
  (today data = [] -> tomorrow data <> [] ->
     shown = Some {| message := if (m =? 1)%nat then "Voce tem 1 entrevista amanha"
                                else "Voce tem " +:+ Z_to_string (Z.of_nat m)
                                       +:+ " entrevistas amanha";
                     kind := "success"; delay := 3500 |}) /\
  (today data = [] -> tomorrow data = [] -> shown = None).
Proof.
  intros Htok shown n m. subst shown n m.
  unfold showLoginReminders. rewrite Htok. simpl. unfold reminder_of.
  split; [|split].
  - intros H. destruct (today data) as [|x l]; [done|]. reflexivity.
  - intros -> H. simpl. destruct (tomorrow data) as [|x l]; [done|]. reflexivity.
  - intros -> ->. reflexivity.
Qed.

Lemma login_reminder_message_witness :
  has_token sample_token = true /\
  showLoginReminders sample_token
    (Normal {| fetched_ok := true; fetched_data := Some sample_payload |})
  = Some {| message := "Voce tem 1 entrevista hoje!"; kind := "error"; delay := 3500 |}.
Proof.
  split; [reflexivity|].
  apply (login_reminder_message sample_token sample_payload); [reflexivity|].
  discriminate.
Defined.

Example sample_payload_buckets :
  map item_id (today sample_payload) = [3] /\
  map item_id (tomorrow sample_payload) = [2] /\
  map item_id (this_week sample_payload) = [1] /\
  total_count sample_payload = 3.
Proof. vm_compute. repeat split; reflexivity. Qed.

Example reminder_two_tomorrow :
  let it := {| item_id := 1; application_nome := "Dev"; application_empresa := "Acme";
               interview_datetime := 0; interview_type := "video" |} in
  reminder_of {| today := []; tomorrow := [it; it]; this_week := []; total_count := 2 |}
  = Some {| message := "Voce tem 2 entrevistas amanha"; kind := "success";
            delay := 3500 |}.
Proof. reflexivity. Qed.

Example no_reminder_without_token :
  showLoginReminders None
    (Normal {| fetched_ok := true; fetched_data := Some sample_payload |}) = None.
Proof. reflexivity. Qed.

(** Every reminder of the payload is an interview still scheduled and
    not in the past. *)
Lemma classify_scheduled_only (calendarDay : Z -> Z)
    (applications : list Dashboard.application)
    (interviews : list InterviewRecord) (now : Z) (it : item) :
  let data := classify calendarDay applications interviews now in
  it ∈ today data \/ it ∈ tomorrow data \/ it ∈ this_week data ->
  exists iv, iv ∈ interviews /\ iv_status iv = Scheduled /\ now <= iv_scheduled iv /\
             item_id it = iv_id iv /\ interview_datetime it = iv_scheduled iv.
Proof.
  intros data Hin.
  assert (Ht : it ∈ reminder_targets applications interviews now).
  { subst data. unfold classify in Hin. simpl in Hin.
    destruct Hin as [H|[H|H]]; apply list_elem_of_filter in H; tauto. }
  unfold reminder_targets in Ht. rewrite merge_sort_Permutation in Ht.
  apply list_elem_of_omap in Ht as (iv & Hiv & Hview).
  exists iv. split; [exact Hiv|].
  destruct (bool_decide (iv_status iv = Scheduled) && (now <=? iv_scheduled iv))
    eqn:Hguard; [|discriminate].
  apply andb_prop in Hguard as [Hs Hn].
  apply bool_decide_eq_true in Hs. apply Z.leb_le in Hn.
  unfold view_of in Hview.
  destruct (List.find _ applications) as [app|]; [|discriminate].
  simpl in Hview. injection Hview as <-. simpl. tauto.
Qed.

(** The three buckets are pairwise disjoint. *)
Lemma classify_disjoint (calendarDay : Z -> Z)
    (applications : list Dashboard.application)
    (interviews : list InterviewRecord) (now : Z) (it : item) :
  let data := classify calendarDay applications interviews now in
  ~ (it ∈ today data /\ it ∈ tomorrow data) /\
  ~ (it ∈ today data /\ it ∈ this_week data) /\
  ~ (it ∈ tomorrow data /\ it ∈ this_week data).
Proof.
  intros data. subst data. unfold classify. simpl.
  repeat split; intros [H1 H2];
    apply list_elem_of_filter in H1 as [H1 _];
    apply list_elem_of_filter in H2 as [H2 _]; lia.
Qed.

End NotificationFacts.

(** * Properties of the rest of the script *)

Set Warnings "-clear-no-such-hyp".

(** ** Stars of a rating *)

Section StarsFacts.

Import Interviews.

(** X1. [renderStars] always writes five stars: as many filled ones as the
    rating clamped to the range 0..5, followed by empty ones. *)
Theorem renderStars_row (rating : Z) :
  renderStars rating = star_row (Z.to_nat (Z.max 0 (Z.min rating 5))).
Proof.
  unfold renderStars. simpl.
  destruct (Z.leb_spec 1 rating); destruct (Z.leb_spec 2 rating);
    destruct (Z.leb_spec 3 rating); destruct (Z.leb_spec 4 rating);
    destruct (Z.leb_spec 5 rating); try lia.
  - replace (Z.max 0 (Z.min rating 5)) with 5 by lia. reflexivity.
  - replace (Z.max 0 (Z.min rating 5)) with 4 by lia. reflexivity.
  - replace (Z.max 0 (Z.min rating 5)) with 3 by lia. reflexivity.
  - replace (Z.max 0 (Z.min rating 5)) with 2 by lia. reflexivity.
  - replace (Z.max 0 (Z.min rating 5)) with 1 by lia. reflexivity.
  - replace (Z.max 0 (Z.min rating 5)) with 0 by lia. reflexivity.
Qed.

End StarsFacts.

(** ** Month names *)

Section MonthFacts.

Import Months.

Lemma split_no_sep (sep : ascii) (s : string) :
  (forall i, String.get i s <> Some sep) -> split sep s = [s].
Proof.
  induction s as [|c s IH]; intros H; [reflexivity|]. simpl.
  destruct (Ascii.eqb_spec c sep) as [->|Hne].
  - exfalso. apply (H 0%nat). reflexivity.
  - rewrite IH; [reflexivity|]. intros i. apply (H (S i)).
Qed.

Lemma split_app (sep : ascii) (a b : string) :
  (forall i, String.get i a <> Some sep) ->
  split sep (a +:+ String sep b) = a :: split sep b.
Proof.
  induction a as [|c a IH]; intros H.
  - simpl. rewrite Ascii.eqb_refl. reflexivity.
  - change (String c a +:+ String sep b) with (String c (a +:+ String sep b)).
    simpl. destruct (Ascii.eqb_spec c sep) as [->|Hne].
    + exfalso. apply (H 0%nat). reflexivity.
    + rewrite IH; [reflexivity|]. intros i. apply (H (S i)).
Qed.

(** X2. For a month string [year-mm] with [mm] from 01 to 12 and a year
    without dash, [formatMonth] gives the Portuguese name of the month, a
    slash and the year. *)
Theorem formatMonth_names (year : string) (m : Z) :
  (forall i, String.get i year <> Some "-"%char) ->
  1 <= m <= 12 ->
  formatMonth (Some (year +:+ "-" +:+ two_digits m))
  = default "" (meses !! Z.to_nat (m - 1)) +:+ "/" +:+ year.
Proof.
  intros Hy Hm. unfold formatMonth.
  assert (Hne : String.eqb (year +:+ "-" +:+ two_digits m) "" = false).
  { destruct year; [|reflexivity]. reflexivity. }
  rewrite Hne.
  change (year +:+ "-" +:+ two_digits m) with (year +:+ String "-" (two_digits m)).
  rewrite split_app by exact Hy.
  assert (Hc : m = 1 \/ m = 2 \/ m = 3 \/ m = 4 \/ m = 5 \/ m = 6 \/ m = 7 \/ m = 8 \/
               m = 9 \/ m = 10 \/ m = 11 \/ m = 12) by lia.
  repeat destruct Hc as [-> | Hc]; try subst m; reflexivity.
Qed.

Lemma formatMonth_names_witness :
  formatMonth (Some ("2024" +:+ "-" +:+ two_digits 3)) = "Março" +:+ "/" +:+ "2024".
Proof.
  apply (formatMonth_names "2024" 3).
  - intros i. do 5 (destruct i as [|i]; [discriminate|]). discriminate.
  - lia.
Defined.

(** X3. A month string that is not empty and has no dash has no month
    part: [formatMonth] prints [undefined], a slash and the whole string.
    A missing or empty string prints the dash. *)
Theorem formatMonth_without_month (s : string) :
  s <> "" ->
  (forall i, String.get i s <> Some "-"%char) ->
  formatMonth (Some s) = "undefined/" +:+ s /\
  formatMonth (Some "") = formatMonth None.
Proof.
  intros Hne Hs. split; [|reflexivity]. unfold formatMonth.
  destruct (String.eqb_spec s "") as [E|_]; [contradiction|].
  rewrite split_no_sep by exact Hs. reflexivity.
Qed.

Lemma formatMonth_without_month_witness :
  formatMonth (Some "2024") = "undefined/" +:+ "2024" /\
  formatMonth (Some "") = formatMonth None.
Proof.
  apply (formatMonth_without_month "2024").
  - discriminate.
  - intros i. do 5 (destruct i as [|i]; [discriminate|]). discriminate.
Defined.

End MonthFacts.

(** ** Navigation between sections *)

Section NavFacts.

Import Dom Nav.

Ltac alter_lookups :=
  unfold with_element;
  repeat first [ rewrite lookup_alter_eq | rewrite lookup_alter_ne by discriminate ].

Lemma section_cases (section : string) :
  (String.eqb section "profile" = true /\ section_of section = "sectionProfile"
     /\ tab_of section = "tabProfile") \/
  (String.eqb section "profile" = false /\ String.eqb section "interviews" = true
     /\ section_of section = "sectionInterviews" /\ tab_of section = "tabInterviews") \/
  (String.eqb section "profile" = false /\ String.eqb section "interviews" = false
     /\ section_of section = "sectionApplications" /\ tab_of section = "tabApplications").
Proof.
  unfold section_of, tab_of.
  destruct (String.eqb section "profile"); [tauto|].
  destruct (String.eqb section "interviews"); tauto.
Qed.

(** X4. When [showSection] returns, of the three sections exactly the
    selected one is displayed (the others are hidden) and of the three
    tabs exactly the selected one is active; any name other than profile
    and interviews selects the applications. For interviews the loading
    indicator is displayed as well, since [loadInterviews] has begun; for
    the other sections it is as before. No other element changes, and no
    element is created or removed. *)
Theorem showSection_exclusive (section : string) (doc : gmap string element) :
  let doc' := fst (showSection section doc) in
  (forall id e, In id section_ids -> doc' !! id = Some e ->
     display e = if String.eqb id (section_of section) then "block" else "none") /\
  (forall id e, In id tab_ids -> doc' !! id = Some e ->
     ("active" ∈ classList e <-> id = tab_of section)) /\
  doc' !! "loading"
    = (if String.eqb section "interviews" then set_display "flex" <$> doc !! "loading"
       else doc !! "loading") /\
  (forall id, ~ In id section_ids -> ~ In id tab_ids -> id <> "loading" ->
     doc' !! id = doc !! id) /\
  (forall id, is_Some (doc' !! id) <-> is_Some (doc !! id)).
Proof.
  intros doc'. subst doc'. unfold showSection, showLoading.
  destruct (section_cases section) as [(E1 & -> & ->)|[(E1 & E2 & -> & ->)|(E1 & E2 & -> & ->)]];
    rewrite E1; try rewrite E2; simpl fst.
  1: assert (E3 : String.eqb section "interviews" = false)
       by (apply String.eqb_eq in E1; by subst section).
  1: rewrite E3.
  all: split; [|split; [|split; [|split]]].
  all: try (intros id e Hid; unfold section_ids, tab_ids in Hid; simpl in Hid;
            destruct Hid as [<-|[<-|[<-|[]]]]; alter_lookups;
            destruct (doc !! _) as [e0|]; simpl; intros [= <-]; simpl;
            first [ reflexivity | set_solver ]).
  all: try (alter_lookups; reflexivity).
  all: try (intros id H1 H2 H3; unfold section_ids, tab_ids in H1, H2; simpl in H1, H2;
            unfold with_element;
            rewrite !lookup_alter_ne by (intros <-; first [tauto | congruence]);
            reflexivity).
  all: intros id; unfold with_element; rewrite !lookup_alter_is_Some; reflexivity.
Qed.

Example showSection_interviews :
  let doc' := fst (showSection "interviews" (<["loading" := Session.blank]> sample_page)) in
  display <$> doc' !! "loading" = Some "flex" /\
  display <$> doc' !! "authScreen" = Some "flex".
Proof. split; reflexivity. Qed.

End NavFacts.

(** ** Screens and forms *)

Section ScreenFacts.

Import Dom Nav.

Lemma alter_display_other (id id' v : string) (doc : gmap string element) :
  id <> id' -> with_element id (set_display v) doc !! id' = doc !! id'.
Proof. intros Hne. unfold with_element. by rewrite lookup_alter_ne. Qed.

Lemma exclusive_alter (first second shown id : string) (f : element -> element)
    (doc : gmap string element) :
  id <> first /\ id <> second ->
  exclusive first second shown doc ->
  exclusive first second shown (with_element id f doc).
Proof.
  intros [H1 H2] Hex a b. unfold with_element.
  rewrite !lookup_alter_ne by done. apply Hex.
Qed.

Lemma exclusive_set (first second shown : string) (doc : gmap string element) :
  first <> second ->
  exclusive first second shown
    (with_element second (set_display "none")
       (with_element first (set_display shown) doc)) /\
  exclusive first second shown
    (with_element second (set_display shown)
       (with_element first (set_display "none") doc)).
Proof.
  intros Hne. split; intros a b; unfold with_element;
    rewrite lookup_alter_ne by done; rewrite !lookup_alter_eq;
    rewrite lookup_alter_ne by done;
    destruct (doc !! first) as [e1|]; simpl; try discriminate;
    destruct (doc !! second) as [e2|]; simpl; try discriminate;
    intros [= <-] [= <-]; simpl; tauto.
Qed.

Lemma showSection_alters (section : string) (doc : gmap string element) :
  forall first second shown,
    (forall id, In id section_ids \/ In id tab_ids \/ id = "loading" ->
       id <> first /\ id <> second) ->
    exclusive first second shown doc ->
    exclusive first second shown (fst (showSection section doc)).
Proof.
  intros first second shown Hid Hex. unfold showSection, showLoading.
  assert (H : forall id f d, In id section_ids \/ In id tab_ids \/ id = "loading" ->
            exclusive first second shown d ->
            exclusive first second shown (with_element id f d)).
  { intros id f d Hin Hd. apply exclusive_alter; [by apply Hid | exact Hd]. }
  destruct (String.eqb section "profile"); [|destruct (String.eqb section "interviews")];
    simpl fst; repeat (apply H; [unfold section_ids, tab_ids; simpl; tauto|]); exact Hex.
Qed.

(** X22. Every sequence of calls of the navigation functions keeps the
    two screens exclusive (one of the login screen and the dashboard is
    displayed, the other hidden) and the two forms of the login screen
    exclusive, once they are. *)
Theorem screens_exclusive (calls : list nav_call) (doc : gmap string element) :
  exclusive "authScreen" "dashboard" "flex" doc ->
  exclusive "loginForm" "registerForm" "block" doc ->
  exclusive "authScreen" "dashboard" "flex" (fold_left (fun d c => run_nav c d) calls doc) /\
  exclusive "loginForm" "registerForm" "block" (fold_left (fun d c => run_nav c d) calls doc).
Proof.
  revert doc. induction calls as [|c calls IH]; intros doc H1 H2; [by split|].
  simpl. apply IH.
  - destruct c; simpl.
    + apply exclusive_alter; [split; discriminate | exact H1].
    + apply exclusive_alter; [split; discriminate | exact H1].
    + apply (exclusive_set "authScreen" "dashboard" "flex"). discriminate.
    + apply (exclusive_set "authScreen" "dashboard" "flex"). discriminate.
    + unfold showLogin.
      do 2 (apply exclusive_alter; [split; discriminate|]). exact H1.
    + unfold showRegister.
      do 2 (apply exclusive_alter; [split; discriminate|]). exact H1.
    + apply showSection_alters; [|exact H1].
      intros id Hin. unfold section_ids, tab_ids in Hin. simpl in Hin.
      split; intros ->; intuition discriminate.
  - destruct c; simpl.
    + apply exclusive_alter; [split; discriminate | exact H2].
    + apply exclusive_alter; [split; discriminate | exact H2].
    + unfold showAuth.
      do 2 (apply exclusive_alter; [split; discriminate|]). exact H2.
    + unfold showDashboard.
      do 2 (apply exclusive_alter; [split; discriminate|]). exact H2.
    + apply (exclusive_set "loginForm" "registerForm" "block"). discriminate.
    + apply (exclusive_set "loginForm" "registerForm" "block"). discriminate.
    + apply showSection_alters; [|exact H2].
      intros id Hin. unfold section_ids, tab_ids in Hin. simpl in Hin.
      split; intros ->; intuition discriminate.
Qed.

Lemma sample_page_exclusive :
  exclusive "authScreen" "dashboard" "flex" sample_page /\
  exclusive "loginForm" "registerForm" "block" sample_page.
Proof.
  split; intros a b; unfold sample_page;
    repeat first [ rewrite lookup_insert_eq | rewrite lookup_insert_ne by discriminate ];
    intros [= <-] [= <-]; simpl; tauto.
Qed.

Lemma screens_exclusive_witness :
  exclusive "authScreen" "dashboard" "flex"
    (fold_left (fun d c => run_nav c d) [ShowRegister; ShowDashboard; ShowSection "profile"]
       sample_page) /\
  exclusive "loginForm" "registerForm" "block"
    (fold_left (fun d c => run_nav c d) [ShowRegister; ShowDashboard; ShowSection "profile"]
       sample_page).
Proof.
  apply (screens_exclusive [ShowRegister; ShowDashboard; ShowSection "profile"] sample_page).
  - apply sample_page_exclusive.
  - apply sample_page_exclusive.
Defined.

End ScreenFacts.

(** ** Notification polling and logout *)

Section PollingFacts.

Import Dom Session.

Lemma loaded_inv (app : App) : loaded app -> polling_inv app.
Proof.
  intros (Hn & Hi & Hp). unfold polling_inv. rewrite Hn, Hi.
  split; [exact Hp|]. split; [set_solver | reflexivity].
Qed.

Lemma interval_set_inv (app : App) :
  polling_inv app -> interval_set app = notificationInterval app.
Proof.
  intros (Hp & Hr & Hi). unfold interval_set.
  destruct (notificationInterval app) as [h|]; [|reflexivity].
  assert (0 < h < next_handle app) by (apply Hr; rewrite Hi; set_solver).
  destruct (Z.eqb_spec h 0); [lia | reflexivity].
Qed.

Lemma start_inv (app : App) :
  polling_inv app -> polling_inv (startNotificationPolling app).
Proof.
  intros Hinv. pose proof (interval_set_inv app Hinv) as His.
  destruct Hinv as (Hp & Hr & Hi).
  unfold startNotificationPolling. rewrite His.
  destruct (notificationInterval app) as [h|] eqn:Hn; unfold polling_inv; simpl.
  - rewrite Hi. split; [lia|]. split.
    + intros h' Hh'. assert (h' = next_handle app) by set_solver. lia.
    + set_solver.
  - rewrite Hi. split; [lia|]. split.
    + intros h' Hh'. assert (h' = next_handle app) by set_solver. lia.
    + set_solver.
Qed.

Lemma stop_inv (app : App) :
  polling_inv app ->
  polling_inv (stopNotificationPolling app) /\
  intervals (stopNotificationPolling app) = ∅ /\
  notificationInterval (stopNotificationPolling app) = None.
Proof.
  intros Hinv. pose proof (interval_set_inv app Hinv) as His.
  destruct Hinv as (Hp & Hr & Hi).
  unfold stopNotificationPolling. rewrite His.
  destruct (notificationInterval app) as [h|] eqn:Hn; unfold polling_inv; simpl.
  - rewrite Hi. repeat split; try lia; try set_solver.
  - rewrite Hn, Hi. repeat split; try lia; try set_solver.
Qed.

Lemma showToast_Str (msg type : string) (app : App) :
  showToast (Str msg) type app = (Normal tt, toast_after msg type app).
Proof.
  unfold showToast, toast_after. by destruct (elements app !! "toast").
Qed.

Lemma logout_eq (app : App) :
  logout app
  = (Normal tt,
     toast_after "Logout realizado com sucesso" "success"
       (on_elements Nav.showAuth
          (stopNotificationPolling
             (set_currentUser None
                (set_token None
                   (set_localStorage (delete "token" (localStorage app)) app)))))).
Proof. unfold logout, modify, mbind, act_bind. apply showToast_Str. Qed.

Lemma toast_after_polling (msg type : string) (app : App) :
  next_handle (toast_after msg type app) = next_handle app /\
  intervals (toast_after msg type app) = intervals app /\
  notificationInterval (toast_after msg type app) = notificationInterval app.
Proof. unfold toast_after. destruct (elements app !! "toast"); simpl; tauto. Qed.

Lemma logout_inv (app : App) :
  polling_inv app ->
  polling_inv (snd (logout app)) /\
  intervals (snd (logout app)) = ∅ /\
  notificationInterval (snd (logout app)) = None.
Proof.
  intros Hinv. rewrite logout_eq. simpl snd.
  set (a := set_currentUser None _).
  assert (Ha : polling_inv a) by exact Hinv.
  destruct (stop_inv a Ha) as (H1 & H2 & H3).
  destruct (toast_after_polling "Logout realizado com sucesso" "success"
              (on_elements Nav.showAuth (stopNotificationPolling a)))
    as (E1 & E2 & E3).
  unfold polling_inv. rewrite E1, E2, E3. simpl.
  split; [exact H1|]. split; assumption.
Qed.

(** X5. From the state of a freshly loaded script, after any sequence of
    calls of [startNotificationPolling], [stopNotificationPolling] and
    [logout], the only live timer is the one recorded in
    [notificationInterval]: starting twice leaks no timer. After a stop or
    a logout no timer is live; after a start exactly one is. *)
Theorem polling_single_timer (calls : list polling_call) (app : App) :
  loaded app ->
  let app' := fold_left (fun a c => run_call c a) calls app in
  intervals app' = match notificationInterval app' with
                   | Some h => {[ h ]}
                   | None => ∅
                   end /\
  (forall calls', calls = (calls' ++ [Stop])%list \/ calls = (calls' ++ [Logout])%list ->
     intervals app' = ∅ /\ notificationInterval app' = None) /\
  (forall calls', calls = (calls' ++ [Start])%list ->
     exists h, notificationInterval app' = Some h /\ h <> 0 /\ intervals app' = {[ h ]}).
Proof.
  intros Hl app'.
  assert (Hall : forall cs a, polling_inv a ->
                   polling_inv (fold_left (fun a c => run_call c a) cs a)).
  { induction cs as [|c cs IH]; intros a Ha; [exact Ha|]. simpl. apply IH.
    destruct c; simpl.
    - by apply start_inv.
    - by apply stop_inv.
    - by apply logout_inv. }
  pose proof (Hall calls app (loaded_inv app Hl)) as Hinv.
  split; [apply Hinv|]. split.
  - intros calls' Hc. subst app'.
    destruct Hc as [-> | ->]; rewrite fold_left_app; simpl.
    + apply stop_inv. apply Hall. by apply loaded_inv.
    + apply logout_inv. apply Hall. by apply loaded_inv.
  - intros calls' ->. subst app'. rewrite fold_left_app in *.
    change (fold_left (fun a c => run_call c a) [Start] ?x)
      with (startNotificationPolling x) in *.
    set (a := fold_left _ calls' app) in *.
    destruct Hinv as (Hp & Hr & Hi).
    destruct (notificationInterval (startNotificationPolling a)) as [h|] eqn:Hn.
    + exists h. split; [reflexivity|]. split; [|exact Hi].
      assert (0 < h < next_handle (startNotificationPolling a))
        by (apply Hr; rewrite Hi; set_solver). lia.
    + exfalso. unfold startNotificationPolling in Hn.
      destruct (interval_set a); simpl in Hn; discriminate.
Qed.

Lemma sample_app_loaded (new_password confirm : string) :
  loaded (sample_app new_password confirm).
Proof. unfold loaded. simpl. split; [reflexivity|]. split; [reflexivity | lia]. Qed.

Lemma polling_single_timer_witness :
  exists h,
    notificationInterval
      (fold_left (fun a c => run_call c a) [Start; Start; Stop; Start] (sample_app "" ""))
    = Some h /\
    h <> 0 /\
    intervals
      (fold_left (fun a c => run_call c a) [Start; Start; Stop; Start] (sample_app "" ""))
    = {[ h ]}.
Proof.
  pose proof (polling_single_timer [Start; Start; Stop; Start] (sample_app "" "")
                (sample_app_loaded "" "")) as (_ & _ & H).
  exact (H [Start; Start; Stop] eq_refl).
Defined.

(** X6. [logout] completes normally and leaves no session: the token is
    cleared in memory and in the local storage, the current user is
    forgotten, polling is stopped with no timer left, the login screen is
    displayed and the dashboard hidden, and the success toast is shown. *)
Theorem logout_clears_session (app : App) :
  polling_inv app ->
  exists app',
    logout app = (Normal tt, app') /\
    token app' = None /\ localStorage app' !! "token" = None /\
    currentUser app' = None /\
    notificationInterval app' = None /\ intervals app' = ∅ /\
    (forall e, elements app' !! "authScreen" = Some e -> display e = "flex") /\
    (forall e, elements app' !! "dashboard" = Some e -> display e = "none") /\
    (is_Some (elements app !! "toast") ->
     exists t, elements app' !! "toast" = Some t /\
               textContent t = "Logout realizado com sucesso" /\
               "show" ∈ classList t /\ "success" ∈ classList t).
Proof.
  intros Hinv. eexists. split; [apply logout_eq|].
  destruct (logout_inv app Hinv) as (_ & Hi & Hn). rewrite logout_eq in Hi, Hn.
  simpl snd in Hi, Hn.
  set (a := set_currentUser None _) in *.
  assert (Hstop : token (stopNotificationPolling a) = None
                  /\ localStorage (stopNotificationPolling a) !! "token" = None
                  /\ currentUser (stopNotificationPolling a) = None
                  /\ elements (stopNotificationPolling a) = elements app).
  { unfold stopNotificationPolling. destruct (interval_set a); simpl;
      repeat split; try reflexivity; apply lookup_delete_eq. }
  destruct Hstop as (Ht & Hl & Hc & He).
  set (b := on_elements Nav.showAuth (stopNotificationPolling a)) in *.
  assert (Hb : token b = None /\ localStorage b !! "token" = None /\ currentUser b = None
               /\ elements b = Nav.showAuth (elements app)).
  { subst b. unfold on_elements. simpl. rewrite He. tauto. }
  destruct Hb as (Ht' & Hl' & Hc' & He').
  assert (Hother : forall id, id <> "toast" ->
            elements (toast_after "Logout realizado com sucesso" "success" b) !! id
            = elements b !! id).
  { intros id Hid. unfold toast_after. destruct (elements b !! "toast"); [|reflexivity].
    simpl. by rewrite lookup_insert_ne. }
  assert (Hkeep : token (toast_after "Logout realizado com sucesso" "success" b) = token b
            /\ localStorage (toast_after "Logout realizado com sucesso" "success" b)
               = localStorage b
            /\ currentUser (toast_after "Logout realizado com sucesso" "success" b)
               = currentUser b).
  { unfold toast_after. destruct (elements b !! "toast"); simpl; tauto. }
  destruct Hkeep as (K1 & K2 & K3). rewrite K1, K2, K3.
  split; [exact Ht'|]. split; [exact Hl'|]. split; [exact Hc'|].
  split; [exact Hn|]. split; [exact Hi|]. split; [|split].
  - intros e. rewrite Hother by discriminate. rewrite He'.
    unfold Nav.showAuth, with_element.
    rewrite lookup_alter_ne by discriminate. rewrite lookup_alter_eq.
    destruct (_ !! "authScreen"); simpl; [|discriminate]. by intros [= <-].
  - intros e. rewrite Hother by discriminate. rewrite He'.
    unfold Nav.showAuth, with_element. rewrite lookup_alter_eq.
    destruct (_ !! "dashboard"); simpl; [|discriminate]. by intros [= <-].
  - intros [t0 Ht0]. unfold toast_after.
    assert (Hbt : elements b !! "toast" = Some t0).
    { rewrite He'. unfold Nav.showAuth, with_element.
      rewrite !lookup_alter_ne by discriminate. exact Ht0. }
    rewrite Hbt. simpl. rewrite lookup_insert_eq. eexists. split; [reflexivity|].
    simpl. split; [reflexivity|]. split; [set_solver|].
    apply elem_of_union_l. vm_compute. set_solver.
Qed.

Lemma logout_clears_session_witness :
  exists app',
    logout (sample_app "" "") = (Normal tt, app') /\
    token app' = None /\ localStorage app' !! "token" = None /\
    currentUser app' = None /\
    notificationInterval app' = None /\ intervals app' = ∅.
Proof.
  destruct (logout_clears_session (sample_app "" "")
              (loaded_inv _ (sample_app_loaded "" "")))
    as (app' & H1 & H2 & H3 & H4 & H5 & H6 & _).
  exists app'. exact (conj H1 (conj H2 (conj H3 (conj H4 (conj H5 H6))))).
Defined.

End PollingFacts.

(** ** Theme *)

Section ThemeFacts.

Import Dom Session.

Lemma toast_after_theme (msg type : string) (app : App) :
  data_theme (toast_after msg type app) = data_theme app /\
  localStorage (toast_after msg type app) = localStorage app /\
  theme_toggle (toast_after msg type app) = theme_toggle app.
Proof. unfold toast_after. destruct (elements app !! "toast"); simpl; tauto. Qed.

Lemma newTheme_cases (app : App) :
  (data_theme app = Some "dark" /\ newTheme app = "light") \/
  (data_theme app <> Some "dark" /\ newTheme app = "dark").
Proof.
  unfold newTheme. destruct (data_theme app) as [t|]; [|right; split; [discriminate|done]].
  destruct (String.eqb_spec t "dark") as [->|Hne]; [left; done|].
  right. split; [congruence | done].
Qed.

Lemma updateToggleButton_active (theme : string) (t : Toggle) (classes : gset string) :
  toggleSwitch (updateToggleButton theme t) = Some classes ->
  ("active" ∈ classes <-> theme = "light").
Proof.
  unfold updateToggleButton. destruct (toggleSwitch t) as [c|] eqn:Hc.
  - destruct (String.eqb_spec theme "light") as [->|Hne]; simpl; intros [= <-].
    + set_solver.
    + set_solver.
  - rewrite Hc. discriminate.
Qed.

Lemma updateToggleButton_twice (theme : string) (t : Toggle) :
  updateToggleButton theme (updateToggleButton theme t) = updateToggleButton theme t.
Proof.
  destruct t as [[classes|] icon text]; unfold updateToggleButton; simpl;
    [|reflexivity].
  destruct (String.eqb theme "light"); simpl;
    (f_equal; [f_equal; set_solver | by destruct icon | by destruct text]).
Qed.

Lemma toggleTheme_eq (app : App) :
  exists app',
    toggleTheme app = (Normal tt, app') /\
    data_theme app' = Some (newTheme app) /\
    localStorage app' = <["theme" := newTheme app]> (localStorage app) /\
    theme_toggle app' = updateToggleButton (newTheme app) (theme_toggle app).
Proof.
  unfold toggleTheme, modify, mbind, act_bind. rewrite showToast_Str.
  eexists. split; [reflexivity|].
  match goal with |- context [toast_after ?m ?t ?a] =>
    destruct (toast_after_theme m t a) as (-> & -> & ->) end.
  simpl. tauto.
Qed.

(** X7. [toggleTheme] completes normally, sets the theme to light when it
    was dark and to dark in every other case (also when the attribute is
    missing or has another value), saves the new theme in the local
    storage and marks the switch active exactly for light. A reload
    ([loadTheme]) then restores the same theme and the same switch. *)
Theorem toggleTheme_switches (app : App) :
  exists app',
    toggleTheme app = (Normal tt, app') /\
    data_theme app' = Some (newTheme app) /\
    localStorage app' !! "theme" = Some (newTheme app) /\
    (newTheme app = "light" <-> data_theme app = Some "dark") /\
    (newTheme app = "dark" <-> data_theme app <> Some "dark") /\
    (forall classes, toggleSwitch (theme_toggle app') = Some classes ->
       ("active" ∈ classes <-> newTheme app = "light")) /\
    data_theme (loadTheme app') = data_theme app' /\
    theme_toggle (loadTheme app') = theme_toggle app'.
Proof.
  destruct (toggleTheme_eq app) as (app' & Heq & Hd & Hl & Ht).
  exists app'. split; [exact Heq|]. split; [exact Hd|].
  split; [rewrite Hl; apply lookup_insert_eq|].
  assert (Hsaved : savedTheme app' = newTheme app).
  { unfold savedTheme. rewrite Hl, lookup_insert_eq.
    destruct (newTheme_cases app) as [[_ ->]|[_ ->]]; reflexivity. }
  split.
  { destruct (newTheme_cases app) as [[H1 H2]|[H1 H2]]; rewrite H2;
      split; try done; intros; congruence. }
  split.
  { destruct (newTheme_cases app) as [[H1 H2]|[H1 H2]]; rewrite H2;
      split; try done; intros; congruence. }
  split.
  { intros classes Hc. rewrite Ht in Hc. by apply updateToggleButton_active in Hc. }
  split.
  { unfold loadTheme. simpl. by rewrite Hsaved, Hd. }
  unfold loadTheme. simpl. rewrite Hsaved, Ht. apply updateToggleButton_twice.
Qed.

(** X8. From a dark or a light theme, toggling twice restores the theme,
    and the local storage holds it. *)
Theorem toggleTheme_twice (app : App) :
  data_theme app = Some "dark" \/ data_theme app = Some "light" ->
  exists app1 app2,
    toggleTheme app = (Normal tt, app1) /\ toggleTheme app1 = (Normal tt, app2) /\
    data_theme app2 = data_theme app /\
    localStorage app2 !! "theme" = data_theme app.
Proof.
  intros Hd.
  destruct (toggleTheme_eq app) as (app1 & Heq1 & Hd1 & Hl1 & Ht1).
  destruct (toggleTheme_eq app1) as (app2 & Heq2 & Hd2 & Hl2 & Ht2).
  exists app1, app2. split; [exact Heq1|]. split; [exact Heq2|].
  assert (Hn : newTheme app1 = match data_theme app with
                               | Some t => t | None => "" end).
  { unfold newTheme at 1. rewrite Hd1. unfold newTheme.
    destruct Hd as [-> | ->]; reflexivity. }
  rewrite Hd2, Hl2, lookup_insert_eq, Hn. destruct Hd as [-> | ->]; done.
Qed.

Lemma toggleTheme_twice_witness :
  exists app1 app2,
    toggleTheme (loadTheme (sample_app "" "")) = (Normal tt, app1) /\
    toggleTheme app1 = (Normal tt, app2) /\
    data_theme app2 = data_theme (loadTheme (sample_app "" "")) /\
    localStorage app2 !! "theme" = data_theme (loadTheme (sample_app "" "")).
Proof.
  apply (toggleTheme_twice (loadTheme (sample_app "" ""))). left. reflexivity.
Defined.

(** X9. [loadTheme] applies the saved theme, and dark when none is saved
    or the saved one is the empty string; the switch is active exactly for
    light, and the local storage is not written. *)
Theorem loadTheme_default (app : App) :
  let app' := loadTheme app in
  (localStorage app !! "theme" = None \/ localStorage app !! "theme" = Some "" ->
     data_theme app' = Some "dark") /\
  (forall t, localStorage app !! "theme" = Some t -> t <> "" ->
     data_theme app' = Some t) /\
  (forall classes, toggleSwitch (theme_toggle app') = Some classes ->
     ("active" ∈ classes <-> data_theme app' = Some "light")) /\
  localStorage app' = localStorage app.
Proof.
  intros app'. subst app'. unfold loadTheme. simpl. split; [|split; [|split]].
  - intros [H|H]; unfold savedTheme; rewrite H; reflexivity.
  - intros t H Hne. unfold savedTheme. rewrite H.
    by destruct (String.eqb_spec t "").
  - intros classes H. apply updateToggleButton_active in H. rewrite H.
    split; [by intros -> | by intros [= ->]].
  - reflexivity.
Qed.

End ThemeFacts.

(** ** The password form *)

Section PasswordFacts.

Import Dom Session.

Variable JSON_parse : string -> completion value.



Lemma showToast_effect (message : value) (type : string) (app : App) :
  (exists app', showToast message type app = (Normal tt, app') /\ toasted app app') \/
  (exists e, showToast message type app = (Throw e, app)
             /\ is_Some (elements app !! "toast")).
Proof.
  unfold showToast, toasted, one_more_toast.
  destruct (elements app !! "toast") as [t|] eqn:Ht.
  - destruct (text_of message) as [txt|e].
    + left. eexists. split; [reflexivity|]. simpl.
      rewrite lookup_insert_ne by discriminate. rewrite lookup_insert_eq.
      repeat split; eauto.
    + right. exists e. split; [reflexivity | by eexists].
  - left. exists app. split; [reflexivity|]. rewrite Ht. repeat split; tauto.
Qed.

Lemma showToast_Str_effect (msg type : string) (app : App) :
  exists app', showToast (Str msg) type app = (Normal tt, app') /\ toasted app app'.
Proof.
  destruct (showToast_effect (Str msg) type app) as [H|(e & He & _)]; [exact H|].
  unfold showToast in He. destruct (elements app !! "toast"); simpl in He; discriminate.
Qed.


(** X10. [handleChangePassword] never throws, whatever the network does.
    It sends the request (a PUT of the three fields to the password
    address, with the session's authorization) exactly when the new
    password has at least 6 characters and equals its confirmation, and
    sends nothing otherwise. In every case the loading indicator ends
    hidden, exactly one toast is shown, and the token and the local
    storage are untouched; the form is reset only after a valid
    submission answered with status 204. *)
Theorem handleChangePassword_validates (network : completion Reply) (app : App) :
  let new_password := field_value "newPassword" app in
  let valid := negb (js_length new_password <? 6)%nat
               && String.eqb new_password (field_value "confirmNewPassword" app) in
  exists app',
    handleChangePassword JSON_parse network app = (Normal tt, app') /\
    requests app' = (if valid then (requests app ++ [submitted app])%list else requests app) /\
    (forall e, elements app' !! "loading" = Some e -> display e = "none") /\
    hide_timers app' = one_more_toast app /\
    token app' = token app /\ localStorage app' = localStorage app /\
    (resets app' <> resets app ->
     valid = true /\ exists r, network = Normal r /\ reply_status r = 204).
Proof.
  intros new_password valid. subst new_password valid.
  unfold handleChangePassword, mbind, act_bind, modify.
  set (app1 := on_elements Nav.showLoading app).
  assert (Hf : forall id, field_value id app1 = field_value id app).
  { intros id. unfold field_value, app1, on_elements, Nav.showLoading, with_element. simpl.
    destruct (decide (id = "loading")) as [->|Hne].
    - rewrite lookup_alter_eq. by destruct (elements app !! "loading").
    - by rewrite lookup_alter_ne. }
  assert (Ht1 : elements app1 !! "toast" = elements app !! "toast").
  { unfold app1, on_elements, Nav.showLoading, with_element. simpl.
    by rewrite lookup_alter_ne. }
  assert (Hhide : forall a e, elements (on_elements Nav.hideLoading a) !! "loading" = Some e
                              -> display e = "none").
  { intros a e. unfold on_elements, Nav.hideLoading, with_element. simpl.
    rewrite lookup_alter_eq. destruct (elements a !! "loading"); simpl; [|discriminate].
    by intros [= <-]. }
  rewrite !Hf.
  destruct (js_length (field_value "newPassword" app) <? 6)%nat eqn:Hlen;
    cbn beta iota delta [negb andb].
  { (* too short *)
    destruct (showToast_Str_effect "A nova senha deve ter no mínimo 6 caracteres" "error"
                (on_elements Nav.hideLoading app1))
      as (app' & -> & Hreq & Hres & Htok & Hls & Hload & _ & Htim).
    exists app'. split; [reflexivity|]. simpl in *.
    split; [exact Hreq|]. split.
    { intros e. rewrite Hload. apply (Hhide app1). }
    split.
    { rewrite Htim. unfold one_more_toast. simpl.
      unfold Nav.hideLoading, with_element.
      rewrite lookup_alter_ne by discriminate. by rewrite Ht1. }
    split; [exact Htok|]. split; [exact Hls|].
    intros Hr. by rewrite Hres in Hr. }
  destruct (String.eqb (field_value "newPassword" app)
              (field_value "confirmNewPassword" app)) eqn:Heq;
    cbn beta iota delta [negb andb].
  2:{ (* mismatch *)
    destruct (showToast_Str_effect "As senhas novas não coincidem" "error"
                (on_elements Nav.hideLoading app1))
      as (app' & -> & Hreq & Hres & Htok & Hls & Hload & _ & Htim).
    exists app'. split; [reflexivity|]. simpl in *.
    split; [exact Hreq|]. split.
    { intros e. rewrite Hload. apply (Hhide app1). }
    split.
    { rewrite Htim. unfold one_more_toast. simpl.
      unfold Nav.hideLoading, with_element.
      rewrite lookup_alter_ne by discriminate. by rewrite Ht1. }
    split; [exact Htok|]. split; [exact Hls|].
    intros Hr. by rewrite Hres in Hr. }
  (* valid: the request goes out *)
  unfold try_catch_finally, fetch, safeJson, reset_form, modify.
  set (app2 := set_requests _ app1).
  assert (Hreq2 : requests app2 = (requests app ++ [submitted app])%list).
  { unfold app2, submitted. simpl. reflexivity. }
  assert (Ht2 : elements app2 !! "toast" = elements app !! "toast") by exact Ht1.
  assert (Hfin : forall a (P : Prop),
            (requests a = requests app2 /\ token a = token app2 /\
             localStorage a = localStorage app2 /\
             hide_timers a = one_more_toast app2) ->
            (resets a <> resets app -> P) ->
            exists app',
              (let '(r, app3) := (Normal tt, on_elements Nav.hideLoading a)
               in (r, app3)) = (Normal tt, app') /\
              requests app' = (requests app ++ [submitted app])%list /\
              (forall e, elements app' !! "loading" = Some e -> display e = "none") /\
              hide_timers app' = one_more_toast app /\
              token app' = token app /\ localStorage app' = localStorage app /\
              (resets app' <> resets app -> P)).
  { intros a P (Hreq & Htok & Hls & Htim) HP.
    eexists. split; [reflexivity|]. simpl.
    split; [by rewrite Hreq|]. split; [apply Hhide|].
    split; [rewrite Htim; unfold one_more_toast; by rewrite Ht2|].
    split; [exact Htok|]. split; [exact Hls|]. exact HP. }
  destruct network as [reply|err]; simpl.
  - destruct (Z.eqb_spec (reply_status reply) 204) as [H204|Hn204].
    + destruct (showToast_Str_effect "Senha alterada com sucesso!" "success" app2)
        as (a & -> & Ha).
      simpl.
      destruct (Hfin (match elements a !! "changePasswordForm" with
                      | Some _ => set_resets (resets a ++ ["changePasswordForm"])%list a
                      | None => a
                      end)
                  (true = true /\ exists r, Normal reply = Normal r /\ reply_status r = 204))
        as (app' & Heq' & Hrest).
      * destruct Ha as (Hreq & Hres & Htok & Hls & Hload & Hpres & Htim).
        destruct (elements a !! "changePasswordForm"); simpl; tauto.
      * intros _. split; [reflexivity|]. by exists reply.
      * exists app'. split; [exact Heq'|]. exact Hrest.
    + assert (Hcase : forall m,
        exists app',
          (let '(r, app1) := showToast m "error" app2 in
           let '(r0, app2) :=
             match r with
             | Normal _ => (r, app1)
             | Throw _ => showToast (Str "Erro de conexão com o servidor") "error" app1
             end in
           match (Normal tt, on_elements Nav.hideLoading app2) with
           | (Normal _, app3) => (r0, app3)
           | (Throw e, app3) => (Throw e, app3)
           end) = (Normal tt, app') /\
          requests app' = (requests app ++ [submitted app])%list /\
          (forall e, elements app' !! "loading" = Some e -> display e = "none") /\
          hide_timers app' = one_more_toast app /\
          token app' = token app /\ localStorage app' = localStorage app /\
          (resets app' <> resets app ->
           true = true /\ exists r, Normal reply = Normal r /\ reply_status r = 204)).
      { intros m. destruct (showToast_effect m "error" app2) as [(a & -> & Ha)|(e & -> & _)].
        - destruct (Hfin a (true = true /\ exists r, Normal reply = Normal r
                                            /\ reply_status r = 204)
                      ltac:(unfold toasted in Ha; tauto))
            as (app' & Heq' & Hrest).
          + intros Hr. destruct Ha as (_ & Hres & _). simpl in Hres. congruence.
          + exists app'. split; [exact Heq'|]. exact Hrest.
        - destruct (showToast_Str_effect "Erro de conexão com o servidor" "error" app2)
            as (a & -> & Ha).
          destruct (Hfin a (true = true /\ exists r, Normal reply = Normal r
                                            /\ reply_status r = 204)
                      ltac:(unfold toasted in Ha; tauto))
            as (app' & Heq' & Hrest).
          + intros Hr. destruct Ha as (_ & Hres & _). simpl in Hres. congruence.
          + exists app'. split; [exact Heq'|]. exact Hrest. }
      destruct (Http.safeJson JSON_parse _) as [data|e] eqn:Hsj.
      * simpl. destruct (reply_status reply =? 401); apply Hcase.
      * exfalso. unfold Http.safeJson in Hsj. simpl in Hsj.
        destruct (reply_text reply) as [txt|]; simpl in Hsj; [|discriminate].
        destruct (String.eqb txt ""); [discriminate|].
        destruct (JSON_parse txt); discriminate.
  - destruct (showToast_Str_effect "Erro de conexão com o servidor" "error" app2)
      as (a & -> & Ha).
    destruct (Hfin a (true = true /\ exists r, @Throw Reply err = Normal r
                                       /\ reply_status r = 204)
                ltac:(unfold toasted in Ha; tauto))
      as (app' & Heq' & Hrest).
    + intros Hr. destruct Ha as (_ & Hres & _). simpl in Hres. congruence.
    + exists app'. split; [exact Heq'|]. exact Hrest.
Qed.

End PasswordFacts.

(** ** Registration *)

Section RegisterFacts.

Import Dom Session.

Variable JSON_parse : string -> completion value.

Lemma showToast_outcome (message : value) (type : string) (app : App) :
  (exists a, showToast message type app = (Normal tt, a) /\
             requests a = requests app /\ token a = token app /\
             localStorage a = localStorage app /\
             hide_timers a = one_more_toast app /\
             (forall id, id <> "toast" -> elements a !! id = elements app !! id)) \/
  (exists e, showToast message type app = (Throw e, app)).
Proof.
  unfold showToast, one_more_toast.
  destruct (elements app !! "toast") as [t|] eqn:Ht.
  - destruct (text_of message) as [txt|e].
    + left. eexists. split; [reflexivity|]. simpl.
      repeat split; try reflexivity.
      intros id Hne. by rewrite lookup_insert_ne.
    + right. by exists e.
  - left. exists app. split; [reflexivity|]. tauto.
Qed.

Lemma showToast_Str_outcome (msg type : string) (app : App) :
  exists a, showToast (Str msg) type app = (Normal tt, a) /\
            requests a = requests app /\ token a = token app /\
            localStorage a = localStorage app /\
            hide_timers a = one_more_toast app /\
            (forall id, id <> "toast" -> elements a !! id = elements app !! id).
Proof.
  destruct (showToast_outcome (Str msg) type app) as [H|(e & He)]; [exact H|].
  unfold showToast in He. destruct (elements app !! "toast"); simpl in He; discriminate.
Qed.

Lemma safeJson_normal (reply : Reply) (app : App) :
  exists data, safeJson JSON_parse reply app = (Normal data, app).
Proof.
  unfold safeJson, Http.safeJson. simpl.
  destruct (reply_text reply) as [txt|]; simpl; [|by eexists].
  destruct (String.eqb txt ""); [by eexists|].
  destruct (JSON_parse txt); by eexists.
Qed.

(** X23. [handleRegister] never throws, whatever the network does. It
    sends one POST with the trimmed email and the password, ends with the
    loading indicator hidden and exactly one toast shown, and leaves the
    token and the local storage untouched. After an ok response the login
    form replaces the registration form and its email field holds the
    trimmed email; otherwise no element but the toast and the loading
    indicator changes. *)
Theorem handleRegister_flow (network : completion Reply) (app : App) :
  exists app',
    handleRegister JSON_parse network app = (Normal tt, app') /\
    requests app' = (requests app ++ [registration app])%list /\
    (forall e, elements app' !! "loading" = Some e -> display e = "none") /\
    hide_timers app' = one_more_toast app /\
    token app' = token app /\ localStorage app' = localStorage app /\
    (answered_ok network = true ->
     (forall e, elements app' !! "loginForm" = Some e -> display e = "block") /\
     (forall e, elements app' !! "registerForm" = Some e -> display e = "none") /\
     (forall e, elements app' !! "loginEmail" = Some e ->
        input_value e = or_empty (trim <$> field_of "registerEmail" app))) /\
    (answered_ok network = false ->
     forall id, id <> "toast" -> id <> "loading" ->
       elements app' !! id = elements app !! id).
Proof.
  unfold handleRegister, mbind, act_bind, modify.
  set (app1 := on_elements Nav.showLoading app).
  assert (Hel1 : forall id, id <> "loading" -> elements app1 !! id = elements app !! id).
  { intros id Hne. unfold app1, on_elements, Nav.showLoading, with_element. simpl.
    by rewrite lookup_alter_ne. }
  assert (Hf : forall id, field_of id app1 = field_of id app).
  { intros id. unfold field_of. destruct (decide (id = "loading")) as [->|Hne].
    - unfold app1, on_elements, Nav.showLoading, with_element. simpl.
      rewrite lookup_alter_eq. by destruct (elements app !! "loading").
    - by rewrite Hel1. }
  rewrite !Hf.
  unfold try_catch_finally, fetch.
  set (app2 := set_requests _ app1).
  assert (Hreq2 : requests app2 = (requests app ++ [registration app])%list) by reflexivity.
  assert (Hel2 : forall id, id <> "loading" -> elements app2 !! id = elements app !! id)
    by exact Hel1.
  assert (Htoast2 : one_more_toast app2 = one_more_toast app).
  { unfold one_more_toast. rewrite Hel2 by discriminate. reflexivity. }
  assert (Hhide : forall a e, elements (on_elements Nav.hideLoading a) !! "loading" = Some e
                              -> display e = "none").
  { intros a e. unfold on_elements, Nav.hideLoading, with_element. simpl.
    rewrite lookup_alter_eq. destruct (elements a !! "loading"); simpl; [|discriminate].
    by intros [= <-]. }
  assert (Hhide' : forall a id, id <> "loading" ->
            elements (on_elements Nav.hideLoading a) !! id = elements a !! id).
  { intros a id Hne. unfold on_elements, Nav.hideLoading, with_element. simpl.
    by rewrite lookup_alter_ne. }
  (* a toast on [app2], then the finally block: the page is otherwise unchanged *)
  assert (Hfailed : forall a,
            requests a = requests app2 /\ token a = token app2 /\
            localStorage a = localStorage app2 /\
            hide_timers a = one_more_toast app2 /\
            (forall id, id <> "toast" -> elements a !! id = elements app2 !! id) ->
            requests (on_elements Nav.hideLoading a)
            = (requests app ++ [registration app])%list /\
            (forall e, elements (on_elements Nav.hideLoading a) !! "loading" = Some e
                       -> display e = "none") /\
            hide_timers (on_elements Nav.hideLoading a) = one_more_toast app /\
            token (on_elements Nav.hideLoading a) = token app /\
            localStorage (on_elements Nav.hideLoading a) = localStorage app /\
            (forall id, id <> "toast" -> id <> "loading" ->
               elements (on_elements Nav.hideLoading a) !! id = elements app !! id)).
  { intros a (Hr & Ht & Hl & Hh & He).
    split; [exact (eq_trans Hr Hreq2)|]. split; [apply Hhide|].
    split; [exact (eq_trans Hh Htoast2)|]. split; [exact Ht|]. split; [exact Hl|].
    intros id H1 H2.
    rewrite Hhide' by done. rewrite He by done. by apply Hel2. }
  assert (Hcatch : exists a,
            showToast (Str "Erro de conexão com o servidor") "error" app2 = (Normal tt, a) /\
            requests a = requests app2 /\ token a = token app2 /\
            localStorage a = localStorage app2 /\
            hide_timers a = one_more_toast app2 /\
            (forall id, id <> "toast" -> elements a !! id = elements app2 !! id))
    by apply showToast_Str_outcome.
  destruct network as [reply|err]; cbv beta iota.
  - destruct (safeJson_normal reply app2) as (data & ->).
    unfold answered_ok.
    destruct (reply_ok reply) eqn:Hok.
    + (* created *)
      destruct (showToast_Str_outcome "Conta criada com sucesso! Faça login." "success" app2)
        as (a & -> & Hr & Ht & Hl & Hh & He).
      eexists. split; [reflexivity|].
      split; [exact (eq_trans Hr Hreq2)|]. split; [apply Hhide|].
      split; [exact (eq_trans Hh Htoast2)|]. split; [exact Ht|]. split; [exact Hl|].
      split; [|discriminate]. intros _.
      unfold on_elements; cbn [elements set_elements].
      unfold Nav.hideLoading, Nav.showLogin, with_element.
      split; [|split]; intros e;
        repeat first [ rewrite lookup_alter_eq | rewrite lookup_alter_ne by discriminate ];
        destruct (elements a !! _); simpl; try discriminate; by intros [= <-].
    + (* refused *)
      destruct (showToast_outcome (or_else (detail data) (Str "Erro ao criar conta"))
                  "error" app2) as [(a & -> & Ha)|(e & ->)].
      * eexists. split; [reflexivity|].
        destruct (Hfailed a Ha) as (H1 & H2 & H3 & H4 & H5 & H6).
        split; [exact H1|]. split; [exact H2|]. split; [exact H3|].
        split; [exact H4|]. split; [exact H5|]. split; [discriminate|].
        intros _. exact H6.
      * destruct Hcatch as (a & -> & Ha).
        eexists. split; [reflexivity|].
        destruct (Hfailed a Ha) as (H1 & H2 & H3 & H4 & H5 & H6).
        split; [exact H1|]. split; [exact H2|]. split; [exact H3|].
        split; [exact H4|]. split; [exact H5|]. split; [discriminate|].
        intros _. exact H6.
  - destruct Hcatch as (a & -> & Ha).
    eexists. split; [reflexivity|].
    destruct (Hfailed a Ha) as (H1 & H2 & H3 & H4 & H5 & H6).
    split; [exact H1|]. split; [exact H2|]. split; [exact H3|].
    split; [exact H4|]. split; [exact H5|]. split; [discriminate|].
    intros _. exact H6.
Qed.

End RegisterFacts.

Section RegisterSample.

Import Dom Session.

Lemma handleRegister_flow_witness :
  exists app',
    handleRegister (fun _ => Normal (Obj []))
      (Normal {| reply_status := 201; reply_text := Normal "{}" |})
      register_page = (Normal tt, app') /\
    (forall e, elements app' !! "loginEmail" = Some e ->
       input_value e = "ana@example.com") /\
    body <$> requests app' = [[("email", "ana@example.com"); ("password", "s3cret!")]].
Proof.
  destruct (handleRegister_flow (fun _ => Normal (Obj []))
              (Normal {| reply_status := 201; reply_text := Normal "{}" |}) register_page)
    as (app' & H1 & H2 & _ & _ & _ & _ & H3 & _).
  exists app'. split; [exact H1|]. split.
  - intros e He. destruct (H3 eq_refl) as (_ & _ & H). rewrite (H e He). reflexivity.
  - rewrite H2. reflexivity.
Defined.

End RegisterSample.

(** ** Interview counters *)

Section InterviewStatsFacts.

Import Interviews.

Variable rnd : Q -> Q.
Variable toFixed1 : Q -> string.


Lemma increment_other (stats : gmap string number) (key k : string) :
  key <> k -> Dashboard.increment stats key !! k = stats !! k.
Proof.
  intros Hne. unfold Dashboard.increment. destruct (stats !! key).
  - by rewrite lookup_insert_ne.
  - destruct (String.eqb key "__proto__"); [reflexivity | by rewrite lookup_insert_ne].
Qed.

Lemma increment_same (stats : gmap string number) (k : string) (n : Z) :
  stats !! k = Some (Int n) -> Dashboard.increment stats k !! k = Some (Int (n + 1)).
Proof.
  intros H. unfold Dashboard.increment. rewrite H. simpl. apply lookup_insert_eq.
Qed.


Lemma interview_status_cons (k : string) (iv : interview) (ivs : list interview) :
  count_status k (iv :: ivs) = status_step k iv + count_status k ivs.
Proof.
  unfold count_status, status_step. rewrite filter_cons.
  destruct (decide (status iv = k)); simpl length; lia.
Qed.

Lemma status_incremented (stats : gmap string number) (iv : interview) (k : string) (n : Z) :
  stats !! k = Some (Int n) ->
  (if negb (Dashboard.is_undefined (Dashboard.lookup_stat stats (status iv)))
   then Dashboard.increment stats (status iv) else stats) !! k
  = Some (Int (n + status_step k iv)).
Proof.
  intros H. unfold status_step. destruct (decide (status iv = k)) as [->|Hne].
  - unfold Dashboard.lookup_stat. rewrite H. simpl.
    by apply increment_same.
  - replace (n + 0) with n by lia.
    destruct (negb _); [|exact H]. by rewrite increment_other.
Qed.

Lemma count_interview_status (stats : gmap string number) (iv : interview)
    (k : string) (n : Z) :
  ~ In k rating_keys ->
  stats !! k = Some (Int n) ->
  count_interview stats iv !! k = Some (Int (n + status_step k iv)).
Proof.
  intros Hk H. unfold count_interview. unfold rating_keys in Hk. simpl in Hk.
  pose proof (status_incremented stats iv k n H) as Hs.
  destruct (rated iv); [|exact Hs].
  rewrite increment_other by tauto. rewrite lookup_insert_ne by tauto. exact Hs.
Qed.

Lemma fold_status (ivs : list interview) (stats : gmap string number) (k : string) (n : Z) :
  ~ In k rating_keys ->
  stats !! k = Some (Int n) ->
  fold_left count_interview ivs stats !! k = Some (Int (n + count_status k ivs)).
Proof.
  intros Hk. revert stats n. induction ivs as [|iv ivs IH]; intros stats n H; simpl.
  - rewrite H. unfold count_status. simpl. do 2 f_equal. lia.
  - rewrite interview_status_cons.
    rewrite (IH _ (n + status_step k iv)); [do 2 f_equal; lia|].
    by apply count_interview_status.
Qed.

Lemma count_interview_ratings (stats : gmap string number) (iv : interview) (t c : Z) :
  stats !! "totalRating" = Some (Int t) ->
  stats !! "ratingCount" = Some (Int c) ->
  count_interview stats iv !! "totalRating"
    = Some (Int (t + status_step "totalRating" iv + default 0 (rated iv))) /\
  count_interview stats iv !! "ratingCount"
    = Some (Int (c + status_step "ratingCount" iv
                 + (if rated iv is Some _ then 1 else 0))).
Proof.
  intros Ht Hc. unfold count_interview.
  pose proof (status_incremented stats iv _ _ Ht) as Ht'.
  pose proof (status_incremented stats iv _ _ Hc) as Hc'.
  set (s1 := if negb _ then _ else _) in *.
  destruct (rated iv) as [r|]; simpl.
  - split.
    + rewrite increment_other by discriminate. rewrite lookup_insert_eq.
      unfold stat_number. rewrite Ht'. reflexivity.
    + erewrite increment_same; [reflexivity|].
      rewrite lookup_insert_ne by discriminate. exact Hc'.
  - split; [rewrite Ht' | rewrite Hc']; do 2 f_equal; lia.
Qed.

Lemma ratings_cons (iv : interview) (ivs : list interview) :
  sum_Z (ratings (iv :: ivs)) = default 0 (rated iv) + sum_Z (ratings ivs) /\
  Z.of_nat (length (ratings (iv :: ivs)))
  = (if rated iv is Some _ then 1 else 0) + Z.of_nat (length (ratings ivs)).
Proof.
  unfold ratings, sum_Z. simpl. destruct (rated iv); simpl;
    change (list_omap interview Z rated ivs) with (omap rated ivs); split; lia.
Qed.

Lemma fold_ratings (ivs : list interview) (stats : gmap string number) (t c : Z) :
  stats !! "totalRating" = Some (Int t) ->
  stats !! "ratingCount" = Some (Int c) ->
  fold_left count_interview ivs stats !! "totalRating"
    = Some (Int (t + count_status "totalRating" ivs + sum_Z (ratings ivs))) /\
  fold_left count_interview ivs stats !! "ratingCount"
    = Some (Int (c + count_status "ratingCount" ivs + Z.of_nat (length (ratings ivs)))).
Proof.
  revert stats t c. induction ivs as [|iv ivs IH]; intros stats t c Ht Hc;
    cbn [fold_left].
  - rewrite Ht, Hc. unfold count_status. simpl. split; do 2 f_equal; lia.
  - destruct (count_interview_ratings stats iv t c Ht Hc) as [Ht' Hc'].
    destruct (IH _ _ _ Ht' Hc') as [-> ->].
    rewrite !interview_status_cons. destruct (ratings_cons iv ivs) as [-> ->].
    split; do 2 f_equal; lia.
Qed.

(** X11. [updateInterviewStats] never throws and writes, for every list of
    interviews, the number of scheduled ones, the number of completed
    ones, and the number of cancelled and rescheduled ones together; the
    fourth counter is the average rating. *)
Theorem updateInterviewStats_counts (interviews : list interview)
    (doc : gmap string string) :
  updateInterviewStats rnd toFixed1 interviews doc
  = Normal
      (Dashboard.set_textContent "statAvgRating"
         (avgRating rnd toFixed1 (count_interviews interviews))
         (Dashboard.set_textContent "statCancelled"
            (Z_to_string (count_status "cancelled" interviews
                          + count_status "rescheduled" interviews))
            (Dashboard.set_textContent "statCompleted"
               (Z_to_string (count_status "completed" interviews))
               (Dashboard.set_textContent "statScheduled"
                  (Z_to_string (count_status "scheduled" interviews)) doc)))).
Proof.
  unfold updateInterviewStats.
  assert (Hk : forall k, In k status_names ->
             count_interviews interviews !! k = Some (Int (count_status k interviews))).
  { intros k Hin. unfold count_interviews.
    rewrite (fold_status interviews _ k 0).
    - reflexivity.
    - unfold status_names in Hin. simpl in Hin. unfold rating_keys. simpl.
      intros [<-|[<-|[]]]; intuition discriminate.
    - unfold status_names in Hin. simpl in Hin.
      destruct Hin as [<-|[<-|[<-|[<-|[]]]]]; reflexivity. }
  unfold Dashboard.lookup_stat, stat_number.
  rewrite (Hk "scheduled"), (Hk "completed"), (Hk "cancelled"), (Hk "rescheduled")
    by (unfold status_names; simpl; auto).
  erewrite (setText_returns "statScheduled") by reflexivity. rewrite bind_normal.
  erewrite (setText_returns "statCompleted") by reflexivity. rewrite bind_normal.
  erewrite (setText_returns "statCancelled") by reflexivity. rewrite bind_normal.
  apply setText_returns. reflexivity.
Qed.

(** X12. When no interview has a status named like one of the two rating
    keys of the counters object, the average rating shown is the sum of
    the ratings other than 0 divided by their number, printed with one
    decimal, and the dash when no interview has such a rating. *)
Theorem average_rating (interviews : list interview) :
  (forall iv, In iv interviews -> ~ In (status iv) rating_keys) ->
  avgRating rnd toFixed1 (count_interviews interviews)
  = if (0 <? Z.of_nat (length (ratings interviews)))
    then toFixed1 (rnd (inject_Z (sum_Z (ratings interviews))
                        / inject_Z (Z.of_nat (length (ratings interviews)))))
    else "-".
Proof.
  intros Hno.
  assert (Hz : forall k, In k rating_keys -> count_status k interviews = 0).
  { intros k Hk. unfold count_status.
    replace (filter (fun iv => status iv = k) interviews) with (@nil interview);
      [reflexivity|].
    symmetry. induction interviews as [|iv ivs IH]; [reflexivity|].
    rewrite filter_cons. destruct (decide (status iv = k)) as [<-|Hne].
    - exfalso. apply (Hno iv); [by left | exact Hk].
    - apply IH. intros iv' Hin. apply Hno. by right. }
  unfold avgRating, stat_number, count_interviews.
  destruct (fold_ratings interviews initial_stats 0 0 eq_refl eq_refl) as [-> ->].
  rewrite (Hz "totalRating"), (Hz "ratingCount") by (unfold rating_keys; simpl; auto).
  simpl. reflexivity.
Qed.

End InterviewStatsFacts.

Section InterviewStatsSample.

Import Interviews.

Lemma average_rating_witness :
  avgRating Profile.exact toFixed1_exact (count_interviews rated_interviews) = "4.5".
Proof.
  rewrite (average_rating Profile.exact toFixed1_exact rated_interviews).
  - reflexivity.
  - intros iv Hin. unfold rated_interviews in Hin. simpl in Hin.
    destruct Hin as [<-|[<-|[<-|[]]]]; unfold rating_keys; simpl;
      intuition discriminate.
Defined.

End InterviewStatsSample.

(** ** More on escaping *)

Section EscapeMore.

Import Html Markup.


Ltac escapeChar_cases' a E1 E2 E3 E4 E5 :=
  unfold escapeChar;
  destruct (Ascii.eqb a "&") eqn:E1; [|
  destruct (Ascii.eqb a "<") eqn:E2; [|
  destruct (Ascii.eqb a ">") eqn:E3; [|
  destruct (Ascii.eqb a dquote) eqn:E4; [|
  destruct (Ascii.eqb a "'") eqn:E5]]]].

Lemma escapeChar_head (c1 c2 : ascii) (r1 r2 : string) :
  escapeChar c1 +:+ r1 = escapeChar c2 +:+ r2 -> c1 = c2 /\ r1 = r2.
Proof.
  escapeChar_cases' c1 A1 A2 A3 A4 A5; escapeChar_cases' c2 B1 B2 B3 B4 B5;
    cbv beta iota delta [String.append]; intros H;
    repeat match goal with
           | E : Ascii.eqb _ _ = true |- _ => apply Ascii.eqb_eq in E; subst
           end;
    try (injection H as H; try discriminate);
    try discriminate;
    try (split; congruence).
  all: try (injection H as <- ; try (split; [reflexivity | assumption])).
  all: try (exfalso; subst;
            match goal with
            | E : Ascii.eqb ?x ?x = false |- _ => rewrite Ascii.eqb_refl in E; discriminate
            end).
Qed.

Lemma escapeChars_nonempty (c : ascii) (s : string) : escapeChars (String c s) <> "".
Proof.
  simpl. escapeChar_cases' c A1 A2 A3 A4 A5; cbv beta iota delta [String.append];
    discriminate.
Qed.

Lemma escapeChars_injective (a b : string) : escapeChars a = escapeChars b -> a = b.
Proof.
  revert b. induction a as [|c a IH]; intros [|d b] H.
  - reflexivity.
  - exfalso. symmetry in H. by apply escapeChars_nonempty in H.
  - exfalso. by apply escapeChars_nonempty in H.
  - simpl in H. apply escapeChar_head in H as [-> H]. f_equal. by apply IH.
Qed.

(** X13. Escaping loses nothing: two strings with the same escaped form
    are the same string. *)
Theorem escapeHtml_injective (a b : string) :
  escapeHtml (Str a) = escapeHtml (Str b) -> a = b.
Proof.
  unfold escapeHtml, escapeHtml_with. simpl. rewrite !escape_passes. intros [= H].
  by apply escapeChars_injective.
Qed.

Lemma escapeChar_length (c : ascii) :
  (if bool_decide (In c special_chars) then 4 <= String.length (escapeChar c)
   else escapeChar c = String c "")%nat.
Proof.
  unfold special_chars.
  escapeChar_cases' c A1 A2 A3 A4 A5;
    repeat match goal with
           | E : Ascii.eqb _ _ = true |- _ => apply Ascii.eqb_eq in E; subst
           end; try (vm_compute; lia).
  rewrite bool_decide_eq_false_2; [reflexivity|].
  apply Ascii.eqb_neq in A1, A2, A3, A4, A5. simpl. intuition congruence.
Qed.

Lemma length_append (a b : string) :
  String.length (a +:+ b) = (String.length a + String.length b)%nat.
Proof. induction a as [|c a IH]; [reflexivity|]. rewrite append_cons. simpl. by rewrite IH. Qed.

Lemma escapeChars_length (s : string) : (String.length s <= String.length (escapeChars s))%nat.
Proof.
  induction s as [|c s IH]; [reflexivity|]. simpl. rewrite length_append.
  pose proof (escapeChar_length c) as H.
  destruct (bool_decide (In c special_chars)); [lia|]. rewrite H. simpl. lia.
Qed.

Lemma escapeHtml_injective_witness :
  escapeHtml (Str "a<b") = escapeHtml (Str "a<b") /\ "a<b" = "a<b".
Proof.
  split; [reflexivity|]. apply (escapeHtml_injective "a<b" "a<b"). reflexivity.
Defined.

(** X14. [escapeHtml] returns a string unchanged exactly when the string
    holds none of the five characters it replaces. *)
Theorem escapeHtml_plain (s : string) :
  escapeHtml (Str s) = Normal s
  <-> (forall i c, String.get i s = Some c -> ~ In c special_chars).
Proof.
  unfold escapeHtml, escapeHtml_with. simpl. rewrite escape_passes. split.
  - intros [= H]. induction s as [|c s IH]; intros i c'.
    + by destruct i.
    + simpl in H. pose proof (escapeChar_length c) as Hc.
      pose proof (escapeChars_length s) as Hs.
      destruct (bool_decide (In c special_chars)) eqn:Hd.
      * exfalso. apply (f_equal String.length) in H.
        rewrite length_append in H. simpl in H. lia.
      * apply bool_decide_eq_false in Hd. rewrite Hc in H.
        rewrite append_cons in H. injection H as H.
        destruct i as [|i]; simpl.
        -- by intros [= <-].
        -- by apply IH.
  - intros H. f_equal. induction s as [|c s IH]; [reflexivity|]. simpl.
    pose proof (escapeChar_length c) as Hc.
    rewrite bool_decide_eq_false_2 in Hc by (apply (H 0%nat); reflexivity).
    rewrite Hc, append_cons. f_equal. apply IH. intros i. apply (H (S i)).
Qed.

End EscapeMore.

(** ** Labels of statuses and interview types *)

Section LabelFacts.

Import Interviews Labels.



Lemma prototype_undefined (key : string) :
  ~ In key Object_prototype_keys -> Object_prototype key = Undefined.
Proof.
  intros H. unfold Object_prototype. rewrite bool_decide_eq_false_2; [reflexivity|].
  by rewrite list_elem_of_In.
Qed.


Lemma get_table (table : list (string * string)) (key : string) :
  ~ In key Object_prototype_keys ->
  get (object_of table) key
  = match List.find (fun kv => String.eqb (fst kv) key) table with
    | Some kv => Str (snd kv)
    | None => Undefined
    end.
Proof.
  intros Hp. unfold get, object_of. induction table as [|[k v] table IH]; simpl.
  - rewrite lookup_empty. by apply prototype_undefined.
  - destruct (String.eqb_spec k key) as [->|Hne].
    + by rewrite lookup_insert_eq.
    + rewrite lookup_insert_ne by done. exact IH.
Qed.

Lemma label_table (table : list (string * string)) (fallback key : string) :
  ~ In key Object_prototype_keys ->
  Forall (fun kv => snd kv <> "") table ->
  or_else (get (object_of table) key) (Str fallback)
  = Str (label_in table fallback key).
Proof.
  intros Hp Hall. rewrite get_table by exact Hp. unfold label_in.
  destruct (List.find _ table) as [kv|] eqn:Hf; [|reflexivity].
  apply find_some in Hf as [Hin _].
  rewrite Forall_forall in Hall. apply list_elem_of_In in Hin.
  specialize (Hall kv Hin). unfold or_else. simpl.
  destruct (String.eqb_spec (snd kv) ""); [done | reflexivity].
Qed.

(** X15. For a key that does not name a property of [Object.prototype],
    each of the five label helpers returns a string: the entry of its
    table for a known key, and for any other key the key itself (texts) or
    the memo icon (icons). *)
Theorem labels_of_known_and_unknown (key : string) :
  ~ In key Object_prototype_keys ->
  getInterviewTypeText key = Str (label_in type_table key key) /\
  getInterviewStatusText key = Str (label_in status_table key key) /\
  getInterviewStatusIcon key = Str (label_in icon_table "&#128221;" key) /\
  Dashboard.getStatusText key = Str (label_in application_table key key) /\
  Dashboard.getStatusIcon key = Str (label_in application_icons Dashboard.icon_memo key).
Proof.
  intros Hp.
  repeat split.
  - apply (label_table type_table key key Hp). repeat (constructor; [discriminate|]).
    constructor.
  - apply (label_table status_table key key Hp). repeat (constructor; [discriminate|]).
    constructor.
  - apply (label_table icon_table _ key Hp). repeat (constructor; [discriminate|]).
    constructor.
  - apply (label_table application_table key key Hp).
    repeat (constructor; [discriminate|]). constructor.
  - apply (label_table application_icons _ key Hp).
    repeat (constructor; [discriminate|]). constructor.
Qed.

Lemma labels_of_known_and_unknown_witness :
  getInterviewTypeText "in_person" = Str "Presencial" /\
  getInterviewStatusText "rescheduled" = Str "Reagendada" /\
  getInterviewStatusIcon "missed" = Str "&#128221;".
Proof.
  assert (Hp : ~ In "in_person" Object_prototype_keys)
    by (unfold Object_prototype_keys; simpl; intuition discriminate).
  assert (Hq : ~ In "rescheduled" Object_prototype_keys)
    by (unfold Object_prototype_keys; simpl; intuition discriminate).
  assert (Hr : ~ In "missed" Object_prototype_keys)
    by (unfold Object_prototype_keys; simpl; intuition discriminate).
  destruct (labels_of_known_and_unknown "in_person" Hp) as (H1 & _).
  destruct (labels_of_known_and_unknown "rescheduled" Hq) as (_ & H2 & _).
  destruct (labels_of_known_and_unknown "missed" Hr) as (_ & _ & H3 & _).
  exact (conj H1 (conj H2 H3)).
Defined.



End LabelFacts.

(** ** The dashboard counters, for statuses other than total *)

Section MoreDashboard.

Import Dashboard.

Lemma updateStats_without_total (apps : list application) (doc : gmap string string) :
  (forall app, In app apps -> status app <> "total") ->
  updateStats apps doc
  = Normal
      (set_textContent "statTotal" (Z_to_string (Z.of_nat (length apps)))
         (set_textContent "statRejeitado" (Z_to_string (count_status "rejeitado" apps))
            (set_textContent "statEntrevista"
               (Z_to_string (count_status "entrevista" apps))
               (set_textContent "statEsperando"
                  (Z_to_string (count_status "esperando" apps)) doc)))).
Proof.
  intros Hno. rewrite updateStats_returns.
  assert (Hz : count_status "total" apps = 0).
  { unfold count_status.
    replace (filter (fun app => status app = "total") apps) with (@nil application);
      [reflexivity|].
    symmetry. induction apps as [|app apps IH]; [reflexivity|].
    rewrite filter_cons. destruct (decide (status app = "total")) as [E|Hne].
    - exfalso. apply (Hno app); [by left | exact E].
    - apply IH. intros app' Hin. apply Hno. by right. }
  rewrite Hz. do 3 f_equal. lia.
Qed.

(** X17. When no application has the status total, [updateStats] returns
    and each of the four counter elements the page has shows its number:
    the applications of the status for the three status counters, the
    length of the list for the total. No other element changes and none
    is created or removed. *)
Theorem updateStats_writes_counts (apps : list application) (doc : gmap string string) :
  (forall app, In app apps -> status app <> "total") ->
  exists doc',
    updateStats apps doc = Normal doc' /\
    (is_Some (doc !! "statEsperando") ->
     doc' !! "statEsperando" = Some (Z_to_string (count_status "esperando" apps))) /\
    (is_Some (doc !! "statEntrevista") ->
     doc' !! "statEntrevista" = Some (Z_to_string (count_status "entrevista" apps))) /\
    (is_Some (doc !! "statRejeitado") ->
     doc' !! "statRejeitado" = Some (Z_to_string (count_status "rejeitado" apps))) /\
    (is_Some (doc !! "statTotal") ->
     doc' !! "statTotal" = Some (Z_to_string (Z.of_nat (length apps)))) /\
    (forall id, ~ In id stat_ids -> doc' !! id = doc !! id) /\
    (forall id, is_Some (doc' !! id) <-> is_Some (doc !! id)).
Proof.
  intros Hno. eexists. split; [by apply updateStats_without_total|].
  split; [|split; [|split; [|split; [|split]]]].
  1-4: intros [old Hold]; rewrite !set_textContent_lookup, Hold;
       repeat (destruct (decide _) as [?|?]; try discriminate; try congruence);
       reflexivity.
  - intros id Hid. unfold stat_ids in Hid. simpl in Hid.
    rewrite !set_textContent_lookup.
    destruct (doc !! id) as [old|]; [|reflexivity].
    repeat (destruct (decide _) as [<-|?]; [exfalso; tauto|]). reflexivity.
  - intros id. rewrite !set_textContent_lookup.
    destruct (doc !! id); split; intros [x Hx]; try discriminate; by eexists.
Qed.

Lemma updateStats_writes_counts_witness :
  exists doc',
    updateStats [app_with "esperando"; app_with "entrevista"; app_with "arquivada"]
      counters = Normal doc' /\
    doc' !! "statEsperando" = Some "1" /\
    doc' !! "statEntrevista" = Some "1" /\
    doc' !! "statRejeitado" = Some "0" /\
    doc' !! "statTotal" = Some "3".
Proof.
  destruct (updateStats_writes_counts
              [app_with "esperando"; app_with "entrevista"; app_with "arquivada"] counters)
    as (doc' & H & H1 & H2 & H3 & H4 & _).
  - intros app Hin. simpl in Hin. destruct Hin as [<-|[<-|[<-|[]]]]; discriminate.
  - exists doc'. split; [exact H|].
    split; [apply H1; by eexists|]. split; [apply H2; by eexists|].
    split; [apply H3; by eexists|]. apply H4. by eexists.
Defined.

End MoreDashboard.

(** ** More on the notification bar *)

Section MoreNotifications.

Import Notifications Markup.




Lemma groups_of_items (c : string) (items : list item) (rest : list node) :
  groups_of (map (fun it => NotificationItem it c) items ++ rest)%list
  = ((map (fun it => (it, c)) items ++ (groups_of rest).1)%list, (groups_of rest).2).
Proof.
  induction items as [|it items IH]; simpl.
  - by destruct (groups_of rest).
  - rewrite IH. reflexivity.
Qed.

Lemma groups_of_category (h c : string) (items : list item) (rest : list node) :
  (groups_of rest).1 = [] ->
  groups_of (category_html h c items ++ rest)%list
  = ([], (group_if h c items ++ (groups_of rest).2)%list).
Proof.
  intros Hlead. unfold category_html, group_if. destruct items as [|it items].
  - simpl. rewrite <- Hlead. by destruct (groups_of rest).
  - change (0 <? length (it :: items))%nat with true. cbn iota.
    change ((CategoryHeading h :: map (fun it0 => NotificationItem it0 c) (it :: items))
            ++ rest)%list
      with (CategoryHeading h
            :: (map (fun it0 => NotificationItem it0 c) (it :: items) ++ rest)%list).
    cbn [groups_of]. rewrite groups_of_items, Hlead, app_nil_r. reflexivity.
Qed.

Lemma category_html_no_notice (h c : string) (items : list item) :
  EmptyNotice ∉ category_html h c items.
Proof.
  unfold category_html. destruct (0 <? length items)%nat; [|set_solver].
  intros Hin. apply elem_of_cons in Hin as [Hin|Hin]; [discriminate|].
  apply list_elem_of_fmap in Hin as (it & Heq & _). discriminate.
Qed.

(** X18. With a dropdown body on the page and a total other than 0,
    [renderNotificationDropdown] writes no item before the first heading
    and no empty notice, and then, for each of today, tomorrow and this
    week that has an item, in this order, one heading followed by the
    items of that category, each once, in the order received and with the
    class of the category. The badge and the bell are left alone. *)
Theorem dropdown_lists_items (data : Payload) (bar : Bar) :
  is_Some (notificationDropdownBody bar) ->
  total_count data <> 0 ->
  exists html,
    notificationDropdownBody (renderNotificationDropdown data bar) = Some html /\
    groups_of html
    = ([], (group_if "Hoje" "today" (today data)
            ++ group_if "Amanha" "tomorrow" (tomorrow data)
            ++ group_if "Esta Semana" "this-week" (this_week data))%list) /\
    (EmptyNotice ∉ html) /\
    notificationBadge (renderNotificationDropdown data bar) = notificationBadge bar /\
    notificationBell (renderNotificationDropdown data bar) = notificationBell bar.
Proof.
  intros [body Hb] Hnz. unfold renderNotificationDropdown. rewrite Hb. simpl.
  destruct (Z.eqb_spec (total_count data) 0) as [?|_]; [done|].
  eexists. split; [reflexivity|]. split; [|split; [|split; reflexivity]].
  - rewrite groups_of_category.
    + rewrite groups_of_category.
      * rewrite <- (app_nil_r (category_html "Esta Semana" "this-week" (this_week data))).
        rewrite groups_of_category by reflexivity.
        simpl. by rewrite app_nil_r.
      * rewrite <- (app_nil_r (category_html "Esta Semana" "this-week" (this_week data))).
        by rewrite groups_of_category.
    + rewrite groups_of_category; [reflexivity|].
      rewrite <- (app_nil_r (category_html "Esta Semana" "this-week" (this_week data))).
      by rewrite groups_of_category.
  - rewrite !elem_of_app. intros [H|[H|H]]; by apply category_html_no_notice in H.
Qed.

Lemma dropdown_lists_items_witness :
  exists html,
    notificationDropdownBody (renderNotificationDropdown sample_payload sample_bar)
    = Some html /\
    groups_of html
    = ([], [ ("Hoje", map (fun it => (it, "today")) (today sample_payload));
             ("Amanha", map (fun it => (it, "tomorrow")) (tomorrow sample_payload));
             ("Esta Semana",
              map (fun it => (it, "this-week")) (this_week sample_payload)) ]).
Proof.
  destruct (dropdown_lists_items sample_payload sample_bar) as (html & H1 & H2 & _).
  - simpl. by eexists.
  - discriminate.
  - exists html. split; [exact H1|]. rewrite H2. reflexivity.
Defined.

Lemma bell_after_update (count : Z) (bar : Bar) (badge : Badge) (classes : gset string) :
  notificationBadge bar = Some badge ->
  notificationBell bar = Some classes ->
  notificationBell (updateNotificationBadge count bar)
    = Some (if 0 <? count then classes ∪ {[ "has-notifications" ]}
            else classes ∖ {[ "has-notifications" ]}) /\
  notificationDropdownBody (updateNotificationBadge count bar)
    = notificationDropdownBody bar.
Proof.
  intros Hb Hc. unfold updateNotificationBadge. rewrite Hb, Hc.
  by destruct (0 <? count).
Qed.

(** X19. With the badge and the bell on the page, after
    [updateNotificationBadge] the bell has the class has-notifications
    exactly when the count is above 0; its other classes and the dropdown
    body are unchanged, and a second call with the same count changes
    nothing. *)
Theorem badge_bell_class (count : Z) (bar : Bar) (badge : Badge) (classes : gset string) :
  notificationBadge bar = Some badge ->
  notificationBell bar = Some classes ->
  notificationBell (updateNotificationBadge count bar)
    = Some (if 0 <? count then classes ∪ {[ "has-notifications" ]}
            else classes ∖ {[ "has-notifications" ]}) /\
  (forall classes', notificationBell (updateNotificationBadge count bar) = Some classes' ->
     ("has-notifications" ∈ classes' <-> 0 < count) /\
     (forall c, c <> "has-notifications" -> c ∈ classes' <-> c ∈ classes)) /\
  notificationDropdownBody (updateNotificationBadge count bar)
    = notificationDropdownBody bar /\
  updateNotificationBadge count (updateNotificationBadge count bar)
    = updateNotificationBadge count bar.
Proof.
  intros Hb Hc. unfold updateNotificationBadge. rewrite Hb, Hc.
  destruct (Z.ltb_spec 0 count) as [Hpos|Hle]; simpl.
  - split; [reflexivity|]. split.
    + intros classes' [= <-]. split; [set_solver|]. intros c Hne. set_solver.
    + split; [reflexivity|]. destruct (Z.ltb_spec 0 count); [|lia].
      f_equal. f_equal. set_solver.
  - split; [reflexivity|]. split.
    + intros classes' [= <-]. split; [split; [set_solver | lia]|].
      intros c Hne. set_solver.
    + split; [reflexivity|]. destruct (Z.ltb_spec 0 count); [lia|].
      f_equal. f_equal. set_solver.
Qed.

Lemma badge_bell_class_witness :
  notificationBell (updateNotificationBadge 3 sample_bar)
  = Some (∅ ∪ {[ "has-notifications" ]}).
Proof.
  destruct (badge_bell_class 3 sample_bar {| display := ""; textContent := "" |} ∅
              eq_refl eq_refl) as (H & _).
  exact H.
Defined.

(** X20. [loadNotifications] with a token, an ok response and a payload,
    on a page with the three elements, leaves the badge hidden exactly
    when the total is at most 0, the empty notice exactly when the total
    is 0, and the bell marked exactly when the total is above 0. Without a
    token, after a failed request, a response that is not ok or a body
    that reads as null, the page is unchanged. *)
Theorem loadNotifications_effect (token : option string) (request : completion Fetched)
    (bar : Bar) :
  (forall data, has_token token = true ->
     request = Normal {| fetched_ok := true; fetched_data := Some data |} ->
     is_Some (notificationBadge bar) -> is_Some (notificationBell bar) ->
     is_Some (notificationDropdownBody bar) ->
     let bar' := loadNotifications token request bar in
     (badge_hidden bar' <-> total_count data <= 0) /\
     (empty_state bar' <-> total_count data = 0) /\
     (forall classes, notificationBell bar' = Some classes ->
        ("has-notifications" ∈ classes <-> 0 < total_count data))) /\
  ((has_token token = false \/ (exists e, request = Throw e)
    \/ (exists r, request = Normal r /\ (fetched_ok r = false \/ fetched_data r = None))) ->
   loadNotifications token request bar = bar).
Proof.
  split.
  - intros data Htok -> Hbadge Hbell Hbody bar'. subst bar'.
    unfold loadNotifications. rewrite Htok. simpl.
    set (bar1 := updateNotificationBadge (total_count data) bar).
    assert (Hbody1 : is_Some (notificationDropdownBody bar1)).
    { destruct Hbadge as [b Hb], Hbell as [c Hc].
      destruct (bell_after_update (total_count data) bar b c Hb Hc) as (_ & E).
      unfold bar1. rewrite E. exact Hbody. }
    pose proof (badge_hidden_iff (total_count data) bar Hbadge Hbell) as Hh.
    pose proof (dropdown_empty_state data bar1 Hbody1) as He.
    assert (Hkeep : notificationBadge (renderNotificationDropdown data bar1)
                    = notificationBadge bar1 /\
                    notificationBell (renderNotificationDropdown data bar1)
                    = notificationBell bar1).
    { unfold renderNotificationDropdown. destruct (notificationDropdownBody bar1);
        simpl; tauto. }
    destruct Hkeep as [K1 K2].
    split; [unfold badge_hidden in *; rewrite K1; exact Hh|].
    split; [exact He|].
    intros classes. rewrite K2. destruct Hbadge as [b Hb], Hbell as [c Hc].
    destruct (bell_after_update (total_count data) bar b c Hb Hc) as (E & _).
    unfold bar1. rewrite E. intros [= <-].
    destruct (Z.ltb_spec 0 (total_count data)); [set_solver|].
    split; [set_solver | lia].
  - unfold loadNotifications. intros [H|[(e & ->)|(r & -> & [H|H])]].
    + by rewrite H.
    + by destruct (has_token token).
    + rewrite H. by destruct (has_token token).
    + rewrite H. destruct (has_token token); [|reflexivity].
      by destruct (fetched_ok r).
Qed.

End MoreNotifications.

(** ** Addresses *)

Section ApiFacts.

Import Api.

(** X21. [apiUrl] gives the same address for a path with and without its
    leading slash: the origin, one slash, the path. The origin is the
    local server exactly when the page is served from localhost or
    127.0.0.1. *)
Theorem apiUrl_leading_slash (hostname path : string) :
  startsWith path "/" = false ->
  apiUrl hostname ("/" +:+ path) = apiUrl hostname path /\
  apiUrl hostname path = API_ORIGIN hostname +:+ "/" +:+ path /\
  (API_ORIGIN hostname = "http://localhost:8000"
   <-> hostname = "localhost" \/ hostname = "127.0.0.1").
Proof.
  intros H. unfold apiUrl. rewrite H. split; [reflexivity|]. split; [reflexivity|].
  unfold API_ORIGIN, isLocal.
  destruct (String.eqb_spec hostname "localhost") as [->|H1]; simpl; [tauto|].
  destruct (String.eqb_spec hostname "127.0.0.1") as [->|H2]; simpl; [tauto|].
  split; [discriminate | tauto].
Qed.

Lemma apiUrl_leading_slash_witness :
  apiUrl "localhost" ("/" +:+ "auth/login") = apiUrl "localhost" "auth/login" /\
  apiUrl "localhost" "auth/login" = API_ORIGIN "localhost" +:+ "/" +:+ "auth/login".
Proof.
  destruct (apiUrl_leading_slash "localhost" "auth/login") as (H1 & H2 & _).
  - reflexivity.
  - exact (conj H1 H2).
Defined.

End ApiFacts.
